(** * pygelbooru: a shallow embedding of [pygelbooru/gelbooru.py]

    The client issues HTTP GET requests to the Gelbooru XML API, parses the
    body with [xmltodict] and wraps the parsed mappings into [GelbooruImage],
    [GelbooruTag] and [GelbooruComment] objects.

    Modelling choices, all of them visible in the definitions below:
    - a Python [str] that the operations handle is a [string] whose
      characters are the code points 0..255 (Latin-1) with Python's own
      classification of them; [bytes] is a [string] as well. Tag formatting
      is also embedded over strings of any code points ([UStr], a list of
      code points and the Unicode tables as a parameter), and the two agree
      below U+0100 ([codes_format_tags]);
    - what [xmltodict.parse] returns is a [pyval]: [None], a [str], a [dict]
      (a [gmap] with string keys) or a [list];
    - an [async def] is a computation in the monad [M]: it threads the
      [World] (the trace of network requests and parser calls, the store of
      the mutable record objects, the number of random draws) and ends with a
      value or with a raised exception;
    - the libraries the client calls ([aiohttp], [xmltodict], [int] on a
      [str], [urlparse]/[basename], [repr], [random]) are the fields of
      [Runtime]. *)

From Stdlib Require Import ZArith Ascii String List Lia Bool.
From stdpp Require Import base option list strings gmap.

Local Open Scope string_scope.
Local Open Scope Z_scope.

(** ** Python strings *)

Module PyStr.

Definition code (c : ascii) : N := N_of_ascii c.

(** [str.isspace] on the code points below 256. *)
Definition isspace (c : ascii) : bool :=
  let n := code c in
  ((9 <=? n) && (n <=? 13) || (28 <=? n) && (n <=? 32)
   || (n =? 133) || (n =? 160))%N.

(** The code points below 256 that [str.lower] changes. *)
Definition isupper (c : ascii) : bool :=
  let n := code c in
  ((65 <=? n) && (n <=? 90) || (192 <=? n) && (n <=? 214)
   || (216 <=? n) && (n <=? 222))%N.

Definition lower_char (c : ascii) : ascii :=
  if isupper c then ascii_of_N (code c + 32) else c.

Fixpoint lower (s : string) : string :=
  match s with
  | EmptyString => EmptyString
  | String c s' => String (lower_char c) (lower s')
  end.

(** [s.replace(old, new)] for one-character [old] and [new]. *)
Fixpoint replace (old new : ascii) (s : string) : string :=
  match s with
  | EmptyString => EmptyString
  | String c s' =>
      String (if Ascii.eqb c old then new else c) (replace old new s')
  end.

(** [s.lstrip(chars)], [s.rstrip(chars)]: [p] says which characters go. *)
Fixpoint lstrip (p : ascii -> bool) (s : string) : string :=
  match s with
  | EmptyString => EmptyString
  | String c s' => if p c then lstrip p s' else s
  end.

Fixpoint rstrip (p : ascii -> bool) (s : string) : string :=
  match s with
  | EmptyString => EmptyString
  | String c s' =>
      match rstrip p s' with
      | EmptyString => if p c then EmptyString else String c EmptyString
      | r => String c r
      end
  end.

(** [s.strip()] *)
Definition strip (s : string) : string := rstrip isspace (lstrip isspace s).

Definition is_dash (c : ascii) : bool := Ascii.eqb c "-".

(** [sep.join(l)] *)
Fixpoint join (sep : string) (l : list string) : string :=
  match l with
  | [] => EmptyString
  | [s] => s
  | s :: l' => s ++ sep ++ join sep l'
  end.

(** [s.split(' ')]: the pieces between single space characters. *)
Fixpoint split_space (s : string) : list string :=
  match s with
  | EmptyString => [EmptyString]
  | String c s' =>
      if Ascii.eqb c " " then EmptyString :: split_space s'
      else match split_space s' with
           | [] => [String c EmptyString]
           | w :: ws => String c w :: ws
           end
  end.

(** [needle in s] for two strings. *)
Fixpoint substring_of (needle s : string) : bool :=
  String.prefix needle s ||
  match s with
  | EmptyString => false
  | String _ s' => substring_of needle s'
  end.

Fixpoint forall_chars (p : ascii -> bool) (s : string) : bool :=
  match s with
  | EmptyString => true
  | String c s' => p c && forall_chars p s'
  end.

(** What the claims say of a formatted tag. *)
Definition is_lowercase (s : string) : bool :=
  forall_chars (fun c => negb (isupper c)) s.

Definition no_space (s : string) : bool :=
  forall_chars (fun c => negb (Ascii.eqb c " ")) s.

Definition starts_with_dash (s : string) : bool :=
  match s with
  | String c _ => is_dash c
  | EmptyString => false
  end.

(** [s] is one ['-'] followed by something that does not start with ['-']. *)
Definition one_leading_dash (s : string) : bool :=
  match s with
  | String c rest => is_dash c && negb (starts_with_dash rest)
  | EmptyString => false
  end.

End PyStr.

(** ** Tag formatting: [Gelbooru._format_tags] *)

(** [tag.strip().lower().replace(' ', '_')] *)
Definition format_tag (tag : string) : string :=
  PyStr.replace " " "_" (PyStr.lower (PyStr.strip tag)).

(** ['-' + tag.strip().lstrip('-').lower().replace(' ', '_')] *)
Definition format_exclude_tag (tag : string) : string :=
  "-" ++ PyStr.replace " " "_"
           (PyStr.lower (PyStr.lstrip PyStr.is_dash (PyStr.strip tag))).

(** Truth value of an optional list: [None] and [[]] are false. *)
Definition list_truthy {A} (l : option (list A)) : bool :=
  match l with
  | Some (_ :: _) => true
  | _ => false
  end.

Definition _format_tags (tags exclude_tags : option (list string))
  : list string :=
  let tags :=
    if list_truthy tags then map format_tag (default [] tags) else [] in
  let exclude_tags :=
    if list_truthy exclude_tags
    then map format_exclude_tag (default [] exclude_tags) else [] in
  tags ++ exclude_tags.

(** ** Python values, exceptions and results *)

Definition bytes := string.

(** What [xmltodict.parse] builds: an element without attributes and
    children is [None], one with text only a [str], one with attributes or
    children a [dict], a repeated child a [list]. *)
#[warnings="-register-all"]
Inductive pyval :=
| PNone
| PStr (s : string)
| PDict (d : gmap string pyval)
| PList (l : list pyval).

(** A value stored in [endpoint.args]: an [int] or a parsed value. *)
Inductive argval :=
| AInt (n : Z)
| APy (v : pyval).

Definition AStr (s : string) : argval := APy (PStr s).

(** The rendered f-string of an exception: its literal text and the values
    interpolated into it, in order. *)
Inductive msg_part :=
| MText (s : string)
| MBytes (b : bytes)
| MArg (v : argval).

Definition message := list msg_part.

(** The exceptions of Python and of its libraries. [DanglingReference] is
    not one of them: it is what the model answers for an object reference
    that is not in the store. *)
Inductive builtin_exn :=
| ExpatError
| KeyError (key : string)
| TypeError
| ValueError
| IndexError
| AttributeError
| LookupError
| DanglingReference.

(** The two exception classes of the client, and the others. *)
Inductive exn :=
| GelbooruException (msg : message)
| GelbooruNotFoundException (msg : message)
| Builtin (e : builtin_exn).

Coercion Builtin : builtin_exn >-> exn.

Inductive result (A : Type) :=
| Ok (a : A)
| Raise (e : exn).
Arguments Ok {A} a.
Arguments Raise {A} e.

Definition rbind {A B} (r : result A) (k : A -> result B) : result B :=
  match r with
  | Ok a => k a
  | Raise e => Raise e
  end.

(** The outcome of a library call. *)
Definition of_library {A} (r : A + builtin_exn) : result A :=
  match r with
  | inl a => Ok a
  | inr e => Raise e
  end.

Declare Scope result_scope.
Delimit Scope result_scope with R.
Notation "'let*' x := c 'in' k" := (rbind c (fun x => k))
  (at level 10, x name, c at level 200, k at level 200) : result_scope.

Module Py.

(** [bool(v)] *)
Definition truthy (v : pyval) : bool :=
  match v with
  | PNone => false
  | PStr s => negb (String.eqb s "")
  | PDict d => negb (bool_decide (d = empty))
  | PList l => match l with [] => false | _ => true end
  end.

(** [v == s] for a string [s] *)
Definition eq_str (s : string) (v : pyval) : bool :=
  match v with
  | PStr t => String.eqb s t
  | _ => false
  end.

(** [key in v] for a string [key] *)
Definition contains (key : string) (v : pyval) : result bool :=
  match v with
  | PNone => Raise TypeError
  | PStr s => Ok (PyStr.substring_of key s)
  | PDict d => Ok (bool_decide (is_Some (d !! key)))
  | PList l => Ok (existsb (eq_str key) l)
  end.

(** [d[key]] on a [dict] *)
Definition dict_getitem (d : gmap string pyval) (key : string)
  : result pyval :=
  match d !! key with
  | Some v => Ok v
  | None => Raise (KeyError key)
  end.

(** [v[key]] for a string [key] *)
Definition getitem (v : pyval) (key : string) : result pyval :=
  match v with
  | PDict d => dict_getitem d key
  | _ => Raise TypeError
  end.

(** [v.get(key)] *)
Definition get (v : pyval) (key : string) : result pyval :=
  match v with
  | PDict d => Ok (default PNone (d !! key))
  | _ => Raise AttributeError
  end.

(** [isinstance(v, list)] *)
Definition is_list (v : pyval) : bool :=
  match v with
  | PList _ => true
  | _ => false
  end.

(** The elements [for p in v] visits. *)
Definition iter (v : pyval) : result (list pyval) :=
  match v with
  | PNone => Raise TypeError
  | PStr s =>
      Ok (map (fun c => PStr (String c EmptyString)) (list_ascii_of_string s))
  | PDict d => Ok (map (fun kv => PStr (fst kv)) (map_to_list d))
  | PList l => Ok l
  end.

(** [v1 or v2] *)
Definition or_else (v1 v2 : pyval) : pyval :=
  if truthy v1 then v1 else v2.

End Py.

(** ** The libraries the client calls *)

Record furl := {
  url_base : string;
  url_args : list (string * argval)
}.

Record Runtime := {
  (** [aiohttp]: status and body the server answers to the [k]-th GET. *)
  http_get : nat -> furl -> Z * bytes;
  (** [xmltodict.parse]: the mapping of a body it parses, [None] when it
      raises. *)
  xmltodict_parse : bytes -> option (gmap string pyval);
  (** The exception [xmltodict.parse] raises on a body it does not parse:
      [ExpatError] for text that is not well-formed, and others, such as
      [ValueError] or [LookupError] for an encoding it does not support. *)
  xmltodict_error : bytes -> builtin_exn;
  (** [int(s)] on a [str]; [None] is [ValueError]. *)
  int_of_str : string -> option Z;
  (** [os.path.basename(urlparse(v).path)]: a value or the exception the
      library raises *)
  url_basename : pyval -> pyval + builtin_exn;
  (** [str(v)] on a [dict] or a [list] *)
  repr : pyval -> string;
  (** the source of random numbers behind [random.randint] *)
  random_source : nat -> Z
}.

Section Builtins.

Variable rt : Runtime.

(** [int(v)] *)
Definition py_int (v : pyval) : result Z :=
  match v with
  | PStr s =>
      match int_of_str rt s with
      | Some n => Ok n
      | None => Raise ValueError
      end
  | _ => Raise TypeError
  end.

(** [str(v)] *)
Definition py_str (v : pyval) : string :=
  match v with
  | PStr s => s
  | PNone => "None"
  | _ => repr rt v
  end.

End Builtins.

(** [endpoint.args[key] = v]: replaces the value of a key that is there,
    adds the key at the end otherwise. *)
Fixpoint args_set (key : string) (v : argval) (args : list (string * argval))
  : list (string * argval) :=
  match args with
  | [] => [(key, v)]
  | (k, v') :: rest =>
      if String.eqb k key then (k, v) :: rest
      else (k, v') :: args_set key v rest
  end.

Definition set_arg (key : string) (v : argval) (e : furl) : furl :=
  {| url_base := url_base e; url_args := args_set key v (url_args e) |}.

Fixpoint args_get (key : string) (args : list (string * argval))
  : option argval :=
  match args with
  | [] => None
  | (k, v) :: rest => if String.eqb k key then Some v else args_get key rest
  end.

Definition arg (key : string) (e : furl) : option argval :=
  args_get key (url_args e).

(** ** The client and its record objects *)

Record Gelbooru := {
  _api_key : option string;
  _user_id : option string
}.

(** Truth value of an optional string: [None] and [''] are false. *)
Definition str_truthy (s : option string) : bool :=
  match s with
  | Some s => negb (String.eqb s "")
  | None => false
  end.

(** Objects are addressed by their position in the store. *)
Abbreviation image_ref := nat (only parsing).
Abbreviation comment_ref := nat (only parsing).

Module GelbooruImage.

Record t := {
  _gelbooru : Gelbooru;
  id : Z;
  creator_id : pyval;
  created_at : pyval;
  file_url : pyval;
  filename : pyval;
  source : pyval;
  hash : pyval;
  height : Z;
  width : Z;
  rating : pyval;
  has_sample : pyval;
  has_comments : pyval;
  has_notes : pyval;
  tags : list string;
  change : pyval;
  directory : pyval;
  _comments : list comment_ref
}.

(** [__init__] *)
Definition init (rt : Runtime) (payload : pyval) (gelbooru : Gelbooru)
  : result t :=
  (let* v_id := Py.get payload "id" in
   let* id := py_int rt v_id in
   let* creator_id := Py.get payload "creator_id" in
   let* created_at := Py.get payload "created_at" in
   let* file_url := Py.get payload "file_url" in
   let* filename := of_library (url_basename rt file_url) in
   let* v_source := Py.get payload "source" in
   let* hash := Py.get payload "hash" in
   let* v_height := Py.get payload "height" in
   let* height := py_int rt v_height in
   let* v_width := Py.get payload "width" in
   let* width := py_int rt v_width in
   let* rating := Py.get payload "rating" in
   let* has_sample := Py.get payload "sample" in
   let* has_comments := Py.get payload "has_comments" in
   let* has_notes := Py.get payload "has_notes" in
   let* v_tags := Py.get payload "tags" in
   let* change := Py.get payload "change" in
   let* directory := Py.get payload "directory" in
   Ok {| _gelbooru := gelbooru;
         id := id;
         creator_id := creator_id;
         created_at := created_at;
         file_url := file_url;
         filename := filename;
         source := Py.or_else v_source PNone;
         hash := hash;
         height := height;
         width := width;
         rating := rating;
         has_sample := has_sample;
         has_comments := has_comments;
         has_notes := has_notes;
         tags := PyStr.split_space (py_str rt v_tags);
         change := change;
         directory := directory;
         _comments := [] |})%R.

Definition set_comments (cs : list comment_ref) (i : t) : t :=
  {| _gelbooru := _gelbooru i; id := id i; creator_id := creator_id i;
     created_at := created_at i; file_url := file_url i;
     filename := filename i; source := source i; hash := hash i;
     height := height i; width := width i; rating := rating i;
     has_sample := has_sample i; has_comments := has_comments i;
     has_notes := has_notes i; tags := tags i; change := change i;
     directory := directory i; _comments := cs |}.

End GelbooruImage.

Module GelbooruTag.

Record t := {
  _gelbooru : Gelbooru;
  id : Z;
  name : pyval;
  count : Z;
  ambiguous : pyval
}.

(** [int(payload.get('@count', 0))] *)
Definition count_of (rt : Runtime) (payload : pyval) : result Z :=
  match payload with
  | PDict d =>
      match d !! "@count" with
      | Some v => py_int rt v
      | None => Ok 0
      end
  | _ => Raise AttributeError
  end.

(** [__init__] *)
Definition init (rt : Runtime) (payload : pyval) (gelbooru : Gelbooru)
  : result t :=
  (let* v_id := Py.get payload "id" in
   let* id := py_int rt v_id in
   let* name := Py.get payload "name" in
   let* count := count_of rt payload in
   let* ambiguous := Py.get payload "ambiguous" in
   Ok {| _gelbooru := gelbooru; id := id; name := name; count := count;
         ambiguous := ambiguous |})%R.

End GelbooruTag.

Module GelbooruComment.

Record t := {
  _gelbooru : Gelbooru;
  _post : option image_ref;
  id : Z;
  post_id : pyval;
  creator : pyval;
  creator_id : pyval;
  created_at : pyval;
  body : pyval
}.

(** [__init__] *)
Definition init (rt : Runtime) (payload : pyval) (gelbooru : Gelbooru)
    (post : option image_ref) : result t :=
  (let* v_id := Py.get payload "id" in
   let* id := py_int rt v_id in
   let* post_id := Py.get payload "post_id" in
   let* creator := Py.get payload "creator" in
   let* creator_id := Py.get payload "creator_id" in
   let* created_at := Py.get payload "created_at" in
   let* body := Py.get payload "body" in
   Ok {| _gelbooru := gelbooru; _post := post; id := id;
         post_id := post_id; creator := creator; creator_id := creator_id;
         created_at := created_at; body := body |})%R.

Definition set_post (p : option image_ref) (c : t) : t :=
  {| _gelbooru := _gelbooru c; _post := p; id := id c;
     post_id := post_id c; creator := creator c;
     creator_id := creator_id c; created_at := created_at c;
     body := body c |}.

End GelbooruComment.

(** ** The world and the monad of the asynchronous operations *)

Record World := {
  (** the GET requests issued so far, oldest first *)
  requests : list furl;
  (** the bodies handed to the XML parser so far, oldest first *)
  parsed : list bytes;
  (** the store of [GelbooruImage] objects *)
  image_store : list GelbooruImage.t;
  (** the store of [GelbooruComment] objects *)
  comment_store : list GelbooruComment.t;
  (** how many random numbers were drawn *)
  draws : nat
}.

Definition empty_world : World :=
  {| requests := []; parsed := []; image_store := []; comment_store := [];
     draws := 0 |}.

Definition M (A : Type) : Type := World -> result A * World.

Definition ret {A} (a : A) : M A := fun w => (Ok a, w).

Definition raise {A} (e : exn) : M A := fun w => (Raise e, w).

Definition bind {A B} (m : M A) (k : A -> M B) : M B :=
  fun w =>
    match m w with
    | (Ok a, w') => k a w'
    | (Raise e, w') => (Raise e, w')
    end.

(** A pure computation that may raise, run in place. *)
Definition lift {A} (r : result A) : M A := fun w => (r, w).

Declare Scope m_scope.
Delimit Scope m_scope with M.
Notation "'let*' x := c 'in' k" := (bind c (fun x => k))
  (at level 10, x name, c at level 200, k at level 200) : m_scope.
Notation "'let*' ' pat := c 'in' k" :=
  (bind c (fun x => match x with pat => k end))
  (at level 10, pat pattern, c at level 200, k at level 200) : m_scope.

(** [try: m except ExpatError: handler] *)
Definition try_except_expat {A} (m : M A) (handler : M A) : M A :=
  fun w =>
    match m w with
    | (Raise (Builtin ExpatError), w') => handler w'
    | r => r
    end.

(** [[f(x) for x in l]] *)
Fixpoint for_each {A B} (f : A -> M B) (l : list A) : M (list B) :=
  match l with
  | [] => ret []
  | x :: l' => (let* y := f x in let* ys := for_each f l' in ret (y :: ys))%M
  end.

(** *** The store *)

Definition with_requests (rs : list furl) (w : World) : World :=
  {| requests := rs; parsed := parsed w; image_store := image_store w;
     comment_store := comment_store w; draws := draws w |}.

Definition with_parsed (ps : list bytes) (w : World) : World :=
  {| requests := requests w; parsed := ps; image_store := image_store w;
     comment_store := comment_store w; draws := draws w |}.

Definition with_images (imgs : list GelbooruImage.t) (w : World) : World :=
  {| requests := requests w; parsed := parsed w; image_store := imgs;
     comment_store := comment_store w; draws := draws w |}.

Definition with_comments (cs : list GelbooruComment.t) (w : World) : World :=
  {| requests := requests w; parsed := parsed w;
     image_store := image_store w; comment_store := cs; draws := draws w |}.

Definition with_draws (n : nat) (w : World) : World :=
  {| requests := requests w; parsed := parsed w;
     image_store := image_store w; comment_store := comment_store w;
     draws := n |}.

Definition new_image (i : GelbooruImage.t) : M image_ref :=
  fun w => (Ok (length (image_store w)),
            with_images (image_store w ++ [i]) w).

Definition new_comment (c : GelbooruComment.t) : M comment_ref :=
  fun w => (Ok (length (comment_store w)),
            with_comments (comment_store w ++ [c]) w).

Definition get_image (r : image_ref) : M GelbooruImage.t :=
  fun w =>
    match image_store w !! r with
    | Some i => (Ok i, w)
    | None => (Raise DanglingReference, w)
    end.

Definition get_comment (r : comment_ref) : M GelbooruComment.t :=
  fun w =>
    match comment_store w !! r with
    | Some c => (Ok c, w)
    | None => (Raise DanglingReference, w)
    end.

(** [image._comments = cs] *)
Definition set_image_comments (r : image_ref) (cs : list comment_ref)
  : M unit :=
  fun w =>
    (Ok tt,
     with_images (alter (GelbooruImage.set_comments cs) r (image_store w)) w).

(** [comment._post = p] *)
Definition set_comment_post (r : comment_ref) (p : image_ref) : M unit :=
  fun w =>
    (Ok tt,
     with_comments
       (alter (GelbooruComment.set_post (Some p)) r (comment_store w)) w).

(** ** The operations of [Gelbooru] *)

Definition BASE_URL : string := "https://gelbooru.com/".

Definition SORT_COUNT : string := "count".
Definition SORT_DATE : string := "date".
Definition SORT_NAME : string := "name".
Definition SORT_ASC : string := "ASC".
Definition SORT_DESC : string := "DESC".

(** The two messages without a post id in them. *)
Definition malformed_response : message :=
  [MText "Gelbooru returned a malformed response"].

Definition non_200_status (response : bytes) : message :=
  [MText "Gelbooru returned a non 200 status code: "; MBytes response].

Definition post_not_found (post_id : argval) : message :=
  [MText "Could not find a post with the ID "; MArg post_id].

(** What [search_posts] returns: a list, or one image when [limit == 1]. *)
Inductive posts_result :=
| Posts (l : list image_ref)
| Post (r : image_ref).

(** What [tag_list] returns: a list, or the tag itself. *)
Inductive tags_result :=
| Tags (l : list GelbooruTag.t)
| Tag (t : GelbooruTag.t).

(** The [name] argument of [tag_list]. *)
Inductive name_arg :=
| NameStr (s : string)
| NameList (l : list string).

(** The [post] argument of [get_comments]. *)
Inductive post_arg :=
| PostId (n : Z)
| PostImage (r : image_ref).

(** [key in d] on a [dict] *)
Definition dict_contains (key : string) (d : gmap string pyval) : bool :=
  bool_decide (is_Some (d !! key)).

Definition nonempty {A} (l : list A) : bool :=
  match l with
  | [] => false
  | _ :: _ => true
  end.

Definition name_truthy (n : option name_arg) : bool :=
  match n with
  | Some (NameStr s) => negb (String.eqb s "")
  | Some (NameList l) => nonempty l
  | None => false
  end.

Definition _endpoint (self : Gelbooru) (s : string) : furl :=
  let endpoint := {| url_base := BASE_URL; url_args := [] |} in
  let endpoint := set_arg "page" (AStr "dapi") endpoint in
  let endpoint := set_arg "s" (AStr s) endpoint in
  let endpoint := set_arg "q" (AStr "index") endpoint in
  let endpoint :=
    if str_truthy (_api_key self)
    then set_arg "api_key" (AStr (default "" (_api_key self))) endpoint
    else endpoint in
  let endpoint :=
    if str_truthy (_user_id self)
    then set_arg "user_id" (AStr (default "" (_user_id self))) endpoint
    else endpoint in
  endpoint.

Section Client.

Variable rt : Runtime.

Local Open Scope m_scope.

Definition _fetch (url : furl) : M (Z * bytes) :=
  fun w =>
    (Ok (http_get rt (length (requests w)) url),
     with_requests (requests w ++ [url]) w).

Definition is_success (status_code : Z) : bool :=
  existsb (Z.eqb status_code) [200; 201].

Definition _request (url : furl) : M bytes :=
  let* '(status_code, response) := _fetch url in
  if negb (is_success status_code)
  then raise (GelbooruException (non_200_status response))
  else ret response.

(** [xmltodict.parse(body)] *)
Definition parse (body : bytes) : M (gmap string pyval) :=
  fun w =>
    let w' := with_parsed (parsed w ++ [body]) w in
    match xmltodict_parse rt body with
    | Some d => (Ok d, w')
    | None => (Raise (xmltodict_error rt body), w')
    end.

(** [random.randint(a, b)] *)
Definition randint (a b : Z) : M Z :=
  fun w =>
    if b <? a then (Raise ValueError, w)
    else (Ok (a + random_source rt (draws w) mod (b - a + 1)),
          with_draws (S (draws w)) w).

(** [GelbooruImage(payload, self)] *)
Definition make_image (self : Gelbooru) (payload : pyval) : M image_ref :=
  let* i := lift (GelbooruImage.init rt payload self) in
  new_image i.

(** [GelbooruTag(payload, self)] *)
Definition make_tag (self : Gelbooru) (payload : pyval)
  : M GelbooruTag.t :=
  lift (GelbooruTag.init rt payload self).

(** [GelbooruComment(payload, self, post)] *)
Definition make_comment (self : Gelbooru) (post : option image_ref)
    (payload : pyval) : M comment_ref :=
  let* c := lift (GelbooruComment.init rt payload self post) in
  new_comment c.

Definition get_post (self : Gelbooru) (post_id : argval) : M image_ref :=
  let endpoint := _endpoint self "post" in
  let endpoint := set_arg "id" post_id endpoint in
  let* payload := _request endpoint in
  let* payload := parse payload in
  if negb (dict_contains "posts" payload)
  then raise (GelbooruNotFoundException (post_not_found post_id))
  else
    let* posts := lift (Py.dict_getitem payload "posts") in
    let* post := lift (Py.getitem posts "post") in
    make_image self post.

Definition search_posts (self : Gelbooru)
    (tags exclude_tags : option (list string)) (limit page : Z)
  : M posts_result :=
  let endpoint := _endpoint self "post" in
  let endpoint := set_arg "limit" (AInt limit) endpoint in
  let endpoint := set_arg "pid" (AInt page) endpoint in
  let tags := _format_tags tags exclude_tags in
  let endpoint :=
    if nonempty tags
    then set_arg "tags" (AStr (PyStr.join " " tags)) endpoint
    else endpoint in
  let* payload := _request endpoint in
  let* payload :=
    try_except_expat (parse payload)
      (raise (GelbooruException malformed_response)) in
  if negb (dict_contains "posts" payload) then ret (Posts [])
  else
    let* posts := lift (Py.dict_getitem payload "posts") in
    let* has_post := lift (Py.contains "post" posts) in
    if negb has_post then ret (Posts [])
    else
      let* post := lift (Py.getitem posts "post") in
      let* result :=
        if Py.is_list post
        then let* ps := lift (Py.iter post) in
             for_each (make_image self) ps
        else let* r := make_image self post in
             ret [r] in
      if limit =? 1
      then match result with
           | r :: _ => ret (Post r)
           | [] => raise IndexError
           end
      else ret (Posts result).

Definition random_post (self : Gelbooru)
    (tags exclude_tags : option (list string))
  : M (option posts_result) :=
  let endpoint := _endpoint self "post" in
  let endpoint := set_arg "limit" (AInt 1) endpoint in
  let tags := _format_tags tags exclude_tags in
  let endpoint :=
    if nonempty tags
    then set_arg "tags" (AStr (PyStr.join " " tags)) endpoint
    else endpoint in
  let* payload := _request endpoint in
  let* payload :=
    try_except_expat (parse payload)
      (raise (GelbooruException malformed_response)) in
  let* posts := lift (Py.dict_getitem payload "posts") in
  let* v_count := lift (Py.getitem posts "@count") in
  let* count := lift (py_int rt v_count) in
  if count =? 0 then ret None
  else
    let* offset := randint 0 (Z.min count 20000) in
    let* r := search_posts self (Some tags) exclude_tags 1 offset in
    ret (Some r).

Definition tag_list (self : Gelbooru) (name : option name_arg)
    (name_pattern : option string) (limit : Z)
    (sort_by sort_order : string) : M tags_result :=
  let endpoint := _endpoint self "tag" in
  let endpoint := set_arg "limit" (AInt limit) endpoint in
  let endpoint :=
    if name_truthy name
    then match name with
         | Some (NameList l) =>
             set_arg "names"
               (AStr (PyStr.join " " (map format_tag l))) endpoint
         | Some (NameStr s) =>
             set_arg "name" (AStr (format_tag s)) endpoint
         | None => endpoint
         end
    else if str_truthy name_pattern
    then set_arg "name_pattern"
           (AStr (format_tag (default "" name_pattern))) endpoint
    else endpoint in
  let endpoint := set_arg "orderby" (AStr sort_by) endpoint in
  let endpoint := set_arg "order" (AStr sort_order) endpoint in
  let* payload := _request endpoint in
  let* payload := parse payload in
  if negb (dict_contains "tags" payload) then ret (Tags [])
  else
    let* tags := lift (Py.dict_getitem payload "tags") in
    let* tag := lift (Py.getitem tags "tag") in
    if Py.is_list tag
    then let* ts := lift (Py.iter tag) in
         let* l := for_each (make_tag self) ts in
         ret (Tags l)
    else let* t := make_tag self tag in
         ret (Tag t).

(** [int(post)] for the argument of [get_comments] *)
Definition int_of_post (post : post_arg) : M Z :=
  match post with
  | PostId n => ret n
  | PostImage r => let* i := get_image r in ret (GelbooruImage.id i)
  end.

Definition get_comments (self : Gelbooru) (post : post_arg)
  : M (list comment_ref) :=
  let endpoint := _endpoint self "comment" in
  let* n := int_of_post post in
  let endpoint := set_arg "post_id" (AInt n) endpoint in
  let* payload := _request endpoint in
  let* payload := parse payload in
  let* comments := lift (Py.dict_getitem payload "comments") in
  let* has_comment := lift (Py.contains "comment" comments) in
  if negb has_comment then ret []
  else
    let post :=
      match post with
      | PostImage r => Some r
      | PostId _ => None
      end in
    let* comment := lift (Py.getitem comments "comment") in
    if Py.is_list comment
    then let* cs := lift (Py.iter comment) in
         for_each (make_comment self post) cs
    else let* c := make_comment self post comment in
         ret [c].

Definition is_deleted (self : Gelbooru) (image_md5 : string) : M bool :=
  let endpoint := _endpoint self "post" in
  let endpoint := set_arg "deleted" (AStr "show") endpoint in
  let* payload := _request endpoint in
  let* payload := parse payload in
  let* posts := lift (Py.dict_getitem payload "posts") in
  let* post := lift (Py.getitem posts "post") in
  let* ps := lift (Py.iter post) in
  let* deleted_md5s :=
    for_each (fun p => lift (Py.getitem p "@md5")) ps in
  ret (existsb (Py.eq_str image_md5) deleted_md5s).

(** ** The lazy accessors of the record objects *)

(** [GelbooruImage.get_comments] *)
Definition image_get_comments (r : image_ref) : M (list comment_ref) :=
  let* self := get_image r in
  if negb (Py.truthy (GelbooruImage.has_comments self)) then ret []
  else if nonempty (GelbooruImage._comments self)
  then ret (GelbooruImage._comments self)
  else
    let* cs := get_comments (GelbooruImage._gelbooru self) (PostImage r) in
    let* _u := set_image_comments r cs in
    ret cs.

(** [GelbooruComment.get_post] *)
Definition comment_get_post (r : comment_ref) : M image_ref :=
  let* self := get_comment r in
  match GelbooruComment._post self with
  | Some p => ret p
  | None =>
      let* p :=
        get_post (GelbooruComment._gelbooru self)
          (APy (GelbooruComment.post_id self)) in
      let* _u := set_comment_post r p in
      ret p
  end.

End Client.

(** ** The requests of the operations and their marks on the world *)

(** The URL each operation requests. *)
Definition with_tags (tags : list string) (endpoint : furl) : furl :=
  if nonempty tags
  then set_arg "tags" (AStr (PyStr.join " " tags)) endpoint
  else endpoint.

Definition get_post_url (self : Gelbooru) (post_id : argval) : furl :=
  set_arg "id" post_id (_endpoint self "post").

Definition search_posts_url (self : Gelbooru)
    (tags exclude_tags : option (list string)) (limit page : Z) : furl :=
  with_tags (_format_tags tags exclude_tags)
    (set_arg "pid" (AInt page)
       (set_arg "limit" (AInt limit) (_endpoint self "post"))).

Definition random_post_url (self : Gelbooru)
    (tags exclude_tags : option (list string)) : furl :=
  with_tags (_format_tags tags exclude_tags)
    (set_arg "limit" (AInt 1) (_endpoint self "post")).

Definition tag_list_url (self : Gelbooru) (name : option name_arg)
    (name_pattern : option string) (limit : Z) (sort_by sort_order : string)
  : furl :=
  let endpoint := set_arg "limit" (AInt limit) (_endpoint self "tag") in
  let endpoint :=
    if name_truthy name
    then match name with
         | Some (NameList l) =>
             set_arg "names"
               (AStr (PyStr.join " " (map format_tag l))) endpoint
         | Some (NameStr s) => set_arg "name" (AStr (format_tag s)) endpoint
         | None => endpoint
         end
    else if str_truthy name_pattern
    then set_arg "name_pattern"
           (AStr (format_tag (default "" name_pattern))) endpoint
    else endpoint in
  set_arg "order" (AStr sort_order) (set_arg "orderby" (AStr sort_by) endpoint).

Definition get_comments_url (self : Gelbooru) (post_id : Z) : furl :=
  set_arg "post_id" (AInt post_id) (_endpoint self "comment").

Definition is_deleted_url (self : Gelbooru) : furl :=
  set_arg "deleted" (AStr "show") (_endpoint self "post").

(** The world after a request, and after a body went to the parser. *)
Definition sent (url : furl) (w : World) : World :=
  with_requests (requests w ++ [url]) w.

Definition handed (body : bytes) (w : World) : World :=
  with_parsed (parsed w ++ [body]) w.

Definition received (url : furl) (body : bytes) (w : World) : World :=
  handed body (sent url w).

(** The error of [_request] on a status that is not 200 or 201. *)
Definition transport_error (body : bytes) : exn :=
  GelbooruException (non_200_status body).

(** The error of the search paths on a body that is not well-formed XML. *)
Definition malformed : exn := GelbooruException malformed_response.

(** Following the spec's words: a success status of HTTP is one of the
    2xx statuses. *)
Definition is_2xx (status_code : Z) : bool :=
  (200 <=? status_code) && (status_code <? 300).

(** The parser raises [ExpatError] on [body]. *)
Definition expat_fails (rt : Runtime) (body : bytes) : Prop :=
  xmltodict_parse rt body = None /\ xmltodict_error rt body = ExpatError.

(** What [try: ... except ExpatError: raise GelbooruException(...)] makes
    of an exception of the parser. *)
Definition after_except (e : builtin_exn) : exn :=
  match e with
  | ExpatError => GelbooruException malformed_response
  | _ => Builtin e
  end.

(** What a run shows from outside: the result, how many requests the
    world has seen and the bodies that went to the parser. *)
Definition outcome {A} (m : result A * World)
  : result A * nat * list bytes :=
  (fst m, length (requests (snd m)), parsed (snd m)).

(** A result that is a value or an exception of Python and its
    libraries, not one of the two exceptions of the client. *)
Definition builtin_only {A} (r : result A) : Prop :=
  match r with
  | Ok _ => True
  | Raise (Builtin _) => True
  | Raise _ => False
  end.

(** A computation that leaves a part [f] of the world as it found it. *)
Definition frame {X A} (f : World -> X) (m : M A) : Prop :=
  forall w, f (snd (m w)) = f w.

(** A computation that only adds to a store [f] of the world: what was
    in it stays, at its place and as it was. *)
Definition grows {X A} (f : World -> list X) (m : M A) : Prop :=
  forall w, f w `prefix_of` f (snd (m w)).

(** The image a comment of [get_comments(post)] refers back to. *)
Definition backreference (post : post_arg) : option image_ref :=
  match post with
  | PostImage r => Some r
  | PostId _ => None
  end.

(** The count [random_post] reads in the answer to its probe:
    [int(payload['posts']['@count'])]. *)
Definition probe_count (rt : Runtime) (payload : gmap string pyval)
  : result Z :=
  (let* posts := Py.dict_getitem payload "posts" in
   let* v_count := Py.getitem posts "@count" in
   py_int rt v_count)%R.

(** The sequence the normalizer makes of the inner value. *)
Definition normalized (v : pyval) : list pyval :=
  match v with
  | PList l => l
  | _ => [v]
  end.

(** ** Shapes of strings the properties speak of *)

(** [s] is empty or its first character is not one [p] takes. *)
Definition no_leading (p : ascii -> bool) (s : string) : bool :=
  match s with
  | EmptyString => true
  | String c _ => negb (p c)
  end.

(** [s] is empty or its last character is not one [p] takes. *)
Fixpoint no_trailing (p : ascii -> bool) (s : string) : bool :=
  match s with
  | EmptyString => true
  | String c EmptyString => negb (p c)
  | String _ s' => no_trailing p s'
  end.

(** The references [n], [n+1], ... of [k] objects added to a store of
    [n]. *)
Definition fresh_refs (n k : nat) : list nat := seq n k.

(** The arguments every request carries: the three fixed ones with the
    action [s], and each credential when it is not [None] or empty. *)
Definition credential (c : option string) : option argval :=
  if str_truthy c then Some (AStr (default "" c)) else None.

Definition carries_endpoint (self : Gelbooru) (s : string) (url : furl)
  : Prop :=
  url_base url = BASE_URL
  /\ arg "page" url = Some (AStr "dapi")
  /\ arg "s" url = Some (AStr s)
  /\ arg "q" url = Some (AStr "index")
  /\ arg "api_key" url = credential (_api_key self)
  /\ arg "user_id" url = credential (_user_id self).

(** ** A scripted runtime for the examples

    The server answers from a script, the parser from a table of the bodies
    it knows (any other body is not well-formed), [int] reads an optional
    sign and decimal digits, and the random source is a constant. *)

Module Script.

Definition digit (c : ascii) : option Z :=
  let n := Z.of_N (N_of_ascii c) in
  if (48 <=? n) && (n <=? 57) then Some (n - 48) else None.

Fixpoint digits (acc : Z) (s : string) : option Z :=
  match s with
  | EmptyString => Some acc
  | String c s' =>
      match digit c with
      | Some d => digits (10 * acc + d) s'
      | None => None
      end
  end.

Definition int (s : string) : option Z :=
  match PyStr.strip s with
  | EmptyString => None
  | String "-" (String c r) => Z.opp <$> digits 0 (String c r)
  | String "+" (String c r) => digits 0 (String c r)
  | n => digits 0 n
  end.

Fixpoint after_last_slash (acc s : string) : string :=
  match s with
  | EmptyString => acc
  | String c s' =>
      if Ascii.eqb c "/" then after_last_slash s' s'
      else after_last_slash acc s'
  end.

Definition basename (v : pyval) : pyval + builtin_exn :=
  match v with
  | PStr s => inl (PStr (after_last_slash s s))
  | PNone => inl (PStr "")
  | _ => inr AttributeError
  end.

Fixpoint lookup_body (table : list (bytes * gmap string pyval))
    (body : bytes) : option (gmap string pyval) :=
  match table with
  | [] => None
  | (b, d) :: rest =>
      if String.eqb b body then Some d else lookup_body rest body
  end.

Definition runtime (server : nat -> furl -> Z * bytes)
    (table : list (bytes * gmap string pyval)) (random : Z) : Runtime :=
  {| http_get := server;
     xmltodict_parse := lookup_body table;
     xmltodict_error := fun _ => ExpatError;
     int_of_str := int;
     url_basename := basename;
     repr := fun _ => "";
     random_source := fun _ => random |}.

(** A server that gives the [k]-th answer of a list to the [k]-th
    request. *)
Definition in_turn (answers : list (Z * bytes)) : nat -> furl -> Z * bytes :=
  fun k _ => nth k answers (404, "").

Definition dict (l : list (string * pyval)) : gmap string pyval :=
  list_to_map l.

Definition client : Gelbooru := {| _api_key := None; _user_id := None |}.

(** One post, one tag and one comment: the XML and what it parses to. *)
Definition post_7_xml : bytes :=
  "<post><id>7</id><height>600</height><width>800</width>"
  ++ "<has_comments>true</has_comments>"
  ++ "<file_url>https://img.example/a/b/7.png</file_url>"
  ++ "<tags>blue_sky solo</tags></post>".

Definition post_7 : pyval :=
  PDict (dict [("id", PStr "7"); ("height", PStr "600");
               ("width", PStr "800"); ("has_comments", PStr "true");
               ("file_url", PStr "https://img.example/a/b/7.png");
               ("tags", PStr "blue_sky solo")]).

(** A post that says it has no comments; the flag is kept as the text
    of the element. *)
Definition post_8_xml : bytes :=
  "<post><id>8</id><height>10</height><width>20</width>"
  ++ "<has_comments>false</has_comments></post>".

Definition post_8 : pyval :=
  PDict (dict [("id", PStr "8"); ("height", PStr "10");
               ("width", PStr "20"); ("has_comments", PStr "false")]).

Definition tag_5_xml : bytes :=
  "<tag count='12'><id>5</id><name>solo</name></tag>".

Definition tag_5 : pyval :=
  PDict (dict [("@count", PStr "12"); ("id", PStr "5");
               ("name", PStr "solo")]).

Definition comment_3_xml : bytes :=
  "<comment><id>3</id><post_id>7</post_id><body>nice</body></comment>".

Definition comment_3 : pyval :=
  PDict (dict [("id", PStr "3"); ("post_id", PStr "7");
               ("body", PStr "nice")]).

(** The bodies of the examples. *)
Definition no_posts_xml : bytes := "<posts count='0'/>".
Definition one_post_xml : bytes :=
  "<posts count='1'>" ++ post_7_xml ++ "</posts>".
Definition post_8_only_xml : bytes :=
  "<posts count='1'>" ++ post_8_xml ++ "</posts>".
Definition two_posts_xml : bytes :=
  "<posts count='2'>" ++ post_7_xml ++ post_7_xml ++ "</posts>".
Definition no_tags_xml : bytes := "<tags type='array'/>".
Definition one_tag_xml : bytes :=
  "<tags type='array'>" ++ tag_5_xml ++ "</tags>".
Definition no_comments_xml : bytes := "<comments type='array'/>".
Definition one_comment_xml : bytes :=
  "<comments type='array'>" ++ comment_3_xml ++ "</comments>".
Definition error_xml : bytes := "<error>Too many requests</error>".
Definition truncated_xml : bytes := "<posts count='1'><post><id>7</i".

(** What the parser makes of them; [truncated_xml] is not well-formed. *)
Definition no_posts_outer := dict [("@count", PStr "0")].
Definition no_posts := dict [("posts", PDict no_posts_outer)].
Definition one_post_outer := dict [("@count", PStr "1"); ("post", post_7)].
Definition one_post := dict [("posts", PDict one_post_outer)].
Definition post_8_only_outer :=
  dict [("@count", PStr "1"); ("post", post_8)].
Definition post_8_only := dict [("posts", PDict post_8_only_outer)].
Definition two_posts_outer :=
  dict [("@count", PStr "2"); ("post", PList [post_7; post_7])].
Definition two_posts := dict [("posts", PDict two_posts_outer)].
Definition no_tags_outer := dict [("@type", PStr "array")].
Definition no_tags := dict [("tags", PDict no_tags_outer)].
Definition one_tag_outer := dict [("@type", PStr "array"); ("tag", tag_5)].
Definition one_tag := dict [("tags", PDict one_tag_outer)].
Definition no_comments_outer := dict [("@type", PStr "array")].
Definition no_comments := dict [("comments", PDict no_comments_outer)].
Definition one_comment_outer :=
  dict [("@type", PStr "array"); ("comment", comment_3)].
Definition one_comment := dict [("comments", PDict one_comment_outer)].
Definition error := dict [("error", PStr "Too many requests")].

Definition table : list (bytes * gmap string pyval) :=
  [ (no_posts_xml, no_posts); (one_post_xml, one_post);
    (two_posts_xml, two_posts); (no_tags_xml, no_tags);
    (one_tag_xml, one_tag); (no_comments_xml, no_comments);
    (one_comment_xml, one_comment); (error_xml, error);
    (post_8_only_xml, post_8_only) ].

(** The runtime whose server gives these answers in turn. *)
Definition answering (answers : list (Z * bytes)) : Runtime :=
  runtime (in_turn answers) table 0.

(** The fields the examples show of an image, a tag and a comment. *)
Definition image_summary (i : GelbooruImage.t) :=
  (GelbooruImage.id i, GelbooruImage.filename i, GelbooruImage.tags i,
   GelbooruImage._comments i).

Definition tag_summary (t : GelbooruTag.t) :=
  (GelbooruTag.id t, GelbooruTag.name t, GelbooruTag.count t).

Definition comment_summary (c : GelbooruComment.t) :=
  (GelbooruComment.id c, GelbooruComment.post_id c,
   GelbooruComment._post c).

End Script.

(** More answers for the examples: listings of deleted posts and count
    probes with an odd or missing count. *)
Module Cases.

Definition deleted_a : pyval :=
  PDict (Script.dict [("@deleted", PStr "true"); ("@md5", PStr "0a1b")]).
Definition deleted_b : pyval :=
  PDict (Script.dict [("@deleted", PStr "true"); ("@md5", PStr "2c3d")]).

Definition two_deleted_xml : bytes :=
  "<posts><post deleted='true' md5='0a1b'/>"
  ++ "<post deleted='true' md5='2c3d'/></posts>".
Definition two_deleted_outer :=
  Script.dict [("post", PList [deleted_a; deleted_b])].
Definition two_deleted := Script.dict [("posts", PDict two_deleted_outer)].

Definition one_deleted_xml : bytes :=
  "<posts><post deleted='true' md5='0a1b'/></posts>".
Definition one_deleted_outer := Script.dict [("post", deleted_a)].
Definition one_deleted := Script.dict [("posts", PDict one_deleted_outer)].

Definition none_deleted_xml : bytes := "<posts offset='0'/>".
Definition none_deleted_outer := Script.dict [("@offset", PStr "0")].
Definition none_deleted := Script.dict [("posts", PDict none_deleted_outer)].

Definition negative_count_xml : bytes := "<posts count='-1'/>".
Definition negative_count_outer := Script.dict [("@count", PStr "-1")].
Definition negative_count :=
  Script.dict [("posts", PDict negative_count_outer)].

Definition two_tags_xml : bytes :=
  "<tags type='array'>" ++ Script.tag_5_xml ++ Script.tag_5_xml ++ "</tags>".
Definition two_tags_outer :=
  Script.dict [("@type", PStr "array");
               ("tag", PList [Script.tag_5; Script.tag_5])].
Definition two_tags := Script.dict [("tags", PDict two_tags_outer)].

(** An empty [posts] element, which parses to [None], and one with text
    only. *)
Definition empty_posts_xml : bytes := "<posts/>".
Definition empty_posts := Script.dict [("posts", PNone)].
Definition text_posts_xml : bytes := "<posts>nothing found</posts>".
Definition text_posts := Script.dict [("posts", PStr "nothing found")].

Definition table : list (bytes * gmap string pyval) :=
  [ (two_deleted_xml, two_deleted); (one_deleted_xml, one_deleted);
    (none_deleted_xml, none_deleted);
    (negative_count_xml, negative_count); (two_tags_xml, two_tags);
    (empty_posts_xml, empty_posts); (text_posts_xml, text_posts) ]
    ++ Script.table.

(** A document in an encoding the parser does not know: the parser
    raises [LookupError] on it, and [ExpatError] on any other body that is not
    in the table. *)
Definition unknown_encoding_xml : bytes :=
  "<?xml version='1.0' encoding='x-unknown'?><posts count='0'/>".

Definition parser_error (body : bytes) : builtin_exn :=
  if String.eqb body unknown_encoding_xml then LookupError else ExpatError.

Definition answering (answers : list (Z * bytes)) : Runtime :=
  {| http_get := Script.in_turn answers;
     xmltodict_parse := Script.lookup_body table;
     xmltodict_error := parser_error;
     int_of_str := Script.int;
     url_basename := Script.basename;
     repr := fun _ => "";
     random_source := fun _ => 0 |}.

End Cases.

(** ** Tag formatting over all of Unicode

    The strings above hold the code points 0..255. The tags a caller passes
    are Python [str] values over every code point, and what [str.lower],
    [str.isspace] and the case of a character are is decided by the Unicode
    tables of the interpreter. Here a string is a list of code points and the
    tables are a parameter; [_format_tags] is the same code. *)

Module UStr.

Local Open Scope N_scope.

Record Unidata := {
  (** [str.isspace] of one character *)
  isspace : N -> bool;
  (** whether one character is upper-case, [str.isupper] *)
  isupper : N -> bool;
  (** [str.lower] *)
  lower : list N -> list N
}.

Definition space : N := 32.
Definition dash : N := 45.
Definition underscore : N := 95.

Definition is_dash (c : N) : bool := c =? dash.

(** [s.lstrip(chars)], [s.rstrip(chars)]: [p] says which characters go. *)
Fixpoint lstrip (p : N -> bool) (s : list N) : list N :=
  match s with
  | [] => []
  | c :: s' => if p c then lstrip p s' else s
  end.

Fixpoint rstrip (p : N -> bool) (s : list N) : list N :=
  match s with
  | [] => []
  | c :: s' =>
      match rstrip p s' with
      | [] => if p c then [] else [c]
      | r => c :: r
      end
  end.

(** [s.strip()] *)
Definition strip (U : Unidata) (s : list N) : list N :=
  rstrip (isspace U) (lstrip (isspace U) s).

(** [s.replace(old, new)] for one-character [old] and [new]. *)
Definition replace (old new : N) (s : list N) : list N :=
  map (fun c => if c =? old then new else c) s.

(** [tag.strip().lower().replace(' ', '_')] *)
Definition format_tag (U : Unidata) (tag : list N) : list N :=
  replace space underscore (lower U (strip U tag)).

(** ['-' + tag.strip().lstrip('-').lower().replace(' ', '_')] *)
Definition format_exclude_tag (U : Unidata) (tag : list N) : list N :=
  dash :: replace space underscore (lower U (lstrip is_dash (strip U tag))).

Definition _format_tags (U : Unidata)
    (tags exclude_tags : option (list (list N))) : list (list N) :=
  let tags :=
    if list_truthy tags then map (format_tag U) (default [] tags) else [] in
  let exclude_tags :=
    if list_truthy exclude_tags
    then map (format_exclude_tag U) (default [] exclude_tags) else [] in
  (tags ++ exclude_tags)%list.

(** *** What the claim says of a tag, in its own words *)

Definition no_leading (p : N -> bool) (s : list N) : bool :=
  match s with
  | [] => true
  | c :: _ => negb (p c)
  end.

Fixpoint no_trailing (p : N -> bool) (s : list N) : bool :=
  match s with
  | [] => true
  | [c] => negb (p c)
  | _ :: s' => no_trailing p s'
  end.

(** [core] is [t] without the white space at its two ends. *)
Definition trimmed_of (U : Unidata) (t core : list N) : Prop :=
  exists lead trail,
    t = (lead ++ core ++ trail)%list
    /\ Forall (fun c => isspace U c = true) lead
    /\ Forall (fun c => isspace U c = true) trail
    /\ no_leading (isspace U) core = true
    /\ no_trailing (isspace U) core = true.

(** [rest] is [core] without the dashes it starts with. *)
Definition undashed_of (core rest : list N) : Prop :=
  exists dashes,
    core = (dashes ++ rest)%list
    /\ Forall (fun c => c = dash) dashes
    /\ no_leading is_dash rest = true.

(** Every space replaced by an underscore, nothing else changed. *)
Definition underscored (s : list N) : list N :=
  map (fun c => if c =? 32 then 95 else c) s.

Definition no_space (s : list N) : bool :=
  forallb (fun c => negb (c =? 32)) s.

(** [s] is one ['-'] followed by something that does not start with ['-']. *)
Definition one_leading_dash (s : list N) : bool :=
  match s with
  | c :: rest => (c =? 45) && no_leading (fun c => c =? 45) rest
  | [] => false
  end.

(** No character of [s] is upper-case. *)
Definition is_lowercase (U : Unidata) (s : list N) : bool :=
  forallb (fun c => negb (isupper U c)) s.

(** The upper-case characters of [o] are characters of [s]. *)
Definition upper_only_from (U : Unidata) (o s : list N) : Prop :=
  forall c, In c o -> isupper U c = true -> In c s.

(** *** The part of Python's tables the examples need

    The code points up to U+00FF as in [PyStr], and U+2102, the
    double-struck capital C: an upper-case letter that [str.lower] leaves as
    it is. Every other code point is taken as caseless and not white
    space. *)

Definition latin1_isspace (n : N) : bool :=
  (9 <=? n) && (n <=? 13) || (28 <=? n) && (n <=? 32)
  || (n =? 133) || (n =? 160).

Definition latin1_isupper (n : N) : bool :=
  (65 <=? n) && (n <=? 90) || (192 <=? n) && (n <=? 214)
  || (216 <=? n) && (n <=? 222).

Definition double_struck_C : N := 8450.

Definition excerpt : Unidata :=
  {| isspace := latin1_isspace;
     isupper := fun n => latin1_isupper n || (n =? double_struck_C);
     lower := map (fun n => if latin1_isupper n then n + 32 else n) |}.

(** The code points of a string of [PyStr]. *)
Definition codes (s : string) : list N :=
  map N_of_ascii (list_ascii_of_string s).

End UStr.

(** * Properties *)

(** ** Tag formatting *)

Section FormatTags.

Import PyStr.

Lemma lower_char_not_upper c : isupper (lower_char c) = false.
Proof. destruct c as [[] [] [] [] [] [] [] []]; reflexivity. Qed.

Lemma lower_char_dash c : is_dash (lower_char c) = is_dash c.
Proof. destruct c as [[] [] [] [] [] [] [] []]; reflexivity. Qed.

Lemma lower_is_lowercase s : is_lowercase (lower s) = true.
Proof.
  unfold is_lowercase.
  induction s as [|c s IH]; [reflexivity|].
  cbn [lower forall_chars]. rewrite lower_char_not_upper. exact IH.
Qed.

Lemma replace_space_lowercase s :
  is_lowercase s = true -> is_lowercase (replace " " "_" s) = true.
Proof.
  unfold is_lowercase.
  induction s as [|c s IH]; [reflexivity|].
  cbn [replace forall_chars]. intros [Hc Hs]%andb_prop.
  rewrite (IH Hs), andb_true_r.
  destruct (Ascii.eqb c " "); [reflexivity | exact Hc].
Qed.

Lemma replace_space_no_space s : no_space (replace " " "_" s) = true.
Proof.
  unfold no_space.
  induction s as [|c s IH]; [reflexivity|].
  cbn [replace forall_chars]. rewrite IH, andb_true_r.
  destruct (Ascii.eqb c " ") eqn:E; [reflexivity | now rewrite E].
Qed.

Lemma lstrip_dash_start s : starts_with_dash (lstrip is_dash s) = false.
Proof.
  induction s as [|c s IH]; [reflexivity|].
  cbn. destruct (is_dash c) eqn:E; [exact IH | exact E].
Qed.

Lemma lower_start s : starts_with_dash (lower s) = starts_with_dash s.
Proof. destruct s; [reflexivity | apply lower_char_dash]. Qed.

Lemma replace_space_start s :
  starts_with_dash (replace " " "_" s) = starts_with_dash s.
Proof.
  destruct s as [|c s]; [reflexivity|]. cbn.
  destruct (Ascii.eqb c " ") eqn:E; [|reflexivity].
  apply Ascii.eqb_eq in E. subst c. reflexivity.
Qed.

Lemma format_tag_lowercase t : is_lowercase (format_tag t) = true.
Proof. apply replace_space_lowercase, lower_is_lowercase. Qed.

Lemma format_tag_no_space t : no_space (format_tag t) = true.
Proof. apply replace_space_no_space. Qed.

Lemma format_exclude_tag_lowercase t :
  is_lowercase (format_exclude_tag t) = true.
Proof.
  unfold format_exclude_tag. cbn.
  apply replace_space_lowercase, lower_is_lowercase.
Qed.

Lemma format_exclude_tag_no_space t :
  no_space (format_exclude_tag t) = true.
Proof. unfold format_exclude_tag. cbn. apply replace_space_no_space. Qed.

Lemma format_exclude_tag_one_dash t :
  one_leading_dash (format_exclude_tag t) = true.
Proof.
  unfold format_exclude_tag.
  set (rest := replace _ _ _).
  change (is_dash "-" && negb (starts_with_dash rest) = true).
  subst rest.
  now rewrite replace_space_start, lower_start, lstrip_dash_start.
Qed.

Lemma _format_tags_eq tags exclude_tags :
  _format_tags tags exclude_tags =
  (map format_tag (default [] tags)
     ++ map format_exclude_tag (default [] exclude_tags))%list.
Proof.
  unfold _format_tags.
  destruct tags as [[|t ts]|], exclude_tags as [[|x xs]|]; reflexivity.
Qed.

End FormatTags.

(** On tags whose characters are all below U+0100: whatever the inclusion
    and exclusion tags ([None], empty or not), [_format_tags] returns the
    formatted inclusion tags in order followed by the formatted exclusion
    tags in order; every tag it returns has no upper-case character and no
    space character left; and every formatted exclusion tag is one ['-']
    followed by text that does not start with a ['-'], however many dashes
    the input started with. Tags of any characters are the subject of
    [Tag formatting over all of Unicode] below. *)
Theorem format_tags_normalized (tags exclude_tags : option (list string)) :
  let out := _format_tags tags exclude_tags in
  out = (map format_tag (default [] tags)
           ++ map format_exclude_tag (default [] exclude_tags))%list
  /\ Forall (fun t => PyStr.is_lowercase t = true /\ PyStr.no_space t = true)
       out
  /\ Forall (fun t => PyStr.one_leading_dash t = true)
       (map format_exclude_tag (default [] exclude_tags)).
Proof.
  cbv zeta. rewrite _format_tags_eq. split; [reflexivity|]. split.
  - apply Forall_app. split; apply Forall_forall; intros t Ht;
      apply list_elem_of_In, in_map_iff in Ht; destruct Ht as (x & <- & _).
    + split; [apply format_tag_lowercase | apply format_tag_no_space].
    + split; [apply format_exclude_tag_lowercase
             | apply format_exclude_tag_no_space].
  - apply Forall_forall. intros t Ht.
    apply list_elem_of_In, in_map_iff in Ht. destruct Ht as (x & <- & _).
    apply format_exclude_tag_one_dash.
Qed.

Example format_tags_blue_sky :
  _format_tags (Some ["Blue Sky"]) (Some ["-Red Eyes"])
  = ["blue_sky"; "-red_eyes"].
Proof. reflexivity. Qed.

Example format_tags_many_dashes :
  _format_tags (Some ["  Long Hair "]) (Some [" ---Hat"; "- -x"])
  = ["long_hair"; "-hat"; "-_-x"].
Proof. reflexivity. Qed.

(** ** Running the operations *)

Section Running.

Variable rt : Runtime.

Lemma request_run url w :
  _request rt url w =
  (let '(status_code, response) := http_get rt (length (requests w)) url in
   if is_success status_code then Ok response
   else Raise (GelbooruException (non_200_status response)),
   sent url w).
Proof.
  unfold _request, _fetch, bind, raise, ret.
  destruct (http_get rt (length (requests w)) url) as [st body].
  destruct (is_success st); reflexivity.
Qed.

Lemma bind_request {A} url (k : bytes -> M A) w st body :
  http_get rt (length (requests w)) url = (st, body) ->
  bind (_request rt url) k w =
  if is_success st then k body (sent url w)
  else (Raise (GelbooruException (non_200_status body)), sent url w).
Proof.
  intros H. unfold bind. rewrite request_run, H.
  destruct (is_success st); reflexivity.
Qed.

Lemma bind_parse {A} body (k : gmap string pyval -> M A) w :
  bind (parse rt body) k w =
  match xmltodict_parse rt body with
  | Some d => k d (handed body w)
  | None => (Raise (xmltodict_error rt body), handed body w)
  end.
Proof.
  unfold bind, parse. destruct (xmltodict_parse rt body); reflexivity.
Qed.

Lemma bind_try_parse {A} body (k : gmap string pyval -> M A) w :
  bind (try_except_expat (parse rt body)
          (raise (GelbooruException malformed_response))) k w =
  match xmltodict_parse rt body with
  | Some d => k d (handed body w)
  | None => (Raise (after_except (xmltodict_error rt body)), handed body w)
  end.
Proof.
  unfold bind, try_except_expat, parse, raise.
  destruct (xmltodict_parse rt body); [reflexivity|].
  destruct (xmltodict_error rt body); reflexivity.
Qed.

Lemma bind_lift {A B} (r : result A) (k : A -> M B) w :
  bind (lift r) k w =
  match r with
  | Ok a => k a w
  | Raise e => (Raise e, w)
  end.
Proof. unfold bind, lift. destruct r; reflexivity. Qed.

Lemma dict_contains_lookup key (d : gmap string pyval) :
  dict_contains key d = match d !! key with Some _ => true | None => false end.
Proof.
  unfold dict_contains. destruct (d !! key) eqn:E.
  - apply bool_decide_eq_true. eauto.
  - apply bool_decide_eq_false. intros [v Hv]. discriminate.
Qed.

(** Both branches of the single-or-list test build the records of the
    normalized sequence. *)
Lemma normalize_run {B} (f : pyval -> M B) post w :
  (if Py.is_list post
   then bind (lift (Py.iter post)) (for_each f)
   else bind (f post) (fun r => ret [r])) w =
  for_each f (normalized post) w.
Proof.
  destruct post; try reflexivity; cbn; unfold bind, ret;
    destruct (f _ w) as [[b|e] w']; reflexivity.
Qed.

(** [search_posts], from the answer on. *)
Lemma search_posts_run self tags exclude_tags limit page w st body :
  http_get rt (length (requests w))
    (search_posts_url self tags exclude_tags limit page) = (st, body) ->
  is_success st = true ->
  search_posts rt self tags exclude_tags limit page w =
  let w' := received (search_posts_url self tags exclude_tags limit page)
              body w in
  match xmltodict_parse rt body with
  | None => (Raise (after_except (xmltodict_error rt body)), w')
  | Some payload =>
      match payload !! "posts" with
      | None => (Ok (Posts []), w')
      | Some posts =>
          match Py.contains "post" posts with
          | Raise e => (Raise e, w')
          | Ok false => (Ok (Posts []), w')
          | Ok true =>
              match Py.getitem posts "post" with
              | Raise e => (Raise e, w')
              | Ok post =>
                  match for_each (make_image rt self) (normalized post) w'
                  with
                  | (Raise e, w'') => (Raise e, w'')
                  | (Ok result, w'') =>
                      if limit =? 1
                      then match result with
                           | r :: _ => (Ok (Post r), w'')
                           | [] => (Raise IndexError, w'')
                           end
                      else (Ok (Posts result), w'')
                  end
              end
          end
      end
  end.
Proof.
  intros Hget Hst. unfold search_posts. cbv zeta.
  rewrite (bind_request _ _ _ _ _ Hget), Hst, bind_try_parse.
  destruct (xmltodict_parse rt body) as [payload|]; [|reflexivity].
  rewrite dict_contains_lookup. unfold received.
  destruct (payload !! "posts") as [posts|] eqn:Hposts; cbn [negb];
    [|reflexivity].
  rewrite bind_lift. unfold Py.dict_getitem. rewrite Hposts, bind_lift.
  destruct (Py.contains "post" posts) as [[|]|e]; cbn [negb];
    try reflexivity.
  rewrite bind_lift.
  destruct (Py.getitem posts "post") as [post|e]; [|reflexivity].
  unfold bind at 1. rewrite normalize_run.
  destruct (for_each _ _ _) as [[result|e] w'']; [|reflexivity].
  destruct (limit =? 1); [|reflexivity]. destruct result; reflexivity.
Qed.

(** [get_post], from the answer on. *)
Lemma get_post_run self post_id w st body :
  http_get rt (length (requests w)) (get_post_url self post_id)
  = (st, body) ->
  is_success st = true ->
  get_post rt self post_id w =
  let w' := received (get_post_url self post_id) body w in
  match xmltodict_parse rt body with
  | None => (Raise (xmltodict_error rt body), w')
  | Some payload =>
      match payload !! "posts" with
      | None => (Raise (GelbooruNotFoundException (post_not_found post_id)),
                 w')
      | Some posts =>
          match Py.getitem posts "post" with
          | Raise e => (Raise e, w')
          | Ok post => make_image rt self post w'
          end
      end
  end.
Proof.
  intros Hget Hst. unfold get_post. cbv zeta.
  rewrite (bind_request _ _ _ _ _ Hget), Hst, bind_parse.
  destruct (xmltodict_parse rt body) as [payload|]; [|reflexivity].
  rewrite dict_contains_lookup. unfold received.
  destruct (payload !! "posts") as [posts|] eqn:Hposts; cbn [negb];
    [|reflexivity].
  rewrite bind_lift. unfold Py.dict_getitem. rewrite Hposts, bind_lift.
  destruct (Py.getitem posts "post"); reflexivity.
Qed.

(** [tag_list], from the answer on. *)
Lemma tag_list_run self name name_pattern limit sort_by sort_order w
    st body :
  http_get rt (length (requests w))
    (tag_list_url self name name_pattern limit sort_by sort_order)
  = (st, body) ->
  is_success st = true ->
  tag_list rt self name name_pattern limit sort_by sort_order w =
  let w' :=
    received (tag_list_url self name name_pattern limit sort_by sort_order)
      body w in
  match xmltodict_parse rt body with
  | None => (Raise (xmltodict_error rt body), w')
  | Some payload =>
      match payload !! "tags" with
      | None => (Ok (Tags []), w')
      | Some tags =>
          match Py.getitem tags "tag" with
          | Raise e => (Raise e, w')
          | Ok (PList l) =>
              match for_each (make_tag rt self) l w' with
              | (Ok ts, w'') => (Ok (Tags ts), w'')
              | (Raise e, w'') => (Raise e, w'')
              end
          | Ok tag =>
              match GelbooruTag.init rt tag self with
              | Ok t => (Ok (Tag t), w')
              | Raise e => (Raise e, w')
              end
          end
      end
  end.
Proof.
  intros Hget Hst. unfold tag_list. cbv zeta.
  rewrite (bind_request _ _ _ _ _ Hget), Hst, bind_parse.
  destruct (xmltodict_parse rt body) as [payload|]; [|reflexivity].
  rewrite dict_contains_lookup. unfold received.
  destruct (payload !! "tags") as [tags|] eqn:Htags; cbn [negb];
    [|reflexivity].
  rewrite bind_lift. unfold Py.dict_getitem. rewrite Htags, bind_lift.
  destruct (Py.getitem tags "tag") as [tag|e]; [|reflexivity].
  destruct tag; cbn [Py.is_list Py.iter]; unfold make_tag;
    rewrite ?bind_lift; try (destruct (GelbooruTag.init _ _ _); reflexivity).
  unfold bind at 1.
  destruct (for_each _ _ _) as [[ts|e] w'']; reflexivity.
Qed.

(** [get_comments], from the answer on. *)
Lemma get_comments_run self post n w st body :
  int_of_post post w = (Ok n, w) ->
  http_get rt (length (requests w)) (get_comments_url self n)
  = (st, body) ->
  is_success st = true ->
  get_comments rt self post w =
  let w' := received (get_comments_url self n) body w in
  match xmltodict_parse rt body with
  | None => (Raise (xmltodict_error rt body), w')
  | Some payload =>
      match payload !! "comments" with
      | None => (Raise (KeyError "comments"), w')
      | Some comments =>
          match Py.contains "comment" comments with
          | Raise e => (Raise e, w')
          | Ok false => (Ok [], w')
          | Ok true =>
              match Py.getitem comments "comment" with
              | Raise e => (Raise e, w')
              | Ok comment =>
                  for_each (make_comment rt self (backreference post))
                    (normalized comment) w'
              end
          end
      end
  end.
Proof.
  intros Hint Hget Hst. unfold get_comments. cbv zeta.
  unfold bind at 1. rewrite Hint.
  rewrite (bind_request _ _ _ _ _ Hget), Hst, bind_parse.
  destruct (xmltodict_parse rt body) as [payload|]; [|reflexivity].
  rewrite bind_lift. unfold Py.dict_getitem, received.
  destruct (payload !! "comments") as [comments|]; [|reflexivity].
  rewrite bind_lift.
  destruct (Py.contains "comment" comments) as [[|]|e]; cbn [negb];
    try reflexivity.
  rewrite bind_lift.
  destruct (Py.getitem comments "comment") as [comment|e]; [|reflexivity].
  rewrite <- normalize_run. destruct post; reflexivity.
Qed.

(** [random_post], from the answer to the count probe on. *)
Lemma random_post_run self tags exclude_tags w st body :
  http_get rt (length (requests w)) (random_post_url self tags exclude_tags)
  = (st, body) ->
  is_success st = true ->
  random_post rt self tags exclude_tags w =
  let w1 := received (random_post_url self tags exclude_tags) body w in
  match xmltodict_parse rt body with
  | None => (Raise (after_except (xmltodict_error rt body)), w1)
  | Some payload =>
      match probe_count rt payload with
      | Raise e => (Raise e, w1)
      | Ok count =>
          if count =? 0 then (Ok None, w1)
          else
            match randint rt 0 (Z.min count 20000) w1 with
            | (Raise e, w2) => (Raise e, w2)
            | (Ok offset, w2) =>
                match search_posts rt self
                        (Some (_format_tags tags exclude_tags))
                        exclude_tags 1 offset w2 with
                | (Ok r, w3) => (Ok (Some r), w3)
                | (Raise e, w3) => (Raise e, w3)
                end
            end
      end
  end.
Proof.
  intros Hget Hst. unfold random_post. cbv zeta.
  rewrite (bind_request _ _ _ _ _ Hget), Hst, bind_try_parse.
  destruct (xmltodict_parse rt body) as [payload|]; [|reflexivity].
  unfold probe_count, received. rewrite bind_lift.
  destruct (Py.dict_getitem payload "posts") as [posts|e]; [|reflexivity].
  cbn [rbind]. rewrite bind_lift.
  destruct (Py.getitem posts "@count") as [v_count|e]; [|reflexivity].
  cbn [rbind]. rewrite bind_lift.
  destruct (py_int rt v_count) as [count|e]; [|reflexivity].
  destruct (count =? 0); [reflexivity|].
  unfold bind at 1.
  destruct (randint _ _ _ _) as [[offset|e] w2]; [|reflexivity].
  unfold bind, ret.
  destruct (search_posts _ _ _ _ _ _ _) as [[r|e] w3]; reflexivity.
Qed.

(** *** Every operation fails on a status that is not 200 or 201 *)

Lemma get_post_refused self post_id w st body :
  http_get rt (length (requests w)) (get_post_url self post_id)
  = (st, body) ->
  is_success st = false ->
  get_post rt self post_id w
  = (Raise (transport_error body), sent (get_post_url self post_id) w).
Proof.
  intros Hget Hst. unfold get_post. cbv zeta.
  now rewrite (bind_request _ _ _ _ _ Hget), Hst.
Qed.

Lemma search_posts_refused self tags exclude_tags limit page w st body :
  http_get rt (length (requests w))
    (search_posts_url self tags exclude_tags limit page) = (st, body) ->
  is_success st = false ->
  search_posts rt self tags exclude_tags limit page w
  = (Raise (transport_error body),
     sent (search_posts_url self tags exclude_tags limit page) w).
Proof.
  intros Hget Hst. unfold search_posts. cbv zeta.
  now rewrite (bind_request _ _ _ _ _ Hget), Hst.
Qed.

Lemma random_post_refused self tags exclude_tags w st body :
  http_get rt (length (requests w)) (random_post_url self tags exclude_tags)
  = (st, body) ->
  is_success st = false ->
  random_post rt self tags exclude_tags w
  = (Raise (transport_error body),
     sent (random_post_url self tags exclude_tags) w).
Proof.
  intros Hget Hst. unfold random_post. cbv zeta.
  now rewrite (bind_request _ _ _ _ _ Hget), Hst.
Qed.

Lemma tag_list_refused self name name_pattern limit sort_by sort_order w
    st body :
  http_get rt (length (requests w))
    (tag_list_url self name name_pattern limit sort_by sort_order)
  = (st, body) ->
  is_success st = false ->
  tag_list rt self name name_pattern limit sort_by sort_order w
  = (Raise (transport_error body),
     sent (tag_list_url self name name_pattern limit sort_by sort_order) w).
Proof.
  intros Hget Hst. unfold tag_list. cbv zeta.
  now rewrite (bind_request _ _ _ _ _ Hget), Hst.
Qed.

Lemma get_comments_refused self post n w st body :
  int_of_post post w = (Ok n, w) ->
  http_get rt (length (requests w)) (get_comments_url self n)
  = (st, body) ->
  is_success st = false ->
  get_comments rt self post w
  = (Raise (transport_error body), sent (get_comments_url self n) w).
Proof.
  intros Hint Hget Hst. unfold get_comments. cbv zeta.
  unfold bind at 1. rewrite Hint.
  now rewrite (bind_request _ _ _ _ _ Hget), Hst.
Qed.

Lemma is_deleted_refused self image_md5 w st body :
  http_get rt (length (requests w)) (is_deleted_url self) = (st, body) ->
  is_success st = false ->
  is_deleted rt self image_md5 w
  = (Raise (transport_error body), sent (is_deleted_url self) w).
Proof.
  intros Hget Hst. unfold is_deleted. cbv zeta.
  now rewrite (bind_request _ _ _ _ _ Hget), Hst.
Qed.

End Running.

Lemma is_success_statuses st :
  (st = 200 \/ st = 201 -> is_success st = true)
  /\ (st <> 200 -> st <> 201 -> is_success st = false).
Proof.
  unfold is_success. cbn [existsb]. rewrite orb_false_r. split.
  - intros [-> | ->]; reflexivity.
  - intros H1%Z.eqb_neq H2%Z.eqb_neq. now rewrite H1, H2.
Qed.

(** ** The response normalizer *)

(** C1. When the inner key (['post'], ['tag'], ['comment']) of a parsed
    response maps to a single mapping [m], each normalizing operation builds
    exactly one record, from the whole of [m]: [search_posts] adds one image
    to the store and returns it (in a one-element list, or alone when
    [limit == 1]), [tag_list] returns the one tag, [get_comments] adds one
    comment to the store and returns the one-element list of it. When the
    constructor raises on [m], that exception is the outcome and nothing is
    built. The entries of [m] are never taken for records. *)
Theorem single_mapping_one_record (rt : Runtime) (self : Gelbooru)
    (w : World) (st : Z) (body : bytes) (payload outer m : gmap string pyval) :
  is_success st = true ->
  xmltodict_parse rt body = Some payload ->
  (forall tags exclude_tags limit page,
      let url := search_posts_url self tags exclude_tags limit page in
      http_get rt (length (requests w)) url = (st, body) ->
      payload !! "posts" = Some (PDict outer) ->
      outer !! "post" = Some (PDict m) ->
      search_posts rt self tags exclude_tags limit page w =
      match GelbooruImage.init rt (PDict m) self with
      | Ok i =>
          let r := length (image_store w) in
          (Ok (if limit =? 1 then Post r else Posts [r]),
           with_images (image_store w ++ [i]) (received url body w))
      | Raise e => (Raise e, received url body w)
      end)
  /\ (forall name name_pattern limit sort_by sort_order,
      let url :=
        tag_list_url self name name_pattern limit sort_by sort_order in
      http_get rt (length (requests w)) url = (st, body) ->
      payload !! "tags" = Some (PDict outer) ->
      outer !! "tag" = Some (PDict m) ->
      tag_list rt self name name_pattern limit sort_by sort_order w =
      match GelbooruTag.init rt (PDict m) self with
      | Ok t => (Ok (Tag t), received url body w)
      | Raise e => (Raise e, received url body w)
      end)
  /\ (forall post n,
      let url := get_comments_url self n in
      int_of_post post w = (Ok n, w) ->
      http_get rt (length (requests w)) url = (st, body) ->
      payload !! "comments" = Some (PDict outer) ->
      outer !! "comment" = Some (PDict m) ->
      get_comments rt self post w =
      match GelbooruComment.init rt (PDict m) self (backreference post) with
      | Ok c =>
          (Ok [length (comment_store w)],
           with_comments (comment_store w ++ [c]) (received url body w))
      | Raise e => (Raise e, received url body w)
      end).
Proof.
  intros Hst Hparse. repeat split.
  - intros tags exclude_tags limit page url Hget Houter Hinner.
    rewrite (search_posts_run _ _ _ _ _ _ _ _ _ Hget Hst). cbv zeta.
    rewrite Hparse, Houter. cbn [Py.contains Py.getitem].
    unfold Py.dict_getitem. rewrite Hinner.
    rewrite bool_decide_eq_true_2 by eauto.
    cbn [normalized for_each]. unfold bind, make_image, lift, new_image, ret.
    destruct (GelbooruImage.init rt (PDict m) self) as [i|e]; [|reflexivity].
    destruct (limit =? 1); reflexivity.
  - intros name name_pattern limit sort_by sort_order url Hget Houter Hinner.
    rewrite (tag_list_run _ _ _ _ _ _ _ _ _ _ Hget Hst). cbv zeta.
    rewrite Hparse, Houter. cbn [Py.getitem]. unfold Py.dict_getitem.
    rewrite Hinner. reflexivity.
  - intros post n url Hint Hget Houter Hinner.
    rewrite (get_comments_run _ _ _ _ _ _ _ Hint Hget Hst). cbv zeta.
    rewrite Hparse, Houter. cbn [Py.contains Py.getitem].
    unfold Py.dict_getitem. rewrite Hinner.
    rewrite bool_decide_eq_true_2 by eauto.
    cbn [normalized for_each].
    unfold bind, make_comment, lift, new_comment, ret.
    destruct (GelbooruComment.init _ _ _ _) as [c|e]; reflexivity.
Qed.

Lemma single_mapping_one_record_witness :
  (let '(r, w) :=
     search_posts (Script.answering [(200, Script.one_post_xml)])
       Script.client None None 100 0 empty_world in
   r = Ok (Posts [0%nat])
   /\ map Script.image_summary (image_store w)
      = [(7, PStr "7.png", ["blue_sky"; "solo"], [])])
  /\ (let '(r, w) :=
        tag_list (Script.answering [(200, Script.one_tag_xml)])
          Script.client None None 100 SORT_COUNT SORT_DESC empty_world in
      match r with
      | Ok (Tag t) => Script.tag_summary t = (5, PStr "solo", 12)
      | _ => False
      end)
  /\ (let '(r, w) :=
        get_comments (Script.answering [(200, Script.one_comment_xml)])
          Script.client (PostId 7) empty_world in
      r = Ok [0%nat]
      /\ map Script.comment_summary (comment_store w)
         = [(3, PStr "7", None)]).
Proof.
  split; [|split].
  - destruct (single_mapping_one_record
                (Script.answering [(200, Script.one_post_xml)])
                Script.client empty_world 200 Script.one_post_xml
                Script.one_post Script.one_post_outer
                (Script.dict [("id", PStr "7"); ("height", PStr "600");
                   ("width", PStr "800"); ("has_comments", PStr "true");
                   ("file_url", PStr "https://img.example/a/b/7.png");
                   ("tags", PStr "blue_sky solo")])
                eq_refl eq_refl) as (H & _ & _).
    rewrite (H None None 100 0 eq_refl eq_refl eq_refl).
    split; reflexivity.
  - destruct (single_mapping_one_record
                (Script.answering [(200, Script.one_tag_xml)])
                Script.client empty_world 200 Script.one_tag_xml
                Script.one_tag Script.one_tag_outer
                (Script.dict [("@count", PStr "12"); ("id", PStr "5");
                   ("name", PStr "solo")])
                eq_refl eq_refl) as (_ & H & _).
    rewrite (H None None 100 SORT_COUNT SORT_DESC eq_refl eq_refl eq_refl).
    reflexivity.
  - destruct (single_mapping_one_record
                (Script.answering [(200, Script.one_comment_xml)])
                Script.client empty_world 200 Script.one_comment_xml
                Script.one_comment Script.one_comment_outer
                (Script.dict [("id", PStr "3"); ("post_id", PStr "7");
                   ("body", PStr "nice")])
                eq_refl eq_refl) as (_ & _ & H).
    rewrite (H (PostId 7) 7 eq_refl eq_refl eq_refl eq_refl).
    split; reflexivity.
Defined.

(** The three shapes of a parsed response in which [search_posts] finds
    no result: no ['posts'] key, a ['posts'] mapping without a ['post'] key,
    and a ['posts'] text in which ['post'] does not occur. *)
Lemma search_posts_no_results (rt : Runtime) (self : Gelbooru)
    (tags exclude_tags : option (list string)) (limit page : Z) (w : World)
    (st : Z) (body : bytes) (payload : gmap string pyval) :
  let url := search_posts_url self tags exclude_tags limit page in
  http_get rt (length (requests w)) url = (st, body) ->
  is_success st = true ->
  xmltodict_parse rt body = Some payload ->
  payload !! "posts" = None
  \/ (exists outer,
         payload !! "posts" = Some (PDict outer) /\ outer !! "post" = None)
  \/ (exists s,
         payload !! "posts" = Some (PStr s)
         /\ PyStr.substring_of "post" s = false)
  \/ (exists l,
         payload !! "posts" = Some (PList l)
         /\ Forall (fun v => v <> PStr "post") l) ->
  search_posts rt self tags exclude_tags limit page w
  = (Ok (Posts []), received url body w).
Proof.
  intros url Hget Hst Hparse Hno.
  rewrite (search_posts_run _ _ _ _ _ _ _ _ _ Hget Hst). cbv zeta.
  rewrite Hparse.
  destruct Hno as [Houter | [(outer & Houter & Hinner)
                            | [(s & Houter & Hs) | (l & Houter & Hl)]]];
    rewrite Houter; [reflexivity| | |].
  - cbn [Py.contains]. rewrite bool_decide_eq_false_2; [reflexivity|].
    rewrite Hinner. intros [v Hv]. discriminate.
  - cbn [Py.contains]. now rewrite Hs.
  - cbn [Py.contains].
    replace (existsb (Py.eq_str "post") l) with false; [reflexivity|].
    symmetry. clear Houter. induction Hl as [|v l Hv _ IH]; [reflexivity|].
    cbn [existsb]. rewrite IH, orb_false_r.
    destruct v as [|t| |]; try reflexivity.
    cbn [Py.eq_str]. apply String.eqb_neq. intros <-. now apply Hv.
Qed.

(** When ['posts'] maps to [None], the test for the inner key raises. *)
Lemma search_posts_posts_none (rt : Runtime) (self : Gelbooru)
    (tags exclude_tags : option (list string)) (limit page : Z) (w : World)
    (st : Z) (body : bytes) (payload : gmap string pyval) :
  let url := search_posts_url self tags exclude_tags limit page in
  http_get rt (length (requests w)) url = (st, body) ->
  is_success st = true ->
  xmltodict_parse rt body = Some payload ->
  payload !! "posts" = Some PNone ->
  search_posts rt self tags exclude_tags limit page w
  = (Raise TypeError, received url body w).
Proof.
  intros url Hget Hst Hparse Hnone.
  rewrite (search_posts_run _ _ _ _ _ _ _ _ _ Hget Hst). cbv zeta.
  now rewrite Hparse, Hnone.
Qed.

(** C10, as the code has it. A call of [search_posts] with [limit == 1]
    that got status 200 or 201 and whose parsed response has no ['posts']
    key, or a ['posts'] mapping without a ['post'] key, or a ['posts'] text in
    which ['post'] does not occur, or a ['posts'] list of which ['post'] is no
    element, returns the empty list, not an image and not [None]: the test
    for results comes before the unwrapping by [limit]. What is left is
    ['posts'] mapped to [None], on which the test raises. *)
Theorem search_posts_limit_1_no_results (rt : Runtime) (self : Gelbooru)
    (tags exclude_tags : option (list string)) (page : Z) (w : World)
    (st : Z) (body : bytes) (payload : gmap string pyval) :
  let url := search_posts_url self tags exclude_tags 1 page in
  http_get rt (length (requests w)) url = (st, body) ->
  st = 200 \/ st = 201 ->
  xmltodict_parse rt body = Some payload ->
  payload !! "posts" = None
  \/ (exists outer,
         payload !! "posts" = Some (PDict outer) /\ outer !! "post" = None)
  \/ (exists s,
         payload !! "posts" = Some (PStr s)
         /\ PyStr.substring_of "post" s = false)
  \/ (exists l,
         payload !! "posts" = Some (PList l)
         /\ Forall (fun v => v <> PStr "post") l) ->
  search_posts rt self tags exclude_tags 1 page w
  = (Ok (Posts []), received url body w).
Proof.
  intros url Hget Hst%is_success_statuses Hparse Hno.
  now apply search_posts_no_results with st payload.
Qed.

Lemma search_posts_limit_1_no_results_witness :
  fst (search_posts (Script.answering [(200, Script.no_posts_xml)])
         Script.client (Some ["Blue Sky"]) None 1 0 empty_world)
  = Ok (Posts [])
  /\ fst (search_posts (Script.answering [(200, Script.error_xml)])
            Script.client None None 1 0 empty_world)
     = Ok (Posts [])
  /\ fst (search_posts (Cases.answering [(201, Cases.text_posts_xml)])
            Script.client None None 1 0 empty_world)
     = Ok (Posts []).
Proof.
  split; [|split].
  - rewrite (search_posts_limit_1_no_results
               (Script.answering [(200, Script.no_posts_xml)]) Script.client
               (Some ["Blue Sky"]) None 0 empty_world 200
               Script.no_posts_xml Script.no_posts eq_refl
               (or_introl eq_refl) eq_refl).
    + reflexivity.
    + right. left. exists Script.no_posts_outer. split; reflexivity.
  - rewrite (search_posts_limit_1_no_results
               (Script.answering [(200, Script.error_xml)]) Script.client
               None None 0 empty_world 200
               Script.error_xml Script.error eq_refl
               (or_introl eq_refl) eq_refl).
    + reflexivity.
    + left. reflexivity.
  - rewrite (search_posts_limit_1_no_results
               (Cases.answering [(201, Cases.text_posts_xml)]) Script.client
               None None 0 empty_world 201
               Cases.text_posts_xml Cases.text_posts eq_refl
               (or_intror eq_refl) eq_refl).
    + reflexivity.
    + right. right. left. exists "nothing found". split; reflexivity.
Defined.

(** C10, as it is stated, fails: an empty [<posts/>] element parses to
    [{'posts': None}], which has the outer key and no inner key; the test
    ['post' not in None] raises [TypeError], so the call with [limit == 1] does
    not return the empty list. *)
Lemma search_posts_limit_1_posts_none :
  let rt := Cases.answering [(200, Cases.empty_posts_xml)] in
  xmltodict_parse rt Cases.empty_posts_xml = Some Cases.empty_posts
  /\ Cases.empty_posts !! "posts" = Some PNone
  /\ outcome (search_posts rt Script.client None None 1 0 empty_world)
     = (Raise TypeError, 1%nat, [Cases.empty_posts_xml])
  /\ fst (search_posts rt Script.client None None 1 0 empty_world)
     <> Ok (Posts []).
Proof. cbv zeta. repeat split; try reflexivity. discriminate. Qed.




(** ** Transport errors *)

(** The second request of [random_post] is refused like the first. *)
Lemma random_post_search_refused (rt : Runtime) (self : Gelbooru)
    (tags exclude_tags : option (list string)) (w : World) (st1 : Z)
    (body1 : bytes) (payload : gmap string pyval) (count offset : Z)
    (w2 : World) (st2 : Z) (body2 : bytes) :
  let url1 := random_post_url self tags exclude_tags in
  let url2 :=
    search_posts_url self (Some (_format_tags tags exclude_tags))
      exclude_tags 1 offset in
  http_get rt (length (requests w)) url1 = (st1, body1) ->
  is_success st1 = true ->
  xmltodict_parse rt body1 = Some payload ->
  probe_count rt payload = Ok count ->
  count <> 0 ->
  randint rt 0 (Z.min count 20000) (received url1 body1 w) = (Ok offset, w2) ->
  http_get rt (length (requests w2)) url2 = (st2, body2) ->
  is_success st2 = false ->
  random_post rt self tags exclude_tags w
  = (Raise (transport_error body2), sent url2 w2).
Proof.
  intros url1 url2 Hget1 Hst1 Hparse Hcount Hnz Hrand Hget2 Hst2.
  rewrite (random_post_run _ _ _ _ _ _ _ Hget1 Hst1). cbv zeta.
  rewrite Hparse, Hcount. apply Z.eqb_neq in Hnz. rewrite Hnz.
  fold url1. rewrite Hrand.
  now rewrite (search_posts_refused _ _ _ _ _ _ _ _ _ Hget2 Hst2).
Qed.

(** C9, as the code has it. [_request] returns the body as it came when
    the status is 200 or 201, and for every other status, the other 2xx
    statuses among them, it raises [GelbooruException] whose message is the
    text ['Gelbooru returned a non 200 status code: '] followed by the body,
    so that the body can be read off the exception. Every operation
    therefore ends with that exception when its request gets a status other
    than 200 and 201, and the world then holds the request and nothing more:
    no body went to the parser. *)
Theorem status_not_200_201_raises (rt : Runtime) (self : Gelbooru)
    (w : World) (st : Z) (body : bytes) :
  let error b :=
    GelbooruException
      [MText "Gelbooru returned a non 200 status code: "; MBytes b] in
  (forall b, error b = error body -> b = body)
  /\ (forall url,
      http_get rt (length (requests w)) url = (st, body) ->
      (st = 200 \/ st = 201 -> _request rt url w = (Ok body, sent url w))
      /\ (st <> 200 -> st <> 201 ->
          _request rt url w = (Raise (error body), sent url w)))
  /\ (st <> 200 -> st <> 201 ->
      (forall url, parsed (sent url w) = parsed w)
      /\ (forall post_id,
             let url := get_post_url self post_id in
             http_get rt (length (requests w)) url = (st, body) ->
             get_post rt self post_id w
             = (Raise (error body), sent url w))
      /\ (forall tags exclude_tags limit page,
             let url := search_posts_url self tags exclude_tags limit page in
             http_get rt (length (requests w)) url = (st, body) ->
             search_posts rt self tags exclude_tags limit page w
             = (Raise (error body), sent url w))
      /\ (forall tags exclude_tags,
             let url := random_post_url self tags exclude_tags in
             http_get rt (length (requests w)) url = (st, body) ->
             random_post rt self tags exclude_tags w
             = (Raise (error body), sent url w))
      /\ (forall name name_pattern limit sort_by sort_order,
             let url :=
               tag_list_url self name name_pattern limit sort_by sort_order in
             http_get rt (length (requests w)) url = (st, body) ->
             tag_list rt self name name_pattern limit sort_by sort_order w
             = (Raise (error body), sent url w))
      /\ (forall post n,
             let url := get_comments_url self n in
             int_of_post post w = (Ok n, w) ->
             http_get rt (length (requests w)) url = (st, body) ->
             get_comments rt self post w
             = (Raise (error body), sent url w))
      /\ (forall image_md5,
             let url := is_deleted_url self in
             http_get rt (length (requests w)) url = (st, body) ->
             is_deleted rt self image_md5 w
             = (Raise (error body), sent url w))
      /\ (forall tags exclude_tags w0 st1 body1 payload count offset,
             let url1 := random_post_url self tags exclude_tags in
             let url :=
               search_posts_url self (Some (_format_tags tags exclude_tags))
                 exclude_tags 1 offset in
             http_get rt (length (requests w0)) url1 = (st1, body1) ->
             st1 = 200 \/ st1 = 201 ->
             xmltodict_parse rt body1 = Some payload ->
             probe_count rt payload = Ok count ->
             count <> 0 ->
             randint rt 0 (Z.min count 20000) (received url1 body1 w0)
             = (Ok offset, w) ->
             http_get rt (length (requests w)) url = (st, body) ->
             random_post rt self tags exclude_tags w0
             = (Raise (error body), sent url w))).
Proof.
  cbv zeta.
  change (GelbooruException
            [MText "Gelbooru returned a non 200 status code: "; MBytes body])
    with (transport_error body).
  destruct (is_success_statuses st) as [Hyes Hno].
  split; [now intros b [= ->]|]. split.
  - intros url Hget. rewrite request_run, Hget. split.
    + intros H. now rewrite (Hyes H).
    + intros H1 H2. now rewrite (Hno H1 H2).
  - intros H1 H2. specialize (Hno H1 H2). split; [reflexivity|].
    repeat split_and.
    + intros post_id Hget. now apply get_post_refused with st.
    + intros tags exclude_tags limit page Hget.
      now apply search_posts_refused with st.
    + intros tags exclude_tags Hget. now apply random_post_refused with st.
    + intros name name_pattern limit sort_by sort_order Hget.
      now apply tag_list_refused with st.
    + intros post n Hint Hget. now apply get_comments_refused with st.
    + intros image_md5 Hget. now apply is_deleted_refused with st.
    + intros tags exclude_tags w0 st1 body1 payload count offset
        Hget1 Hst1%is_success_statuses Hparse Hcount Hnz Hrand Hget.
      now apply random_post_search_refused
        with st1 body1 payload count st.
Qed.

Lemma status_not_200_201_raises_witness :
  let down := Script.answering [(500, "backend down")] in
  let busy := Script.answering [(200, Script.one_post_xml); (503, "busy")] in
  let error b :=
    GelbooruException
      [MText "Gelbooru returned a non 200 status code: "; MBytes b] in
  outcome (get_post down Script.client (AInt 7) empty_world)
  = (Raise (error "backend down"), 1%nat, [])
  /\ outcome (search_posts down Script.client None None 100 0 empty_world)
     = (Raise (error "backend down"), 1%nat, [])
  /\ outcome (random_post down Script.client None None empty_world)
     = (Raise (error "backend down"), 1%nat, [])
  /\ outcome (tag_list down Script.client None None 100 SORT_COUNT SORT_DESC
               empty_world)
     = (Raise (error "backend down"), 1%nat, [])
  /\ outcome (get_comments down Script.client (PostId 7) empty_world)
     = (Raise (error "backend down"), 1%nat, [])
  /\ outcome (is_deleted down Script.client "d41d8cd9" empty_world)
     = (Raise (error "backend down"), 1%nat, [])
  /\ outcome (random_post busy Script.client None None empty_world)
     = (Raise (error "busy"), 2%nat, [Script.one_post_xml])
  /\ _request (Script.answering [(201, "<tags/>")])
       (_endpoint Script.client "tag") empty_world
     = (Ok "<tags/>", sent (_endpoint Script.client "tag") empty_world).
Proof.
  cbv zeta.
  destruct (status_not_200_201_raises
              (Script.answering [(500, "backend down")]) Script.client
              empty_world 500 "backend down")
    as (_ & _ & H).
  destruct H as (_ & H1 & H2 & H3 & H4 & H5 & H6 & _);
    [discriminate | discriminate |].
  rewrite (H1 (AInt 7) eq_refl), (H2 None None 100 0 eq_refl),
    (H3 None None eq_refl),
    (H4 None None 100 SORT_COUNT SORT_DESC eq_refl),
    (H5 (PostId 7) 7 eq_refl eq_refl), (H6 "d41d8cd9" eq_refl).
  do 6 (split; [reflexivity|]).
  destruct (status_not_200_201_raises
              (Script.answering [(200, Script.one_post_xml); (503, "busy")])
              Script.client
              (with_draws 1
                 (received (random_post_url Script.client None None)
                    Script.one_post_xml empty_world))
              503 "busy")
    as (_ & _ & H').
  destruct H' as (_ & _ & _ & _ & _ & _ & _ & H7);
    [discriminate | discriminate |].
  split.
  - rewrite (H7 None None empty_world 200 Script.one_post_xml
               Script.one_post 1 0 eq_refl (or_introl eq_refl) eq_refl
               eq_refl);
      [reflexivity | discriminate | reflexivity | reflexivity].
  - destruct (status_not_200_201_raises
                (Script.answering [(201, "<tags/>")]) Script.client
                empty_world 201 "<tags/>") as (_ & Hreq & _).
    destruct (Hreq (_endpoint Script.client "tag") eq_refl) as [Hok _].
    apply Hok. now right.
Defined.

(** C9, as it is stated, fails when a success status is any of the 2xx
    statuses of HTTP: the server answers 204 with a body, and the body is not
    returned for parsing; [_request] raises and so does every operation. *)
Lemma status_204_raises :
  let rt := Script.answering [(204, Script.no_posts_xml)] in
  let url := search_posts_url Script.client None None 100 0 in
  is_2xx 204 = true
  /\ http_get rt 0 url = (204, Script.no_posts_xml)
  /\ _request rt url empty_world
     = (Raise
          (GelbooruException
             [MText "Gelbooru returned a non 200 status code: ";
              MBytes Script.no_posts_xml]),
        sent url empty_world)
  /\ fst (_request rt url empty_world) <> Ok Script.no_posts_xml
  /\ outcome (search_posts rt Script.client None None 100 0 empty_world)
     = (Raise
          (GelbooruException
             [MText "Gelbooru returned a non 200 status code: ";
              MBytes Script.no_posts_xml]),
        1%nat, []).
Proof. cbv zeta. repeat split; try reflexivity. discriminate. Qed.

(** ** Requests *)

Lemma args_get_set_eq key v args : args_get key (args_set key v args) = Some v.
Proof.
  induction args as [|[k v'] rest IH]; cbn.
  - now rewrite String.eqb_refl.
  - destruct (String.eqb k key) eqn:E; cbn; rewrite E; [reflexivity | exact IH].
Qed.

Lemma args_get_set_ne key key' v args :
  key <> key' -> args_get key' (args_set key v args) = args_get key' args.
Proof.
  intros Hne. induction args as [|[k v'] rest IH]; cbn.
  - apply String.eqb_neq in Hne. now rewrite Hne.
  - destruct (String.eqb k key) eqn:E; cbn.
    + apply String.eqb_eq in E. subst k.
      apply String.eqb_neq in Hne. now rewrite Hne.
    + now rewrite IH.
Qed.

Lemma arg_set_eq key v e : arg key (set_arg key v e) = Some v.
Proof. apply args_get_set_eq. Qed.

Lemma arg_set_ne key key' v e :
  key <> key' -> arg key' (set_arg key v e) = arg key' e.
Proof. apply args_get_set_ne. Qed.

Lemma arg_with_tags key tags e :
  key <> "tags" -> arg key (with_tags tags e) = arg key e.
Proof.
  intros Hne. unfold with_tags. destruct (nonempty tags); [|reflexivity].
  apply arg_set_ne. congruence.
Qed.

(** The request of [search_posts] carries its [limit] and its [page]. *)
Lemma search_posts_url_args self tags exclude_tags limit page :
  let url := search_posts_url self tags exclude_tags limit page in
  arg "limit" url = Some (AInt limit) /\ arg "pid" url = Some (AInt page).
Proof.
  cbv zeta. unfold search_posts_url. split.
  - rewrite arg_with_tags by discriminate.
    rewrite arg_set_ne by discriminate. apply arg_set_eq.
  - rewrite arg_with_tags by discriminate. apply arg_set_eq.
Qed.

Section Requests.

Variable rt : Runtime.

Lemma make_image_requests self p w :
  requests (snd (make_image rt self p w)) = requests w.
Proof.
  unfold make_image, bind, lift, new_image.
  destruct (GelbooruImage.init rt p self); reflexivity.
Qed.

Lemma for_each_requests {A B} (f : A -> M B) :
  (forall a w, requests (snd (f a w)) = requests w) ->
  forall l w, requests (snd (for_each f l w)) = requests w.
Proof.
  intros Hf l. induction l as [|a l IH]; intros w; [reflexivity|].
  cbn [for_each]. unfold bind at 1. specialize (Hf a w).
  destruct (f a w) as [[b|e] w1]; cbn [snd] in *; [|exact Hf].
  unfold bind, ret. specialize (IH w1).
  destruct (for_each f l w1) as [[bs|e] w2]; cbn [snd] in *; congruence.
Qed.

(** [search_posts] sends one request, whatever comes back. *)
Lemma search_posts_requests self tags exclude_tags limit page w :
  requests (snd (search_posts rt self tags exclude_tags limit page w))
  = (requests w ++ [search_posts_url self tags exclude_tags limit page])%list.
Proof.
  destruct (http_get rt (length (requests w))
              (search_posts_url self tags exclude_tags limit page))
    as [st body] eqn:Hget.
  destruct (is_success st) eqn:Hst.
  - rewrite (search_posts_run _ _ _ _ _ _ _ _ _ Hget Hst). cbv zeta.
    destruct (xmltodict_parse rt body) as [payload|]; [|reflexivity].
    destruct (payload !! "posts") as [posts|]; [|reflexivity].
    destruct (Py.contains "post" posts) as [[|]|e]; try reflexivity.
    destruct (Py.getitem posts "post") as [post|e]; [|reflexivity].
    pose proof (for_each_requests (make_image rt self)
                  (make_image_requests self) (normalized post)
                  (received
                     (search_posts_url self tags exclude_tags limit page)
                     body w)) as Hreq.
    destruct (for_each _ _ _) as [[result|e] w'']; cbn [snd] in *;
      [|exact Hreq].
    destruct (limit =? 1); [|exact Hreq].
    destruct result; exact Hreq.
  - now rewrite (search_posts_refused _ _ _ _ _ _ _ _ _ Hget Hst).
Qed.

End Requests.

(** C6. Let the count probe of [random_post] be answered with a success
    status and a body that parses, with [count] the integer under
    [payload['posts']['@count']]. If [count] is zero the result is [None] and
    the probe is the only request. If [count] is positive an offset between
    0 and [min(count, 20000)] is drawn and the result is that of
    [search_posts] with the formatted tags, [limit=1] and [page=offset];
    the two requests are the probe and the one of that search, which
    carries [limit=1] and [pid=offset]. *)
Theorem random_post_round_trips (rt : Runtime) (self : Gelbooru)
    (tags exclude_tags : option (list string)) (w : World) (st : Z)
    (body : bytes) (payload : gmap string pyval) (count : Z) :
  let probe := random_post_url self tags exclude_tags in
  let w1 := received probe body w in
  http_get rt (length (requests w)) probe = (st, body) ->
  is_success st = true ->
  xmltodict_parse rt body = Some payload ->
  probe_count rt payload = Ok count ->
  (count = 0 ->
   random_post rt self tags exclude_tags w = (Ok None, w1)
   /\ requests w1 = (requests w ++ [probe])%list)
  /\ (0 < count ->
      exists offset w2,
        let formatted := Some (_format_tags tags exclude_tags) in
        let fetch := search_posts_url self formatted exclude_tags 1 offset in
        randint rt 0 (Z.min count 20000) w1 = (Ok offset, w2)
        /\ 0 <= offset <= Z.min count 20000
        /\ random_post rt self tags exclude_tags w
           = match search_posts rt self formatted exclude_tags 1 offset w2
             with
             | (Ok r, w3) => (Ok (Some r), w3)
             | (Raise e, w3) => (Raise e, w3)
             end
        /\ requests (snd (random_post rt self tags exclude_tags w))
           = (requests w ++ [probe; fetch])%list
        /\ arg "limit" fetch = Some (AInt 1)
        /\ arg "pid" fetch = Some (AInt offset)).
Proof.
  intros probe w1 Hget Hst Hparse Hcount.
  pose proof (random_post_run rt self tags exclude_tags w st body Hget Hst)
    as Hrun.
  cbv zeta in Hrun. rewrite Hparse, Hcount in Hrun. fold probe w1 in Hrun.
  split.
  - intros ->. split; [exact Hrun | reflexivity].
  - intros Hpos.
    set (hi := Z.min count 20000) in *.
    assert (Hhi : 0 < hi) by (unfold hi; lia).
    exists (0 + random_source rt (draws w1) mod (hi - 0 + 1)),
      (with_draws (S (draws w1)) w1).
    assert (Hrand : randint rt 0 hi w1
                    = (Ok (0 + random_source rt (draws w1) mod (hi - 0 + 1)),
                       with_draws (S (draws w1)) w1)).
    { unfold randint. destruct (hi <? 0) eqn:E; [|reflexivity].
      apply Z.ltb_lt in E. lia. }
    cbv zeta. rewrite Hrand in Hrun.
    destruct (count =? 0) eqn:E; [apply Z.eqb_eq in E; lia|].
    split; [exact Hrand|]. split.
    { pose proof (Z.mod_pos_bound (random_source rt (draws w1)) (hi - 0 + 1)).
      lia. }
    split; [exact Hrun|]. split.
    + rewrite Hrun.
      set (offset := 0 + _ mod _).
      pose proof (search_posts_requests rt self
                    (Some (_format_tags tags exclude_tags)) exclude_tags 1
                    offset (with_draws (S (draws w1)) w1)) as Hreq.
      destruct (search_posts _ _ _ _ _ _ _) as [[r|e] w3];
        cbn [snd] in *; rewrite Hreq; cbn [requests with_draws];
        unfold w1, received, handed, sent; cbn [requests with_parsed
          with_requests]; now rewrite <- app_assoc.
    + apply search_posts_url_args.
Qed.

Lemma random_post_round_trips_witness :
  outcome (random_post (Script.answering [(200, Script.no_posts_xml)])
             Script.client (Some ["Blue Sky"]) None empty_world)
  = (Ok None, 1%nat, [Script.no_posts_xml])
  /\ outcome (random_post
                (Script.answering
                   [(200, Script.one_post_xml); (200, Script.one_post_xml)])
                Script.client None None empty_world)
     = (Ok (Some (Post 0%nat)), 2%nat,
        [Script.one_post_xml; Script.one_post_xml]).
Proof.
  split.
  - destruct (random_post_round_trips
                (Script.answering [(200, Script.no_posts_xml)])
                Script.client (Some ["Blue Sky"]) None empty_world 200
                Script.no_posts_xml Script.no_posts 0
                eq_refl eq_refl eq_refl eq_refl) as (Hzero & _).
    destruct (Hzero eq_refl) as (Hrun & _).
    unfold outcome. rewrite Hrun. reflexivity.
  - destruct (random_post_round_trips
                (Script.answering
                   [(200, Script.one_post_xml); (200, Script.one_post_xml)])
                Script.client None None empty_world 200
                Script.one_post_xml Script.one_post 1
                eq_refl eq_refl eq_refl eq_refl) as (_ & Hpos).
    destruct (Hpos eq_refl) as (offset & w2 & Hrand & _ & Hrun & _).
    cbv zeta in Hrun. unfold outcome. rewrite Hrun.
    vm_compute in Hrand. injection Hrand as <- <-. reflexivity.
Defined.

(** ** Malformed responses *)

Section Malformed.

Variable rt : Runtime.

Lemma rbind_builtin {A B} (r : result A) (k : A -> result B) :
  builtin_only r -> (forall a, builtin_only (k a)) ->
  builtin_only (rbind r k).
Proof. destruct r as [a|[]]; cbn; auto. Qed.

Lemma get_builtin v key : builtin_only (Py.get v key).
Proof. destruct v; exact I. Qed.

Lemma getitem_builtin v key : builtin_only (Py.getitem v key).
Proof.
  destruct v; try exact I. cbn. unfold Py.dict_getitem.
  destruct (d !! key); exact I.
Qed.

Lemma contains_builtin v key : builtin_only (Py.contains key v).
Proof. destruct v; exact I. Qed.

Lemma py_int_builtin v : builtin_only (py_int rt v).
Proof.
  destruct v; try exact I. cbn. destruct (int_of_str rt s); exact I.
Qed.

Lemma of_library_builtin {A} (r : A + builtin_exn) :
  builtin_only (of_library r).
Proof. destruct r; exact I. Qed.

Lemma image_init_builtin p self :
  builtin_only (GelbooruImage.init rt p self).
Proof.
  unfold GelbooruImage.init.
  repeat (apply rbind_builtin;
          [ first [ apply get_builtin | apply py_int_builtin
                  | apply of_library_builtin ]
          | intros ? ]).
  exact I.
Qed.

Lemma probe_count_builtin payload : builtin_only (probe_count rt payload).
Proof.
  unfold probe_count. apply rbind_builtin.
  - unfold Py.dict_getitem. destruct (payload !! "posts"); exact I.
  - intros posts. apply rbind_builtin; [apply getitem_builtin|].
    intros v. apply py_int_builtin.
Qed.

Lemma make_image_builtin self p w :
  builtin_only (fst (make_image rt self p w)).
Proof.
  unfold make_image, bind, lift, new_image.
  pose proof (image_init_builtin p self) as H.
  destruct (GelbooruImage.init rt p self) as [i|e]; [exact I | exact H].
Qed.

Lemma for_each_builtin {A B} (f : A -> M B) :
  (forall a w, builtin_only (fst (f a w))) ->
  forall l w, builtin_only (fst (for_each f l w)).
Proof.
  intros Hf l. induction l as [|a l IH]; intros w; [exact I|].
  cbn [for_each]. unfold bind at 1. specialize (Hf a w).
  destruct (f a w) as [[b|e] w1]; cbn [fst] in *; [|exact Hf].
  unfold bind, ret. specialize (IH w1).
  destruct (for_each f l w1) as [[bs|e] w2]; cbn [fst] in *;
    [exact I | exact IH].
Qed.

Lemma builtin_not_malformed {A} (r : result A) :
  builtin_only r -> r <> Raise malformed.
Proof. intros H ->. exact H. Qed.

Lemma after_except_malformed e : after_except e = malformed <-> e = ExpatError.
Proof. destruct e; cbn; split; (reflexivity || discriminate). Qed.

Lemma after_except_other e : e <> ExpatError -> after_except e = Builtin e.
Proof. destruct e; (reflexivity || congruence). Qed.

Lemma is_success_iff st : is_success st = true <-> st = 200 \/ st = 201.
Proof.
  unfold is_success. cbn [existsb]. rewrite orb_false_r, orb_true_iff.
  now rewrite !Z.eqb_eq.
Qed.

(** [search_posts] raises the malformed-response error exactly when the
    body it got with a success status makes the parser raise [ExpatError]. *)
Lemma search_posts_malformed_iff self tags exclude_tags limit page w
    st body :
  http_get rt (length (requests w))
    (search_posts_url self tags exclude_tags limit page) = (st, body) ->
  fst (search_posts rt self tags exclude_tags limit page w) = Raise malformed
  <-> is_success st = true /\ expat_fails rt body.
Proof.
  intros Hget. unfold expat_fails. destruct (is_success st) eqn:Hst.
  - rewrite (search_posts_run _ _ _ _ _ _ _ _ _ Hget Hst). cbv zeta.
    destruct (xmltodict_parse rt body) as [payload|].
    + split; [|intros (_ & H & _); discriminate H].
      intros H. exfalso. revert H. apply builtin_not_malformed.
      destruct (payload !! "posts") as [posts|]; [|exact I].
      pose proof (contains_builtin posts "post") as Hc.
      destruct (Py.contains "post" posts) as [[|]|e]; [|exact I|exact Hc].
      pose proof (getitem_builtin posts "post") as Hg.
      destruct (Py.getitem posts "post") as [post|e]; [|exact Hg].
      pose proof (for_each_builtin (make_image rt self)
                    (make_image_builtin self) (normalized post)
                    (received
                       (search_posts_url self tags exclude_tags limit page)
                       body w)) as Hf.
      destruct (for_each _ _ _) as [[result|e] w'']; cbn [fst] in *;
        [|exact Hf].
      destruct (limit =? 1); [|exact I]. destruct result; exact I.
    + cbn [fst]. split.
      * intros [= H]. apply after_except_malformed in H. now split.
      * intros (_ & _ & ->). reflexivity.
  - rewrite (search_posts_refused _ _ _ _ _ _ _ _ _ Hget Hst).
    split; [discriminate | intros [H _]; discriminate H].
Qed.

(** Another exception of the parser goes through [search_posts] as it
    is. *)
Lemma search_posts_parser_error self tags exclude_tags limit page w st body :
  http_get rt (length (requests w))
    (search_posts_url self tags exclude_tags limit page) = (st, body) ->
  is_success st = true ->
  xmltodict_parse rt body = None ->
  xmltodict_error rt body <> ExpatError ->
  fst (search_posts rt self tags exclude_tags limit page w)
  = Raise (Builtin (xmltodict_error rt body)).
Proof.
  intros Hget Hst Hnone Hother.
  rewrite (search_posts_run _ _ _ _ _ _ _ _ _ Hget Hst). cbv zeta.
  rewrite Hnone. cbn [fst]. now rewrite after_except_other.
Qed.

Lemma random_post_parser_error self tags exclude_tags w st body :
  http_get rt (length (requests w)) (random_post_url self tags exclude_tags)
  = (st, body) ->
  is_success st = true ->
  xmltodict_parse rt body = None ->
  xmltodict_error rt body <> ExpatError ->
  fst (random_post rt self tags exclude_tags w)
  = Raise (Builtin (xmltodict_error rt body)).
Proof.
  intros Hget Hst Hnone Hother.
  rewrite (random_post_run _ _ _ _ _ _ _ Hget Hst). cbv zeta.
  rewrite Hnone. cbn [fst]. now rewrite after_except_other.
Qed.

Lemma randint_builtin a b w : builtin_only (fst (randint rt a b w)).
Proof. unfold randint. destruct (b <? a); exact I. Qed.

(** [random_post] raises it exactly when the answer to its probe makes the
    parser raise [ExpatError], or when the search it ends with raises it. *)
Lemma random_post_malformed_iff self tags exclude_tags w st body :
  let probe := random_post_url self tags exclude_tags in
  http_get rt (length (requests w)) probe = (st, body) ->
  fst (random_post rt self tags exclude_tags w) = Raise malformed
  <-> is_success st = true
      /\ (expat_fails rt body
          \/ exists payload count offset w2,
              xmltodict_parse rt body = Some payload
              /\ probe_count rt payload = Ok count
              /\ count <> 0
              /\ randint rt 0 (Z.min count 20000) (received probe body w)
                 = (Ok offset, w2)
              /\ fst (search_posts rt self
                        (Some (_format_tags tags exclude_tags))
                        exclude_tags 1 offset w2) = Raise malformed).
Proof.
  intros probe Hget. unfold expat_fails. destruct (is_success st) eqn:Hst.
  - rewrite (random_post_run _ _ _ _ _ _ _ Hget Hst). cbv zeta.
    fold probe.
    destruct (xmltodict_parse rt body) as [payload|].
    2:{ cbn [fst]. split.
        - intros [= H]. apply after_except_malformed in H.
          split; [reflexivity|]. left. now split.
        - intros (_ & [(_ & ->) | (p & c & o & w2 & H1 & _)]);
            [reflexivity | discriminate]. }
    pose proof (probe_count_builtin payload) as Hp.
    destruct (probe_count rt payload) as [count|e] eqn:Hpc.
    + destruct (count =? 0) eqn:Hz.
      * apply Z.eqb_eq in Hz. split; [discriminate|].
        intros (_ & [(H & _) | (p & c & o & w2 & H1 & H2 & H3 & _)]);
          [discriminate | congruence].
      * pose proof (randint_builtin 0 (Z.min count 20000)
                      (received probe body w)) as Hr.
        destruct (randint _ _ _ _) as [[offset|e] w2] eqn:Hrand;
          cbn [fst] in Hr.
        -- destruct (search_posts _ _ _ _ _ _ _) as [[r|e] w3] eqn:Hs.
           ++ split; [discriminate|].
              intros (_ & [(H & _) | (p & c & o & w2' & H1 & H2 & H3 & H4
                                      & H5)]);
                [discriminate|].
              assert (p = payload) as -> by congruence.
              assert (c = count) as -> by congruence.
              rewrite Hrand in H4. injection H4 as <- <-.
              rewrite Hs in H5. discriminate.
           ++ split.
              ** intros H. split; [reflexivity|]. right.
                 exists payload, count, offset, w2.
                 split; [reflexivity|]. split; [exact Hpc|].
                 split; [now apply Z.eqb_neq|].
                 split; [exact Hrand|].
                 rewrite Hs. cbn [fst] in *. congruence.
              ** intros (_ & [(H & _) | (p & c & o & w2' & H1 & H2 & H3 & H4
                                         & H5)]);
                   [discriminate|].
                 assert (p = payload) as -> by congruence.
                 assert (c = count) as -> by congruence.
                 rewrite Hrand in H4. injection H4 as <- <-.
                 rewrite Hs in H5. cbn [fst] in *. congruence.
        -- split; [intros H; exfalso; revert H;
                   now apply builtin_not_malformed|].
           intros (_ & [(H & _) | (p & c & o & w2' & H1 & H2 & H3 & H4 & _)]);
             [discriminate|].
           assert (p = payload) as -> by congruence.
           assert (c = count) as -> by congruence.
           rewrite Hrand in H4. discriminate.
    + split; [intros H; exfalso; revert H;
              now apply builtin_not_malformed|].
      intros (_ & [(H & _) | (p & c & o & w2 & H1 & H2 & _)]);
        [discriminate | congruence].
  - rewrite (random_post_refused _ _ _ _ _ _ _ Hget Hst).
    split; [discriminate | intros [H _]; discriminate H].
Qed.

End Malformed.

(** C8, as the code has it. The search paths catch [ExpatError] and
    nothing else. [search_posts] ends with [GelbooruException('Gelbooru
    returned a malformed response')] exactly when its request got status 200
    or 201 and a body on which the XML parser raises [ExpatError];
    [random_post] ends with it exactly when that holds of its count probe or,
    the probe having given a count other than zero, of the request of the
    search it ends with. When the parser raises another exception on the body
    (a [ValueError] or a [LookupError] for an encoding it does not support),
    that exception is what the operation raises. *)
Theorem malformed_response_iff_expat_error (rt : Runtime) (self : Gelbooru)
    (w : World) (st : Z) (body : bytes) :
  let malformed_error :=
    GelbooruException [MText "Gelbooru returned a malformed response"] in
  (forall tags exclude_tags limit page,
      http_get rt (length (requests w))
        (search_posts_url self tags exclude_tags limit page) = (st, body) ->
      (fst (search_posts rt self tags exclude_tags limit page w)
       = Raise malformed_error
       <-> (st = 200 \/ st = 201)
           /\ xmltodict_parse rt body = None
           /\ xmltodict_error rt body = ExpatError)
      /\ ((st = 200 \/ st = 201) ->
          xmltodict_parse rt body = None ->
          xmltodict_error rt body <> ExpatError ->
          fst (search_posts rt self tags exclude_tags limit page w)
          = Raise (Builtin (xmltodict_error rt body))))
  /\ (forall tags exclude_tags,
      let probe := random_post_url self tags exclude_tags in
      http_get rt (length (requests w)) probe = (st, body) ->
      (fst (random_post rt self tags exclude_tags w) = Raise malformed_error
       <-> (st = 200 \/ st = 201)
           /\ (xmltodict_parse rt body = None
               /\ xmltodict_error rt body = ExpatError
               \/ exists payload count offset w2 st2 body2,
                   xmltodict_parse rt body = Some payload
                   /\ probe_count rt payload = Ok count
                   /\ count <> 0
                   /\ randint rt 0 (Z.min count 20000) (received probe body w)
                      = (Ok offset, w2)
                   /\ http_get rt (length (requests w2))
                        (search_posts_url self
                           (Some (_format_tags tags exclude_tags))
                           exclude_tags 1 offset) = (st2, body2)
                   /\ (st2 = 200 \/ st2 = 201)
                   /\ xmltodict_parse rt body2 = None
                   /\ xmltodict_error rt body2 = ExpatError))
      /\ ((st = 200 \/ st = 201) ->
          xmltodict_parse rt body = None ->
          xmltodict_error rt body <> ExpatError ->
          fst (random_post rt self tags exclude_tags w)
          = Raise (Builtin (xmltodict_error rt body)))).
Proof.
  cbv zeta. change (GelbooruException [MText _]) with malformed. split.
  - intros tags exclude_tags limit page Hget. split.
    + rewrite (search_posts_malformed_iff rt _ _ _ _ _ _ _ _ Hget).
      unfold expat_fails. now rewrite is_success_iff.
    + intros Hst%is_success_iff. now apply search_posts_parser_error with st.
  - intros tags exclude_tags Hget. split.
    2:{ intros Hst%is_success_iff.
        now apply random_post_parser_error with st. }
    rewrite (random_post_malformed_iff rt self tags exclude_tags w st body Hget).
    rewrite is_success_iff. unfold expat_fails. split.
    + intros (Hst & [Hnone | (p & c & o & w2 & H1 & H2 & H3 & H4 & H5)]);
        (split; [exact Hst|]); [now left | right].
      destruct (http_get rt (length (requests w2))
                  (search_posts_url self
                     (Some (_format_tags tags exclude_tags))
                     exclude_tags 1 o)) as [st2 body2] eqn:Hget2.
      apply (search_posts_malformed_iff rt _ _ _ _ _ _ _ _ Hget2) in H5.
      destruct H5 as [Hst2%is_success_iff [Hnone2 Herr2]].
      exists p, c, o, w2, st2, body2. auto 10.
    + intros (Hst & [Hnone | (p & c & o & w2 & st2 & body2 & H1 & H2 & H3
                                & H4 & Hget2 & Hst2 & Hnone2 & Herr2)]);
        (split; [exact Hst|]); [now left | right].
      exists p, c, o, w2. repeat (split; [assumption|]).
      apply (search_posts_malformed_iff rt _ _ _ _ _ _ _ _ Hget2).
      split; [now apply is_success_iff | now split].
Qed.

Lemma malformed_response_iff_expat_error_witness :
  outcome (search_posts (Script.answering [(200, Script.truncated_xml)])
             Script.client None None 100 0 empty_world)
  = (Raise malformed, 1%nat, [Script.truncated_xml])
  /\ outcome (random_post (Script.answering [(200, Script.truncated_xml)])
                Script.client None None empty_world)
     = (Raise malformed, 1%nat, [Script.truncated_xml])
  /\ outcome (random_post
                (Script.answering
                   [(200, Script.one_post_xml); (200, Script.truncated_xml)])
                Script.client None None empty_world)
     = (Raise malformed, 2%nat, [Script.one_post_xml; Script.truncated_xml])
  /\ fst (search_posts (Cases.answering [(200, Cases.unknown_encoding_xml)])
            Script.client None None 100 0 empty_world)
     = Raise LookupError.
Proof.
  destruct (malformed_response_iff_expat_error
              (Script.answering [(200, Script.truncated_xml)]) Script.client
              empty_world 200 Script.truncated_xml) as (Hsearch & Hrandom).
  destruct (malformed_response_iff_expat_error
              (Script.answering
                 [(200, Script.one_post_xml); (200, Script.truncated_xml)])
              Script.client empty_world 200 Script.one_post_xml)
    as (_ & Hsecond).
  destruct (malformed_response_iff_expat_error
              (Cases.answering [(200, Cases.unknown_encoding_xml)])
              Script.client empty_world 200 Cases.unknown_encoding_xml)
    as (Hother & _).
  unfold outcome. split; [|split; [|split]].
  - destruct (Hsearch None None 100 0 eq_refl) as [Hiff _].
    change (GelbooruException [MText _]) with malformed in Hiff.
    rewrite (proj2 Hiff (conj (or_introl eq_refl) (conj eq_refl eq_refl))).
    reflexivity.
  - destruct (Hrandom None None eq_refl) as [Hiff _].
    change (GelbooruException [MText _]) with malformed in Hiff.
    rewrite (proj2 Hiff
               (conj (or_introl eq_refl)
                  (or_introl (conj eq_refl eq_refl)))).
    reflexivity.
  - destruct (Hsecond None None eq_refl) as [Hiff _].
    change (GelbooruException [MText _]) with malformed in Hiff.
    rewrite (proj2 Hiff).
    + reflexivity.
    + split; [now left|]. right.
      exists Script.one_post, 1, 0,
        (with_draws 1
           (received (random_post_url Script.client None None)
              Script.one_post_xml empty_world)),
        200, Script.truncated_xml.
      split; [reflexivity|]. split; [reflexivity|].
      split; [discriminate|]. split; [reflexivity|].
      split; [reflexivity|]. split; [now left|]. split; reflexivity.
  - destruct (Hother None None 100 0 eq_refl) as [_ Hprop].
    rewrite Hprop; [reflexivity | now left | reflexivity | discriminate].
Defined.

(** C8, as it is stated, fails: the server answers 200 with a document in
    an encoding the parser does not know; the parser cannot parse the body and
    raises [LookupError], which is not an [ExpatError], and [search_posts]
    and [random_post] raise that [LookupError], not the malformed-response
    error. *)
Lemma unparsable_body_not_malformed :
  let rt := Cases.answering [(200, Cases.unknown_encoding_xml)] in
  let malformed_error :=
    GelbooruException [MText "Gelbooru returned a malformed response"] in
  http_get rt 0 (search_posts_url Script.client None None 100 0)
  = (200, Cases.unknown_encoding_xml)
  /\ http_get rt 0 (random_post_url Script.client None None)
     = (200, Cases.unknown_encoding_xml)
  /\ xmltodict_parse rt Cases.unknown_encoding_xml = None
  /\ fst (search_posts rt Script.client None None 100 0 empty_world)
     = Raise LookupError
  /\ fst (random_post rt Script.client None None empty_world)
     = Raise LookupError
  /\ fst (search_posts rt Script.client None None 100 0 empty_world)
     <> Raise malformed_error
  /\ fst (random_post rt Script.client None None empty_world)
     <> Raise malformed_error.
Proof.
  cbv zeta. repeat split; try reflexivity; intros H; vm_compute in H;
    discriminate H.
Qed.

(** ** The lazy accessors and the store *)

Section Frames.

Variable rt : Runtime.
Context {X : Type} (f : World -> X).

Lemma frame_ret {A} (a : A) : frame f (ret a).
Proof. intros w. reflexivity. Qed.

Lemma frame_raise {A} e : frame f (@raise A e).
Proof. intros w. reflexivity. Qed.

Lemma frame_lift {A} (r : result A) : frame f (lift r).
Proof. intros w. reflexivity. Qed.

Lemma frame_bind {A B} (m : M A) (k : A -> M B) :
  frame f m -> (forall a, frame f (k a)) -> frame f (bind m k).
Proof.
  intros Hm Hk w. unfold bind. specialize (Hm w).
  destruct (m w) as [[a|e] w1]; cbn [snd] in *; [|exact Hm].
  now rewrite Hk.
Qed.

Lemma frame_for_each {A B} (g : A -> M B) l :
  (forall a, frame f (g a)) -> frame f (for_each g l).
Proof.
  intros Hg. induction l as [|a l IH]; [apply frame_ret|].
  cbn [for_each]. apply frame_bind; [apply Hg|]. intros b.
  apply frame_bind; [exact IH|]. intros bs. apply frame_ret.
Qed.

Lemma frame_get_image r : frame f (get_image r).
Proof.
  intros w. unfold get_image. destruct (image_store w !! r); reflexivity.
Qed.

Lemma frame_get_comment r : frame f (get_comment r).
Proof.
  intros w. unfold get_comment. destruct (comment_store w !! r); reflexivity.
Qed.

Hypothesis f_requests : forall rs w, f (with_requests rs w) = f w.
Hypothesis f_parsed : forall ps w, f (with_parsed ps w) = f w.

Lemma frame_request url : frame f (_request rt url).
Proof. intros w. rewrite request_run. apply f_requests. Qed.

Lemma frame_parse body : frame f (parse rt body).
Proof.
  intros w. unfold parse. destruct (xmltodict_parse rt body); apply f_parsed.
Qed.

End Frames.

Ltac frame_step :=
  first
    [ apply frame_ret | apply frame_raise | apply frame_lift
    | apply frame_get_image | apply frame_get_comment
    | apply frame_request; reflexivity | apply frame_parse; reflexivity
    | apply frame_bind; [|intros ?]
    | match goal with
      | |- frame _ (if ?c then _ else _) => destruct c
      | |- frame _ (match ?x with _ => _ end) => destruct x
      end ].

Section Accessors.

Variable rt : Runtime.

Lemma make_image_comment_store self p :
  frame comment_store (make_image rt self p).
Proof.
  intros w. unfold make_image, bind, lift, new_image.
  destruct (GelbooruImage.init rt p self); reflexivity.
Qed.

Lemma make_comment_image_store self post p :
  frame image_store (make_comment rt self post p).
Proof.
  intros w. unfold make_comment, bind, lift, new_comment.
  destruct (GelbooruComment.init rt p self post); reflexivity.
Qed.

(** [get_post] does not touch the comments. *)
Lemma get_post_comment_store self post_id :
  frame comment_store (get_post rt self post_id).
Proof.
  unfold get_post. cbv zeta.
  repeat first [apply make_image_comment_store | frame_step].
Qed.

(** [get_comments] does not touch the images. *)
Lemma get_comments_image_store self post :
  frame image_store (get_comments rt self post).
Proof.
  unfold get_comments, int_of_post. cbv zeta.
  repeat first
    [ apply frame_for_each; intros ?
    | apply make_comment_image_store | frame_step ].
Qed.

(** [GelbooruImage.get_comments] by the state of the image. *)
Lemma image_get_comments_run r w i :
  image_store w !! r = Some i ->
  image_get_comments rt r w =
  if negb (Py.truthy (GelbooruImage.has_comments i)) then (Ok [], w)
  else if nonempty (GelbooruImage._comments i)
  then (Ok (GelbooruImage._comments i), w)
  else
    match get_comments rt (GelbooruImage._gelbooru i) (PostImage r) w with
    | (Ok cs, w') =>
        (Ok cs,
         with_images
           (alter (GelbooruImage.set_comments cs) r (image_store w')) w')
    | (Raise e, w') => (Raise e, w')
    end.
Proof.
  intros Hi. unfold image_get_comments, bind at 1, get_image. rewrite Hi.
  destruct (negb _); [reflexivity|].
  destruct (nonempty _); [reflexivity|].
  unfold bind, set_image_comments, ret.
  destruct (get_comments _ _ _ _) as [[cs|e] w']; reflexivity.
Qed.

(** [GelbooruComment.get_post] by the state of the comment. *)
Lemma comment_get_post_run r w c :
  comment_store w !! r = Some c ->
  comment_get_post rt r w =
  match GelbooruComment._post c with
  | Some p => (Ok p, w)
  | None =>
      match get_post rt (GelbooruComment._gelbooru c)
              (APy (GelbooruComment.post_id c)) w with
      | (Ok p, w') =>
          (Ok p,
           with_comments
             (alter (GelbooruComment.set_post (Some p)) r
                (comment_store w')) w')
      | (Raise e, w') => (Raise e, w')
      end
  end.
Proof.
  intros Hc. unfold comment_get_post, bind at 1, get_comment. rewrite Hc.
  destruct (GelbooruComment._post c); [reflexivity|].
  unfold bind, set_comment_post, ret.
  destruct (get_post _ _ _ _) as [[p|e] w']; reflexivity.
Qed.

(** A list of comments that is not empty, once returned, is returned again
    without a fetch: the second call leaves the world as it is. *)
Lemma image_comments_cached r w cs w1 :
  image_get_comments rt r w = (Ok cs, w1) ->
  cs <> [] ->
  image_get_comments rt r w1 = (Ok cs, w1).
Proof.
  intros Hrun Hcs.
  destruct (image_store w !! r) as [i|] eqn:Hi.
  - rewrite (image_get_comments_run r w i Hi) in Hrun.
    destruct (negb _) eqn:Hflag; [congruence|].
    destruct (nonempty _) eqn:Hcache.
    + injection Hrun as <- <-.
      rewrite (image_get_comments_run r w i Hi), Hflag, Hcache.
      reflexivity.
    + pose proof (get_comments_image_store (GelbooruImage._gelbooru i)
                    (PostImage r) w) as Hframe.
      destruct (get_comments _ _ _ _) as [[cs'|e] w']; [|discriminate].
      injection Hrun as <- <-. cbn [snd] in Hframe.
      assert (Hi' : image_store w' !! r = Some i) by now rewrite Hframe.
      assert (Hnew : image_store
                       (with_images
                          (alter (GelbooruImage.set_comments cs') r
                             (image_store w')) w') !! r
                     = Some (GelbooruImage.set_comments cs' i)).
      { cbn [image_store with_images].
        now rewrite list_lookup_alter_eq, Hi'. }
      rewrite (image_get_comments_run r _ _ Hnew).
      cbn [GelbooruImage.has_comments GelbooruImage._comments
             GelbooruImage.set_comments].
      rewrite Hflag. destruct cs'; [congruence | reflexivity].
  - unfold image_get_comments, bind, get_image in Hrun.
    rewrite Hi in Hrun. discriminate.
Qed.

(** The post of a comment, once returned, is returned again without a
    fetch. *)
Lemma comment_post_cached r w p w1 :
  comment_get_post rt r w = (Ok p, w1) ->
  comment_get_post rt r w1 = (Ok p, w1).
Proof.
  intros Hrun.
  destruct (comment_store w !! r) as [c|] eqn:Hc.
  - rewrite (comment_get_post_run r w c Hc) in Hrun.
    destruct (GelbooruComment._post c) as [p'|] eqn:Hpost.
    + injection Hrun as <- <-.
      now rewrite (comment_get_post_run r w c Hc), Hpost.
    + pose proof (get_post_comment_store (GelbooruComment._gelbooru c)
                    (APy (GelbooruComment.post_id c)) w) as Hframe.
      destruct (get_post _ _ _ _) as [[p'|e] w']; [|discriminate].
      injection Hrun as <- <-. cbn [snd] in Hframe.
      assert (Hc' : comment_store w' !! r = Some c) by now rewrite Hframe.
      assert (Hnew : comment_store
                       (with_comments
                          (alter (GelbooruComment.set_post (Some p')) r
                             (comment_store w')) w') !! r
                     = Some (GelbooruComment.set_post (Some p') c)).
      { cbn [comment_store with_comments].
        now rewrite list_lookup_alter_eq, Hc'. }
      now rewrite (comment_get_post_run r _ _ Hnew).
  - unfold comment_get_post, bind, get_comment in Hrun.
    rewrite Hc in Hrun. discriminate.
Qed.

End Accessors.

(** ** Responses without the expected keys *)

(** What each operation does when the outer key is not in the parsed
    response: [search_posts] and [tag_list] return the empty list, [get_post]
    raises [GelbooruNotFoundException], and [get_comments], which does not
    test for the outer key, raises [KeyError]. *)
Lemma outer_key_absent (rt : Runtime) (self : Gelbooru) (w : World) (st : Z)
    (body : bytes) (payload : gmap string pyval) :
  is_success st = true ->
  xmltodict_parse rt body = Some payload ->
  (forall tags exclude_tags limit page,
      let url := search_posts_url self tags exclude_tags limit page in
      http_get rt (length (requests w)) url = (st, body) ->
      payload !! "posts" = None ->
      search_posts rt self tags exclude_tags limit page w
      = (Ok (Posts []), received url body w))
  /\ (forall name name_pattern limit sort_by sort_order,
      let url :=
        tag_list_url self name name_pattern limit sort_by sort_order in
      http_get rt (length (requests w)) url = (st, body) ->
      payload !! "tags" = None ->
      tag_list rt self name name_pattern limit sort_by sort_order w
      = (Ok (Tags []), received url body w))
  /\ (forall post_id,
      let url := get_post_url self post_id in
      http_get rt (length (requests w)) url = (st, body) ->
      payload !! "posts" = None ->
      get_post rt self post_id w
      = (Raise (GelbooruNotFoundException (post_not_found post_id)),
         received url body w))
  /\ (forall post n,
      let url := get_comments_url self n in
      int_of_post post w = (Ok n, w) ->
      http_get rt (length (requests w)) url = (st, body) ->
      payload !! "comments" = None ->
      get_comments rt self post w
      = (Raise (KeyError "comments"), received url body w)).
Proof.
  intros Hst Hparse. repeat split.
  - intros tags exclude_tags limit page url Hget Hno.
    rewrite (search_posts_run _ _ _ _ _ _ _ _ _ Hget Hst). cbv zeta.
    now rewrite Hparse, Hno.
  - intros name name_pattern limit sort_by sort_order url Hget Hno.
    rewrite (tag_list_run _ _ _ _ _ _ _ _ _ _ Hget Hst). cbv zeta.
    now rewrite Hparse, Hno.
  - intros post_id url Hget Hno.
    rewrite (get_post_run _ _ _ _ _ _ Hget Hst). cbv zeta.
    now rewrite Hparse, Hno.
  - intros post n url Hint Hget Hno.
    rewrite (get_comments_run _ _ _ _ _ _ _ Hint Hget Hst). cbv zeta.
    now rewrite Hparse, Hno.
Qed.

(** What each operation does when the outer key maps to a mapping without
    the inner key: [search_posts] and [get_comments] return the empty list;
    [tag_list] and [get_post], which do not test for the inner key, raise
    [KeyError]. *)
Lemma inner_key_absent (rt : Runtime) (self : Gelbooru) (w : World) (st : Z)
    (body : bytes) (payload outer : gmap string pyval) :
  is_success st = true ->
  xmltodict_parse rt body = Some payload ->
  (forall tags exclude_tags limit page,
      let url := search_posts_url self tags exclude_tags limit page in
      http_get rt (length (requests w)) url = (st, body) ->
      payload !! "posts" = Some (PDict outer) ->
      outer !! "post" = None ->
      search_posts rt self tags exclude_tags limit page w
      = (Ok (Posts []), received url body w))
  /\ (forall post n,
      let url := get_comments_url self n in
      int_of_post post w = (Ok n, w) ->
      http_get rt (length (requests w)) url = (st, body) ->
      payload !! "comments" = Some (PDict outer) ->
      outer !! "comment" = None ->
      get_comments rt self post w = (Ok [], received url body w))
  /\ (forall name name_pattern limit sort_by sort_order,
      let url :=
        tag_list_url self name name_pattern limit sort_by sort_order in
      http_get rt (length (requests w)) url = (st, body) ->
      payload !! "tags" = Some (PDict outer) ->
      outer !! "tag" = None ->
      tag_list rt self name name_pattern limit sort_by sort_order w
      = (Raise (KeyError "tag"), received url body w))
  /\ (forall post_id,
      let url := get_post_url self post_id in
      http_get rt (length (requests w)) url = (st, body) ->
      payload !! "posts" = Some (PDict outer) ->
      outer !! "post" = None ->
      get_post rt self post_id w
      = (Raise (KeyError "post"), received url body w)).
Proof.
  intros Hst Hparse. repeat split.
  - intros tags exclude_tags limit page url Hget Houter Hno.
    rewrite (search_posts_run _ _ _ _ _ _ _ _ _ Hget Hst). cbv zeta.
    rewrite Hparse, Houter. cbn [Py.contains].
    rewrite bool_decide_eq_false_2; [reflexivity|].
    rewrite Hno. intros [v Hv]. discriminate.
  - intros post n url Hint Hget Houter Hno.
    rewrite (get_comments_run _ _ _ _ _ _ _ Hint Hget Hst). cbv zeta.
    rewrite Hparse, Houter. cbn [Py.contains].
    rewrite bool_decide_eq_false_2; [reflexivity|].
    rewrite Hno. intros [v Hv]. discriminate.
  - intros name name_pattern limit sort_by sort_order url Hget Houter Hno.
    rewrite (tag_list_run _ _ _ _ _ _ _ _ _ _ Hget Hst). cbv zeta.
    rewrite Hparse, Houter. cbn [Py.getitem]. unfold Py.dict_getitem.
    now rewrite Hno.
  - intros post_id url Hget Houter Hno.
    rewrite (get_post_run _ _ _ _ _ _ Hget Hst). cbv zeta.
    rewrite Hparse, Houter. cbn [Py.getitem]. unfold Py.dict_getitem.
    now rewrite Hno.
Qed.

(** C2, on the code. The server answers 200 with an XML document whose
    root is not the expected one. [search_posts] and [tag_list] return the
    empty list and [get_post] raises [GelbooruNotFoundException];
    [get_comments] raises [KeyError('comments')] instead of returning the
    empty list. *)
Theorem get_comments_outer_key_absent :
  let rt := Script.answering [(200, Script.error_xml)] in
  xmltodict_parse rt Script.error_xml = Some Script.error
  /\ Script.error !! "posts" = None
  /\ Script.error !! "tags" = None
  /\ Script.error !! "comments" = None
  /\ outcome (search_posts rt Script.client None None 100 0 empty_world)
     = (Ok (Posts []), 1%nat, [Script.error_xml])
  /\ outcome (tag_list rt Script.client None None 100 SORT_COUNT SORT_DESC
                empty_world)
     = (Ok (Tags []), 1%nat, [Script.error_xml])
  /\ outcome (get_post rt Script.client (AInt 7) empty_world)
     = (Raise (GelbooruNotFoundException (post_not_found (AInt 7))), 1%nat,
        [Script.error_xml])
  /\ outcome (get_comments rt Script.client (PostId 7) empty_world)
     = (Raise (KeyError "comments"), 1%nat, [Script.error_xml]).
Proof. cbv zeta. repeat split; reflexivity. Qed.

(** C3, on the code. The server answers 200 with the expected root
    element and no result inside it. [search_posts] and [get_comments]
    return the empty list; [tag_list] raises [KeyError('tag')] and [get_post]
    raises [KeyError('post')]. *)
Theorem tag_list_get_post_inner_key_absent :
  let posts := Script.answering [(200, Script.no_posts_xml)] in
  let tags := Script.answering [(200, Script.no_tags_xml)] in
  let comments := Script.answering [(200, Script.no_comments_xml)] in
  xmltodict_parse posts Script.no_posts_xml = Some Script.no_posts
  /\ Script.no_posts !! "posts" = Some (PDict Script.no_posts_outer)
  /\ Script.no_posts_outer !! "post" = None
  /\ xmltodict_parse tags Script.no_tags_xml = Some Script.no_tags
  /\ Script.no_tags !! "tags" = Some (PDict Script.no_tags_outer)
  /\ Script.no_tags_outer !! "tag" = None
  /\ outcome (search_posts posts Script.client None None 100 0 empty_world)
     = (Ok (Posts []), 1%nat, [Script.no_posts_xml])
  /\ outcome (get_comments comments Script.client (PostId 7) empty_world)
     = (Ok [], 1%nat, [Script.no_comments_xml])
  /\ outcome (tag_list tags Script.client None None 100 SORT_COUNT SORT_DESC
                empty_world)
     = (Raise (KeyError "tag"), 1%nat, [Script.no_tags_xml])
  /\ outcome (get_post posts Script.client (AInt 7) empty_world)
     = (Raise (KeyError "post"), 1%nat, [Script.no_posts_xml]).
Proof. cbv zeta. repeat split; reflexivity. Qed.

(** ** The caches of the record objects *)

(** C7, on the code. An image whose post has no comments is fetched, and
    its comments are asked for twice. Each call returns the empty list, and
    each call sends a request: the empty list is not kept as a cached
    answer. *)
Theorem image_comments_empty_refetched :
  let rt :=
    Script.answering
      [(200, Script.post_8_only_xml); (200, Script.no_comments_xml);
       (200, Script.no_comments_xml)] in
  let '(image, w1) := get_post rt Script.client (AInt 8) empty_world in
  let '(first, w2) := image_get_comments rt 0 w1 in
  let '(second, w3) := image_get_comments rt 0 w2 in
  image = Ok 0%nat
  /\ first = Ok []
  /\ second = Ok []
  /\ length (requests w1) = 1%nat
  /\ length (requests w2) = 2%nat
  /\ length (requests w3) = 3%nat
  /\ nth 2 (requests w3) (_endpoint Script.client "")
     = get_comments_url Script.client 8.
Proof. vm_compute. repeat split; reflexivity. Qed.

(** * Further properties of the code *)

(** ** Strings: stripping, splitting and joining *)

Section Strings.

Import PyStr.

Variable p : ascii -> bool.

Lemma lstrip_no_leading s : no_leading p (lstrip p s) = true.
Proof.
  induction s as [|c s IH]; [reflexivity|].
  cbn [lstrip]. destruct (p c) eqn:E; [exact IH|]. cbn. now rewrite E.
Qed.

Lemma lstrip_id s : no_leading p s = true -> lstrip p s = s.
Proof.
  destruct s as [|c s]; [reflexivity|]. cbn.
  now destruct (p c).
Qed.

Lemma lstrip_no_trailing s :
  no_trailing p s = true -> forall q, no_trailing p (lstrip q s) = true.
Proof.
  intros Hs q. induction s as [|c s IH]; [reflexivity|].
  cbn [lstrip]. destruct (q c); [|exact Hs].
  destruct s as [|c' s]; [reflexivity|]. apply IH. exact Hs.
Qed.

Lemma rstrip_no_trailing s : no_trailing p (rstrip p s) = true.
Proof.
  induction s as [|c s IH]; [reflexivity|].
  cbn [rstrip]. destruct (rstrip p s) as [|c' r].
  - destruct (p c) eqn:E; [reflexivity|]. cbn. now rewrite E.
  - exact IH.
Qed.

Lemma rstrip_id s : no_trailing p s = true -> rstrip p s = s.
Proof.
  induction s as [|c s IH]; [reflexivity|].
  intros Hs. cbn [rstrip]. destruct s as [|c' s].
  - cbn in *. now destruct (p c).
  - rewrite IH by exact Hs. reflexivity.
Qed.

Lemma rstrip_no_leading s :
  no_leading p s = true -> no_leading p (rstrip p s) = true.
Proof.
  destruct s as [|c s]; [reflexivity|].
  intros Hc. cbn [rstrip]. destruct (rstrip p s).
  - cbn in Hc. destruct (p c) eqn:E; [discriminate|]. cbn. now rewrite E.
  - exact Hc.
Qed.

End Strings.

Section Normal.

Import PyStr.

Lemma strip_trimmed s :
  no_leading isspace (strip s) = true /\ no_trailing isspace (strip s) = true.
Proof.
  unfold strip. split.
  - apply rstrip_no_leading, lstrip_no_leading.
  - apply rstrip_no_trailing.
Qed.

Lemma strip_id s :
  no_leading isspace s = true -> no_trailing isspace s = true ->
  strip s = s.
Proof.
  intros Hl Ht. unfold strip. now rewrite (lstrip_id _ _ Hl), rstrip_id.
Qed.

(** What [lower] and then [replace(' ', '_')] do to one character. *)
Lemma normal_char_space c :
  isspace c = false ->
  isspace (if Ascii.eqb (lower_char c) " " then "_" else lower_char c)
  = false.
Proof. destruct c as [[] [] [] [] [] [] [] []]; vm_compute; congruence. Qed.

Lemma normal_char_idem c :
  let h c := if Ascii.eqb (lower_char c) " " then "_"%char else lower_char c in
  h (h c) = h c.
Proof. destruct c as [[] [] [] [] [] [] [] []]; reflexivity. Qed.

Lemma normal_char_dash c :
  is_dash (if Ascii.eqb (lower_char c) " " then "_" else lower_char c)
  = is_dash c.
Proof. destruct c as [[] [] [] [] [] [] [] []]; reflexivity. Qed.

Lemma normal_no_leading s :
  no_leading isspace s = true ->
  no_leading isspace (replace " " "_" (lower s)) = true.
Proof.
  destruct s as [|c s]; [reflexivity|]. cbn [no_leading lower replace].
  intros Hc. apply negb_true_iff in Hc. now rewrite normal_char_space.
Qed.

Lemma normal_no_trailing s :
  no_trailing isspace s = true ->
  no_trailing isspace (replace " " "_" (lower s)) = true.
Proof.
  induction s as [|c s IH]; [reflexivity|].
  intros Hs. cbn [lower replace]. destruct s as [|c' s].
  - cbn in *. apply negb_true_iff in Hs. now rewrite normal_char_space.
  - specialize (IH Hs). cbn [lower replace] in *. exact IH.
Qed.

Lemma normal_idem s :
  replace " " "_" (lower (replace " " "_" (lower s)))
  = replace " " "_" (lower s).
Proof.
  induction s as [|c s IH]; [reflexivity|].
  cbn [lower replace]. rewrite IH. f_equal. apply normal_char_idem.
Qed.

Lemma normal_starts_with_dash s :
  starts_with_dash (replace " " "_" (lower s)) = starts_with_dash s.
Proof. destruct s as [|c s]; [reflexivity|]. apply normal_char_dash. Qed.

Lemma format_tag_trimmed t :
  no_leading isspace (format_tag t) = true
  /\ no_trailing isspace (format_tag t) = true.
Proof.
  destruct (strip_trimmed t) as [Hl Ht]. unfold format_tag. split.
  - now apply normal_no_leading.
  - now apply normal_no_trailing.
Qed.

Lemma format_tag_idem t : format_tag (format_tag t) = format_tag t.
Proof.
  destruct (format_tag_trimmed t) as [Hl Ht].
  unfold format_tag at 1. rewrite (strip_id _ Hl Ht).
  unfold format_tag. apply normal_idem.
Qed.

Lemma format_exclude_tag_trimmed t :
  no_leading isspace (format_exclude_tag t) = true
  /\ no_trailing isspace (format_exclude_tag t) = true.
Proof.
  unfold format_exclude_tag.
  set (x := replace _ _ _).
  change ("-" ++ x)%string with (String "-" x).
  split; [reflexivity|].
  assert (Hx : no_trailing isspace x = true).
  { apply normal_no_trailing, lstrip_no_trailing, strip_trimmed. }
  destruct x; [reflexivity | exact Hx].
Qed.

Lemma format_tag_exclude t :
  format_tag (format_exclude_tag t) = format_exclude_tag t.
Proof.
  destruct (format_exclude_tag_trimmed t) as [Hl Ht].
  unfold format_tag. rewrite (strip_id _ Hl Ht).
  unfold format_exclude_tag.
  set (y := lstrip is_dash (strip t)).
  change ("-" ++ replace " " "_" (lower y))%string
    with (String "-" (replace " " "_" (lower y))).
  cbn [lower replace]. rewrite normal_idem. reflexivity.
Qed.

Lemma format_exclude_tag_idem t :
  format_exclude_tag (format_exclude_tag t) = format_exclude_tag t.
Proof.
  destruct (format_exclude_tag_trimmed t) as [Hl Ht].
  unfold format_exclude_tag at 1. rewrite (strip_id _ Hl Ht).
  unfold format_exclude_tag.
  set (y := lstrip is_dash (strip t)).
  change ("-" ++ replace " " "_" (lower y))%string
    with (String "-" (replace " " "_" (lower y))).
  cbn [lstrip]. change (is_dash "-") with true. cbv iota.
  rewrite lstrip_id.
  - now rewrite normal_idem.
  - unfold no_leading. 
    pose proof (normal_starts_with_dash y) as H.
    pose proof (lstrip_dash_start (strip t)) as H'. fold y in H'.
    rewrite H' in H. destruct (replace " " "_" (lower y)); [reflexivity|].
    cbn in H. now rewrite H.
Qed.

End Normal.

Section SplitJoin.

Import PyStr.

Lemma split_space_nonempty s : split_space s <> [].
Proof.
  destruct s as [|c s]; [discriminate|]. cbn [split_space].
  destruct (Ascii.eqb c " "); [discriminate|].
  destruct (split_space s); discriminate.
Qed.

Lemma split_space_no_space s : no_space s = true -> split_space s = [s].
Proof.
  unfold no_space. induction s as [|c s IH]; [reflexivity|].
  cbn [forall_chars split_space]. intros [Hc Hs]%andb_prop.
  apply negb_true_iff in Hc. rewrite Hc, (IH Hs). reflexivity.
Qed.

Lemma split_space_app s rest :
  no_space s = true ->
  split_space (s ++ String " " rest) = s :: split_space rest.
Proof.
  unfold no_space. induction s as [|c s IH].
  - intros _. reflexivity.
  - cbn [forall_chars]. intros [Hc Hs]%andb_prop.
    apply negb_true_iff in Hc.
    change (String c s ++ String " " rest)%string
      with (String c (s ++ String " " rest)).
    cbn [split_space]. rewrite Hc, (IH Hs). reflexivity.
Qed.

(** Joining with spaces strings that hold none, and splitting again. *)
Lemma split_join l :
  Forall (fun s => no_space s = true) l -> l <> [] ->
  split_space (join " " l) = l.
Proof.
  induction l as [|s l IH]; [congruence|].
  intros Hall _. apply Forall_cons in Hall as [Hs Hl].
  destruct l as [|s' l].
  - cbn [join]. now apply split_space_no_space.
  - change (join " " (s :: s' :: l))
      with (s ++ String " " (join " " (s' :: l)))%string.
    rewrite (split_space_app _ _ Hs), IH; [reflexivity | exact Hl | discriminate].
Qed.

(** Splitting at spaces and joining with spaces again. *)
Lemma join_split s : join " " (split_space s) = s.
Proof.
  induction s as [|c s IH]; [reflexivity|].
  cbn [split_space]. destruct (Ascii.eqb c " ") eqn:E.
  - apply Ascii.eqb_eq in E. subst c.
    pose proof (split_space_nonempty s) as Hne.
    destruct (split_space s) as [|w ws]; [congruence|].
    change (join " " (EmptyString :: w :: ws))
      with (String " " (join " " (w :: ws))).
    now rewrite IH.
  - pose proof (split_space_nonempty s) as Hne.
    destruct (split_space s) as [|w ws]; [congruence|].
    destruct ws as [|w' ws]; cbn [join] in *; now rewrite <- IH.
Qed.

Lemma _format_tags_no_space tags exclude_tags :
  Forall (fun s => no_space s = true) (_format_tags tags exclude_tags).
Proof.
  rewrite _format_tags_eq. apply Forall_app. split; apply Forall_forall;
    intros t Ht; apply list_elem_of_In, in_map_iff in Ht;
    destruct Ht as (x & <- & _).
  - apply format_tag_no_space.
  - apply format_exclude_tag_no_space.
Qed.

End SplitJoin.

(** ** What the requests carry *)

Lemma endpoint_no_arg self s key :
  key <> "page" -> key <> "s" -> key <> "q" -> key <> "api_key" ->
  key <> "user_id" ->
  arg key (_endpoint self s) = None.
Proof.
  intros H1 H2 H3 H4 H5. unfold _endpoint. cbv zeta.
  destruct (str_truthy (_user_id self)), (str_truthy (_api_key self));
    rewrite ?arg_set_ne by congruence; reflexivity.
Qed.

Lemma arg_tags_with_tags tags e :
  arg "tags" (with_tags tags e)
  = if nonempty tags then Some (AStr (PyStr.join " " tags))
    else arg "tags" e.
Proof.
  unfold with_tags. destruct (nonempty tags); [apply arg_set_eq | reflexivity].
Qed.

Lemma search_posts_url_tags self tags exclude_tags limit page :
  arg "tags" (search_posts_url self tags exclude_tags limit page)
  = if nonempty (_format_tags tags exclude_tags)
    then Some (AStr (PyStr.join " " (_format_tags tags exclude_tags)))
    else None.
Proof.
  unfold search_posts_url. rewrite arg_tags_with_tags.
  destruct (nonempty _); [reflexivity|].
  rewrite !arg_set_ne by discriminate.
  apply endpoint_no_arg; discriminate.
Qed.

(** X1. The output of [_format_tags] is already formatted: formatting a
    formatted inclusion tag or a formatted exclusion tag again as an inclusion
    tag leaves it as it is, and so does formatting a formatted exclusion tag
    again as an exclusion tag; hence formatting the whole output again
    changes nothing. *)
Theorem format_tags_idempotent (tags exclude_tags : option (list string))
    (t : string) :
  format_tag (format_tag t) = format_tag t
  /\ format_tag (format_exclude_tag t) = format_exclude_tag t
  /\ format_exclude_tag (format_exclude_tag t) = format_exclude_tag t
  /\ _format_tags (Some (_format_tags tags exclude_tags)) None
     = _format_tags tags exclude_tags.
Proof.
  split; [apply format_tag_idem|]. split; [apply format_tag_exclude|].
  split; [apply format_exclude_tag_idem|].
  rewrite (_format_tags_eq (Some _) None). cbn [default map]. unfold id.
  rewrite app_nil_r, _format_tags_eq, map_app, !map_map.
  f_equal; apply map_ext; intros x.
  - apply format_tag_idem.
  - apply format_tag_exclude.
Qed.

(** X2. [random_post] hands the tags it has formatted, exclusions among
    them, to [search_posts] as inclusion tags, together with the exclusion tags
    once more. The request of that search therefore names every exclusion
    tag twice: its [tags] argument is the formatted inclusion tags, then the
    formatted exclusion tags, then the formatted exclusion tags again; and it
    has no [tags] argument when there are no tags at all. *)
Theorem random_post_repeats_exclusions (self : Gelbooru)
    (tags exclude_tags : option (list string)) (offset : Z) :
  let formatted := _format_tags tags exclude_tags in
  let again := _format_tags (Some formatted) exclude_tags in
  again = (formatted ++ map format_exclude_tag (default [] exclude_tags))%list
  /\ arg "tags" (search_posts_url self (Some formatted) exclude_tags 1 offset)
     = if nonempty formatted
       then Some (AStr (PyStr.join " " again))
       else None.
Proof.
  cbv zeta.
  assert (Hagain :
            _format_tags (Some (_format_tags tags exclude_tags)) exclude_tags
            = (_format_tags tags exclude_tags
                 ++ map format_exclude_tag (default [] exclude_tags))%list).
  { rewrite (_format_tags_eq (Some _)). cbn [default]. unfold id. f_equal.
    rewrite _format_tags_eq, map_app, !map_map.
    f_equal; apply map_ext; intros x.
    - apply format_tag_idem.
    - apply format_tag_exclude. }
  split; [exact Hagain|].
  rewrite search_posts_url_tags, Hagain.
  destruct (_format_tags tags exclude_tags) as [|x l] eqn:E; [|reflexivity].
  rewrite _format_tags_eq in E. apply app_eq_nil in E as [_ E].
  now rewrite E.
Qed.

(** X3. The [tags] argument of the request of [search_posts] loses nothing:
    no formatted tag holds a space, so splitting the argument at its spaces
    gives back the formatted tags, in order; and the argument is left out
    exactly when there is no tag. *)
Theorem search_posts_tags_argument (self : Gelbooru)
    (tags exclude_tags : option (list string)) (limit page : Z) :
  match arg "tags" (search_posts_url self tags exclude_tags limit page) with
  | Some (APy (PStr q)) =>
      PyStr.split_space q = _format_tags tags exclude_tags
  | Some _ => False
  | None => _format_tags tags exclude_tags = []
  end.
Proof.
  rewrite search_posts_url_tags.
  destruct (_format_tags tags exclude_tags) as [|x l] eqn:E; [reflexivity|].
  cbn [nonempty AStr]. rewrite <- E. apply split_join.
  - apply _format_tags_no_space.
  - now rewrite E.
Qed.

Lemma endpoint_carries self s : carries_endpoint self s (_endpoint self s).
Proof.
  unfold carries_endpoint, credential, _endpoint. cbv zeta.
  destruct (str_truthy (_user_id self)), (str_truthy (_api_key self));
    repeat split; reflexivity.
Qed.

Lemma set_arg_carries self s key v url :
  key <> "page" -> key <> "s" -> key <> "q" -> key <> "api_key" ->
  key <> "user_id" ->
  carries_endpoint self s url -> carries_endpoint self s (set_arg key v url).
Proof.
  intros H1 H2 H3 H4 H5 (Hb & Hp & Hs & Hq & Ha & Hu).
  unfold carries_endpoint. rewrite !arg_set_ne by congruence.
  repeat split; assumption.
Qed.

Lemma with_tags_carries self s tags url :
  carries_endpoint self s url -> carries_endpoint self s (with_tags tags url).
Proof.
  intros H. unfold with_tags. destruct (nonempty tags); [|exact H].
  apply set_arg_carries; [discriminate..|exact H].
Qed.

(** X4. Every request of the client goes to the base URL with [page=dapi],
    [q=index] and the action of the operation under [s] ([post], [tag] or
    [comment]); it carries [api_key] and [user_id] exactly when the client
    holds a credential that is neither [None] nor the empty string. No
    argument of an operation takes the place of one of these. *)
Theorem requests_carry_endpoint (self : Gelbooru) :
  (forall post_id, carries_endpoint self "post" (get_post_url self post_id))
  /\ (forall tags exclude_tags limit page,
         carries_endpoint self "post"
           (search_posts_url self tags exclude_tags limit page))
  /\ (forall tags exclude_tags,
         carries_endpoint self "post"
           (random_post_url self tags exclude_tags))
  /\ (forall name name_pattern limit sort_by sort_order,
         carries_endpoint self "tag"
           (tag_list_url self name name_pattern limit sort_by sort_order))
  /\ (forall n, carries_endpoint self "comment" (get_comments_url self n))
  /\ carries_endpoint self "post" (is_deleted_url self).
Proof.
  repeat split_and; intros.
  - apply set_arg_carries; [discriminate..|apply endpoint_carries].
  - apply with_tags_carries.
    do 2 (apply set_arg_carries; [discriminate..|]). apply endpoint_carries.
  - apply with_tags_carries.
    apply set_arg_carries; [discriminate..|]. apply endpoint_carries.
  - unfold tag_list_url. cbv zeta.
    do 2 (apply set_arg_carries; [discriminate..|]).
    destruct (name_truthy name).
    + destruct name as [[s|l]|];
        [apply set_arg_carries; [discriminate..|]
        |apply set_arg_carries; [discriminate..|] |];
        (apply set_arg_carries; [discriminate..|]); apply endpoint_carries.
    + destruct (str_truthy name_pattern);
        [apply set_arg_carries; [discriminate..|]|];
        (apply set_arg_carries; [discriminate..|]); apply endpoint_carries.
  - apply set_arg_carries; [discriminate..|apply endpoint_carries].
  - apply set_arg_carries; [discriminate..|apply endpoint_carries].
Qed.

(** ** One request for each operation *)

Section OneRequest.

Variable rt : Runtime.

Lemma bind_request_requests {A} url (k : bytes -> M A) w :
  (forall body, frame requests (k body)) ->
  requests (snd (bind (_request rt url) k w)) = (requests w ++ [url])%list.
Proof.
  intros Hk. unfold bind. rewrite request_run.
  destruct (http_get rt (length (requests w)) url) as [st body].
  destruct (is_success st); [|reflexivity].
  now rewrite Hk.
Qed.

Lemma frame_make_image_requests self p : frame requests (make_image rt self p).
Proof. intros w. apply make_image_requests. Qed.

Lemma frame_make_comment_requests self post p :
  frame requests (make_comment rt self post p).
Proof.
  intros w. unfold make_comment, bind, lift, new_comment.
  destruct (GelbooruComment.init rt p self post); reflexivity.
Qed.

Lemma get_post_requests self post_id w :
  requests (snd (get_post rt self post_id w))
  = (requests w ++ [get_post_url self post_id])%list.
Proof.
  unfold get_post. cbv zeta. apply bind_request_requests. intros body.
  repeat first [apply frame_make_image_requests | frame_step].
Qed.

Lemma tag_list_requests self name name_pattern limit sort_by sort_order w :
  requests
    (snd (tag_list rt self name name_pattern limit sort_by sort_order w))
  = (requests w
       ++ [tag_list_url self name name_pattern limit sort_by sort_order])%list.
Proof.
  unfold tag_list. cbv zeta. apply bind_request_requests. intros body.
  unfold make_tag.
  repeat first [apply frame_for_each; intros ? | frame_step].
Qed.

Lemma get_comments_requests self post n w :
  int_of_post post w = (Ok n, w) ->
  requests (snd (get_comments rt self post w))
  = (requests w ++ [get_comments_url self n])%list.
Proof.
  intros Hint. unfold get_comments. cbv zeta. unfold bind at 1.
  rewrite Hint. apply bind_request_requests. intros body.
  repeat first
    [ apply frame_for_each; intros ?
    | apply frame_make_comment_requests | frame_step ].
Qed.

Lemma is_deleted_requests self image_md5 w :
  requests (snd (is_deleted rt self image_md5 w))
  = (requests w ++ [is_deleted_url self])%list.
Proof.
  unfold is_deleted. cbv zeta. apply bind_request_requests. intros body.
  repeat first [apply frame_for_each; intros ? | frame_step].
Qed.

End OneRequest.

(** X5. Whatever the server answers and however the operation ends (a
    value, a transport error, a parse error, a missing key), [get_post],
    [search_posts], [tag_list], [get_comments] and [is_deleted] each send
    exactly one request, the one of their URL, and leave the requests sent
    before in place. [get_comments] on an image asks for the [id] of that
    image. *)
Theorem one_request_per_operation (rt : Runtime) (self : Gelbooru)
    (w : World) :
  (forall post_id,
      requests (snd (get_post rt self post_id w))
      = (requests w ++ [get_post_url self post_id])%list)
  /\ (forall tags exclude_tags limit page,
         requests (snd (search_posts rt self tags exclude_tags limit page w))
         = (requests w
              ++ [search_posts_url self tags exclude_tags limit page])%list)
  /\ (forall name name_pattern limit sort_by sort_order,
         requests
           (snd (tag_list rt self name name_pattern limit sort_by sort_order
                   w))
         = (requests w
              ++ [tag_list_url self name name_pattern limit sort_by
                    sort_order])%list)
  /\ (forall n,
         requests (snd (get_comments rt self (PostId n) w))
         = (requests w ++ [get_comments_url self n])%list)
  /\ (forall r,
         match image_store w !! r with
         | Some i =>
             requests (snd (get_comments rt self (PostImage r) w))
             = (requests w
                  ++ [get_comments_url self (GelbooruImage.id i)])%list
         | None => True
         end)
  /\ (forall image_md5,
         requests (snd (is_deleted rt self image_md5 w))
         = (requests w ++ [is_deleted_url self])%list).
Proof.
  repeat split_and; intros.
  - apply get_post_requests.
  - apply search_posts_requests.
  - apply tag_list_requests.
  - now apply get_comments_requests.
  - destruct (image_store w !! r) as [i|] eqn:Hi; [|exact I].
    apply get_comments_requests.
    unfold int_of_post, bind, get_image, ret. now rewrite Hi.
  - apply is_deleted_requests.
Qed.

(** ** Records built from a list *)

Section Building.

Variable rt : Runtime.

Lemma for_each_make_image_all self l imgs :
  Forall2 (fun p i => GelbooruImage.init rt p self = Ok i) l imgs ->
  forall w,
    for_each (make_image rt self) l w
    = (Ok (fresh_refs (length (image_store w)) (length imgs)),
       with_images (image_store w ++ imgs) w).
Proof.
  induction 1 as [|p i l imgs Hp _ IH]; intros w.
  - cbn. unfold ret, with_images. rewrite app_nil_r. now destruct w.
  - cbn [for_each]. unfold bind at 1, make_image, bind, lift, new_image.
    rewrite Hp. unfold bind, ret. rewrite IH.
    cbn [image_store with_images]. rewrite length_app. cbn [length].
    rewrite Nat.add_1_r, <- app_assoc. reflexivity.
Qed.

Lemma comment_init_post p self post c :
  GelbooruComment.init rt p self post = Ok c ->
  GelbooruComment._post c = post.
Proof.
  unfold GelbooruComment.init.
  repeat (match goal with
          | |- rbind ?r _ = _ -> _ => destruct r; cbn [rbind]
          end; [|discriminate]).
  now intros [= <-].
Qed.

(** What a successful [for_each (make_comment ...)] leaves in the store. *)
Lemma for_each_make_comment_inv self post l :
  forall w refs w',
    for_each (make_comment rt self post) l w = (Ok refs, w') ->
    exists cs,
      refs = fresh_refs (length (comment_store w)) (length cs)
      /\ comment_store w' = (comment_store w ++ cs)%list
      /\ Forall (fun c => GelbooruComment._post c = post) cs.
Proof.
  induction l as [|p l IH]; intros w refs w' H.
  - cbn in H. injection H as <- <-. exists []. rewrite app_nil_r. now split.
  - cbn [for_each] in H. unfold bind at 1, make_comment, bind, lift in H.
    destruct (GelbooruComment.init rt p self post) as [c|e] eqn:Hc;
      [|discriminate].
    unfold new_comment, bind, ret in H.
    destruct (for_each _ l _) as [[rs|e] w1] eqn:Hl; [|discriminate].
    injection H as <- <-.
    apply IH in Hl as (cs & -> & Hstore & Hall).
    cbn [comment_store with_comments] in *.
    exists (c :: cs). rewrite Hstore, <- app_assoc. split; [|split].
    + rewrite length_app. cbn [length]. now rewrite Nat.add_1_r.
    + reflexivity.
    + constructor; [now apply comment_init_post with p self | exact Hall].
Qed.

Lemma fresh_refs_lookup {A} (store new : list A) c :
  In c (fresh_refs (length store) (length new)) ->
  exists x, (store ++ new)%list !! c = Some x /\ In x new.
Proof.
  unfold fresh_refs. rewrite in_seq. intros [Hlo Hhi].
  destruct (new !! (c - length store)%nat) as [x|] eqn:Hx.
  - exists x. split.
    + rewrite lookup_app_r by lia. exact Hx.
    + apply list_elem_of_In. eapply list_elem_of_lookup_2. exact Hx.
  - apply lookup_ge_None in Hx. lia.
Qed.

(** The comments [get_comments] returns are in the store and refer back to
    the image they were asked for, if any. *)
Lemma get_comments_inv self post w refs w' :
  get_comments rt self post w = (Ok refs, w') ->
  forall c, In c refs ->
    exists cm, comment_store w' !! c = Some cm
               /\ GelbooruComment._post cm = backreference post.
Proof.
  intros Hrun c Hc.
  destruct (int_of_post post w) as [[n|e] w0] eqn:Hint.
  - assert (w0 = w) as ->.
    { unfold int_of_post in Hint. destruct post as [m|r].
      - now injection Hint.
      - unfold bind, get_image, ret in Hint.
        destruct (image_store w !! r); now injection Hint. }
    destruct (http_get rt (length (requests w)) (get_comments_url self n))
      as [st body] eqn:Hget.
    destruct (is_success st) eqn:Hst.
    + rewrite (get_comments_run rt _ _ _ _ _ _ Hint Hget Hst) in Hrun.
      cbv zeta in Hrun.
      destruct (xmltodict_parse rt body) as [payload|]; [|discriminate].
      destruct (payload !! "comments") as [comments|]; [|discriminate].
      destruct (Py.contains "comment" comments) as [[|]|e];
        [| injection Hrun as <- <-; destruct Hc | discriminate].
      destruct (Py.getitem comments "comment") as [comment|e];
        [|discriminate].
      apply for_each_make_comment_inv in Hrun as (cs & -> & Hstore & Hall).
      rewrite Hstore.
      destruct (fresh_refs_lookup _ _ _ Hc) as (cm & Hcm & Hin).
      exists cm. split; [exact Hcm|].
      rewrite Forall_forall in Hall. apply Hall, list_elem_of_In, Hin.
    + rewrite (get_comments_refused rt _ _ _ _ _ _ Hint Hget Hst) in Hrun.
      discriminate.
  - unfold get_comments in Hrun. cbv zeta in Hrun. unfold bind at 1 in Hrun.
    rewrite Hint in Hrun. discriminate.
Qed.

End Building.

(** X6. When the ['post'] entry of the response of [search_posts] is a
    list and an image is built from each element, the images are added to
    the store in the order of the list, after the objects already there, and
    the result is the list of their references in that order. With
    [limit == 1] the result is the first of them alone, all of them being
    built all the same, and [IndexError] when the list is empty. *)
Theorem search_posts_list_in_order (rt : Runtime) (self : Gelbooru)
    (tags exclude_tags : option (list string)) (limit page : Z) (w : World)
    (st : Z) (body : bytes) (payload outer : gmap string pyval)
    (l : list pyval) (imgs : list GelbooruImage.t) :
  let url := search_posts_url self tags exclude_tags limit page in
  let n := length (image_store w) in
  http_get rt (length (requests w)) url = (st, body) ->
  is_success st = true ->
  xmltodict_parse rt body = Some payload ->
  payload !! "posts" = Some (PDict outer) ->
  outer !! "post" = Some (PList l) ->
  Forall2 (fun p i => GelbooruImage.init rt p self = Ok i) l imgs ->
  search_posts rt self tags exclude_tags limit page w
  = (if limit =? 1
     then match imgs with
          | [] => Raise IndexError
          | _ :: _ => Ok (Post n)
          end
     else Ok (Posts (fresh_refs n (length imgs))),
     with_images (image_store w ++ imgs) (received url body w)).
Proof.
  intros url n Hget Hst Hparse Houter Hinner Hall.
  rewrite (search_posts_run _ _ _ _ _ _ _ _ _ Hget Hst). cbv zeta.
  rewrite Hparse, Houter. cbn [Py.contains Py.getitem].
  unfold Py.dict_getitem. rewrite Hinner.
  rewrite bool_decide_eq_true_2 by eauto. cbn [normalized].
  rewrite (for_each_make_image_all rt self l imgs Hall).
  destruct (limit =? 1); [|reflexivity]. destruct imgs; reflexivity.
Qed.

Lemma search_posts_list_in_order_witness :
  let rt := Script.answering [(200, Script.two_posts_xml)] in
  fst (search_posts rt Script.client None None 100 0 empty_world)
  = Ok (Posts [0%nat; 1%nat])
  /\ map Script.image_summary
       (image_store
          (snd (search_posts rt Script.client None None 1 0 empty_world)))
     = [(7, PStr "7.png", ["blue_sky"; "solo"], []);
        (7, PStr "7.png", ["blue_sky"; "solo"], [])].
Proof.
  cbv zeta.
  pose (imgs :=
          match GelbooruImage.init
                  (Script.answering [(200, Script.two_posts_xml)])
                  Script.post_7 Script.client with
          | Ok i => [i; i]
          | Raise _ => []
          end).
  assert (Hall : Forall2
                   (fun p i =>
                      GelbooruImage.init
                        (Script.answering [(200, Script.two_posts_xml)])
                        p Script.client = Ok i)
                   [Script.post_7; Script.post_7] imgs)
    by (repeat constructor).
  split.
  - rewrite (search_posts_list_in_order
               (Script.answering [(200, Script.two_posts_xml)])
               Script.client None None 100 0 empty_world 200
               Script.two_posts_xml Script.two_posts Script.two_posts_outer
               [Script.post_7; Script.post_7] imgs
               eq_refl eq_refl eq_refl eq_refl eq_refl Hall).
    reflexivity.
  - rewrite (search_posts_list_in_order
               (Script.answering [(200, Script.two_posts_xml)])
               Script.client None None 1 0 empty_world 200
               Script.two_posts_xml Script.two_posts Script.two_posts_outer
               [Script.post_7; Script.post_7] imgs
               eq_refl eq_refl eq_refl eq_refl eq_refl Hall).
    reflexivity.
Defined.

(** ** The lazy references, case by case *)

(** X7. Every comment that [get_comments] returns for an image refers back
    to that image: asking such a comment for its post gives the image and
    leaves the world as it is, so no request is sent. *)
Theorem comments_of_image_know_their_post (rt : Runtime) (self : Gelbooru)
    (r : image_ref) (w : World) (refs : list comment_ref) (w' : World) :
  get_comments rt self (PostImage r) w = (Ok refs, w') ->
  forall c, In c refs -> comment_get_post rt c w' = (Ok r, w').
Proof.
  intros Hrun c Hc.
  destruct (get_comments_inv rt self (PostImage r) w refs w' Hrun c Hc)
    as (cm & Hcm & Hpost).
  rewrite (comment_get_post_run rt c w' cm Hcm), Hpost. reflexivity.
Qed.

Lemma comments_of_image_know_their_post_witness :
  let rt :=
    Script.answering [(200, Script.one_post_xml);
                      (200, Script.one_comment_xml)] in
  let w1 := snd (get_post rt Script.client (AInt 7) empty_world) in
  let run := get_comments rt Script.client (PostImage 0) w1 in
  fst run = Ok [0%nat]
  /\ outcome (comment_get_post rt 0 (snd run)) = (Ok 0%nat, 2%nat,
       [Script.one_post_xml; Script.one_comment_xml]).
Proof.
  cbv zeta.
  set (rt := Script.answering [(200, Script.one_post_xml);
                               (200, Script.one_comment_xml)]).
  set (w1 := snd (get_post rt Script.client (AInt 7) empty_world)).
  set (run := get_comments rt Script.client (PostImage 0) w1).
  assert (Hrun : run = (Ok [0%nat], snd run)) by (vm_compute; reflexivity).
  split; [now rewrite Hrun|].
  rewrite (comments_of_image_know_their_post rt Script.client 0 w1
             [0%nat] (snd run) Hrun 0%nat (or_introl eq_refl)).
  reflexivity.
Defined.

(** X8. A comment whose post is known returns it and leaves the world as
    it is. A comment whose post is not known sends exactly one request, the
    one of [get_post] for its [post_id]; if that gives an image, the comment
    keeps it and every later call returns it without a request. *)
Theorem comment_post_fetched_once (rt : Runtime) (c : comment_ref)
    (w : World) (cm : GelbooruComment.t) :
  comment_store w !! c = Some cm ->
  match GelbooruComment._post cm with
  | Some p => comment_get_post rt c w = (Ok p, w)
  | None =>
      requests (snd (comment_get_post rt c w))
      = (requests w
           ++ [get_post_url (GelbooruComment._gelbooru cm)
                 (APy (GelbooruComment.post_id cm))])%list
      /\ (forall p w1,
             comment_get_post rt c w = (Ok p, w1) ->
             comment_get_post rt c w1 = (Ok p, w1))
  end.
Proof.
  intros Hcm. rewrite (comment_get_post_run rt c w cm Hcm).
  destruct (GelbooruComment._post cm) as [p|] eqn:Hpost; [reflexivity|].
  split.
  - pose proof (get_post_requests rt (GelbooruComment._gelbooru cm)
                  (APy (GelbooruComment.post_id cm)) w) as Hreq.
    destruct (get_post _ _ _ _) as [[p|e] w1]; exact Hreq.
  - intros p w1 Hrun. apply comment_post_cached with w.
    now rewrite (comment_get_post_run rt c w cm Hcm), Hpost.
Qed.

Lemma comment_post_fetched_once_witness :
  let rt :=
    Script.answering [(200, Script.one_comment_xml);
                      (200, Script.one_post_xml)] in
  let w1 := snd (get_comments rt Script.client (PostId 7) empty_world) in
  let first := comment_get_post rt 0 w1 in
  outcome first
  = (Ok 0%nat, 2%nat, [Script.one_comment_xml; Script.one_post_xml])
  /\ nth 1 (requests (snd first)) (_endpoint Script.client "")
     = get_post_url Script.client (APy (PStr "7"))
  /\ comment_get_post rt 0 (snd first) = (Ok 0%nat, snd first).
Proof.
  cbv zeta.
  set (rt := Script.answering [(200, Script.one_comment_xml);
                               (200, Script.one_post_xml)]).
  set (w1 := snd (get_comments rt Script.client (PostId 7) empty_world)).
  destruct (comment_store w1 !! 0%nat) as [cm|] eqn:Hcm;
    [|vm_compute in Hcm; discriminate].
  pose proof (comment_post_fetched_once rt 0 w1 cm Hcm) as H.
  pose proof Hcm as Hcm'. vm_compute in Hcm'. injection Hcm' as <-.
  cbn [GelbooruComment._post] in H. destruct H as [_ Hcached].
  split; [reflexivity|]. split; [reflexivity|].
  apply Hcached. now destruct (comment_get_post rt 0 w1) as [[p|e] w2] eqn:E;
    vm_compute in E; inversion E.
Defined.

(** X9. What [GelbooruImage.get_comments] does with an image of the store.
    When its [has_comments] field is [None] or empty it returns the empty
    list and sends nothing. When the field is set and comments are cached it
    returns them and sends nothing. When the field is set and nothing is
    cached it sends exactly one request, [get_comments] for the [id] of the
    image. And a list that is not empty, once returned, is returned by the
    next call with the world unchanged. *)
Theorem image_comments_lazy (rt : Runtime) (r : image_ref) (w : World)
    (i : GelbooruImage.t) :
  image_store w !! r = Some i ->
  (Py.truthy (GelbooruImage.has_comments i) = false ->
   image_get_comments rt r w = (Ok [], w))
  /\ (Py.truthy (GelbooruImage.has_comments i) = true ->
      GelbooruImage._comments i <> [] ->
      image_get_comments rt r w = (Ok (GelbooruImage._comments i), w))
  /\ (Py.truthy (GelbooruImage.has_comments i) = true ->
      GelbooruImage._comments i = [] ->
      requests (snd (image_get_comments rt r w))
      = (requests w
           ++ [get_comments_url (GelbooruImage._gelbooru i)
                 (GelbooruImage.id i)])%list)
  /\ (forall cs w1,
         image_get_comments rt r w = (Ok cs, w1) ->
         cs <> [] ->
         image_get_comments rt r w1 = (Ok cs, w1)).
Proof.
  intros Hi. rewrite (image_get_comments_run rt r w i Hi).
  split; [|split; [|split]].
  - now intros ->.
  - intros -> Hne. cbn [negb].
    destruct (GelbooruImage._comments i); [congruence | reflexivity].
  - intros -> ->. cbn [negb nonempty].
    assert (Hint : int_of_post (PostImage r) w = (Ok (GelbooruImage.id i), w)).
    { unfold int_of_post, bind, get_image, ret. now rewrite Hi. }
    pose proof (get_comments_requests rt (GelbooruImage._gelbooru i)
                  (PostImage r) _ w Hint) as Hreq.
    destruct (get_comments _ _ _ _) as [[cs|e] w1]; exact Hreq.
  - intros cs w1 Hrun Hne. apply image_comments_cached with w; [|exact Hne].
    now rewrite (image_get_comments_run rt r w i Hi).
Qed.

Lemma image_comments_lazy_witness :
  let rt :=
    Script.answering [(200, Script.one_post_xml);
                      (200, Script.one_comment_xml)] in
  let w1 := snd (get_post rt Script.client (AInt 7) empty_world) in
  let first := image_get_comments rt 0 w1 in
  outcome first
  = (Ok [0%nat], 2%nat, [Script.one_post_xml; Script.one_comment_xml])
  /\ nth 1 (requests (snd first)) (_endpoint Script.client "")
     = get_comments_url Script.client 7
  /\ image_get_comments rt 0 (snd first) = (Ok [0%nat], snd first).
Proof.
  cbv zeta.
  set (rt := Script.answering [(200, Script.one_post_xml);
                               (200, Script.one_comment_xml)]).
  set (w1 := snd (get_post rt Script.client (AInt 7) empty_world)).
  destruct (image_store w1 !! 0%nat) as [i|] eqn:Hi;
    [|vm_compute in Hi; discriminate].
  destruct (image_comments_lazy rt 0 w1 i Hi) as (_ & _ & Hreq & Hcached).
  pose proof Hi as Hi'. vm_compute in Hi'. injection Hi' as <-.
  specialize (Hreq eq_refl eq_refl). cbn [GelbooruImage._gelbooru
    GelbooruImage.id] in Hreq.
  assert (Hrun : image_get_comments rt 0 w1
                 = (Ok [0%nat], snd (image_get_comments rt 0 w1)))
    by (vm_compute; reflexivity).
  split; [reflexivity|]. split.
  - rewrite Hreq. reflexivity.
  - apply Hcached; [exact Hrun | discriminate].
Defined.

(** ** Deleted posts *)

Section Deleted.

Variable rt : Runtime.

Lemma for_each_lift_all {A B} (g : A -> result B) l hs w :
  Forall2 (fun p h => g p = Ok h) l hs ->
  for_each (fun p => lift (g p)) l w = (Ok hs, w).
Proof.
  induction 1 as [|p h l hs Hp _ IH]; [reflexivity|].
  cbn [for_each]. unfold bind, lift, ret in *. now rewrite Hp, IH.
Qed.

Lemma existsb_eq_str s hashes :
  existsb (Py.eq_str s) (map PStr hashes) = existsb (String.eqb s) hashes.
Proof.
  induction hashes as [|h hs IH]; [reflexivity|]. cbn. now rewrite IH.
Qed.

(** [is_deleted], from the answer on. *)
Lemma is_deleted_run self image_md5 w st body :
  http_get rt (length (requests w)) (is_deleted_url self) = (st, body) ->
  is_success st = true ->
  is_deleted rt self image_md5 w =
  let w' := received (is_deleted_url self) body w in
  match xmltodict_parse rt body with
  | None => (Raise (xmltodict_error rt body), w')
  | Some payload =>
      match payload !! "posts" with
      | None => (Raise (KeyError "posts"), w')
      | Some posts =>
          match Py.getitem posts "post" with
          | Raise e => (Raise e, w')
          | Ok post =>
              match Py.iter post with
              | Raise e => (Raise e, w')
              | Ok ps =>
                  match for_each (fun p => lift (Py.getitem p "@md5")) ps w'
                  with
                  | (Ok deleted_md5s, w'') =>
                      (Ok (existsb (Py.eq_str image_md5) deleted_md5s), w'')
                  | (Raise e, w'') => (Raise e, w'')
                  end
              end
          end
      end
  end.
Proof.
  intros Hget Hst. unfold is_deleted. cbv zeta.
  rewrite (bind_request _ _ _ _ _ _ Hget), Hst, bind_parse.
  destruct (xmltodict_parse rt body) as [payload|]; [|reflexivity].
  rewrite bind_lift. unfold Py.dict_getitem, received.
  destruct (payload !! "posts") as [posts|]; [|reflexivity].
  rewrite bind_lift.
  destruct (Py.getitem posts "post") as [post|e]; [|reflexivity].
  rewrite bind_lift. destruct (Py.iter post) as [ps|e]; [|reflexivity].
  unfold bind, ret. destruct (for_each _ _ _) as [[hs|e] w'']; reflexivity.
Qed.

End Deleted.

(** X10. When the listing of deleted posts holds a list of posts, each a
    mapping with its hash under ['@md5'], [is_deleted] returns whether the
    hash asked for is one of them. *)
Theorem is_deleted_membership (rt : Runtime) (self : Gelbooru)
    (image_md5 : string) (w : World) (st : Z) (body : bytes)
    (payload outer : gmap string pyval) (l : list pyval)
    (hashes : list string) :
  let url := is_deleted_url self in
  http_get rt (length (requests w)) url = (st, body) ->
  is_success st = true ->
  xmltodict_parse rt body = Some payload ->
  payload !! "posts" = Some (PDict outer) ->
  outer !! "post" = Some (PList l) ->
  Forall2 (fun p h => exists d, p = PDict d /\ d !! "@md5" = Some (PStr h))
    l hashes ->
  is_deleted rt self image_md5 w
  = (Ok (existsb (String.eqb image_md5) hashes), received url body w)
  /\ (existsb (String.eqb image_md5) hashes = true <-> In image_md5 hashes).
Proof.
  intros url Hget Hst Hparse Houter Hinner Hall. split.
  - rewrite (is_deleted_run rt self image_md5 w st body Hget Hst). cbv zeta.
    rewrite Hparse, Houter. cbn [Py.getitem]. unfold Py.dict_getitem.
    rewrite Hinner. cbn [Py.iter].
    rewrite (for_each_lift_all _ l (map PStr hashes)).
    + now rewrite existsb_eq_str.
    + clear -Hall. induction Hall as [|p h l hs (d & -> & Hd) _ IH];
        constructor; [|exact IH].
      cbn. unfold Py.dict_getitem. now rewrite Hd.
  - rewrite existsb_exists. split.
    + intros (h & Hin & Heq). apply String.eqb_eq in Heq. now subst.
    + intros Hin. exists image_md5. split; [exact Hin|apply String.eqb_refl].
Qed.

Lemma is_deleted_membership_witness :
  let rt := Cases.answering [(200, Cases.two_deleted_xml)] in
  fst (is_deleted rt Script.client "2c3d" empty_world) = Ok true
  /\ fst (is_deleted rt Script.client "ffff" empty_world) = Ok false.
Proof.
  cbv zeta.
  assert (Hall : Forall2
                   (fun p h =>
                      exists d, p = PDict d /\ d !! "@md5" = Some (PStr h))
                   [Cases.deleted_a; Cases.deleted_b] ["0a1b"; "2c3d"]).
  { repeat constructor; eexists; split; reflexivity. }
  split.
  - destruct (is_deleted_membership
                (Cases.answering [(200, Cases.two_deleted_xml)])
                Script.client "2c3d" empty_world 200 Cases.two_deleted_xml
                Cases.two_deleted Cases.two_deleted_outer
                [Cases.deleted_a; Cases.deleted_b] ["0a1b"; "2c3d"]
                eq_refl eq_refl eq_refl eq_refl eq_refl Hall) as [H _].
    now rewrite H.
  - destruct (is_deleted_membership
                (Cases.answering [(200, Cases.two_deleted_xml)])
                Script.client "ffff" empty_world 200 Cases.two_deleted_xml
                Cases.two_deleted Cases.two_deleted_outer
                [Cases.deleted_a; Cases.deleted_b] ["0a1b"; "2c3d"]
                eq_refl eq_refl eq_refl eq_refl eq_refl Hall) as [H _].
    now rewrite H.
Defined.

(** X11. [is_deleted] has no test for missing results and no
    single-or-list test. When the parsed response has no ['posts'] key it
    raises [KeyError('posts')]; when the ['posts'] mapping has no ['post']
    entry, as in a listing without deleted posts, it raises
    [KeyError('post')]; and when the entry is a single mapping, as in a
    listing of one deleted post, it iterates the keys of that mapping and
    raises [TypeError]. *)
Theorem is_deleted_errors (rt : Runtime) (self : Gelbooru)
    (image_md5 : string) (w : World) (st : Z) (body : bytes)
    (payload : gmap string pyval) :
  let url := is_deleted_url self in
  http_get rt (length (requests w)) url = (st, body) ->
  is_success st = true ->
  xmltodict_parse rt body = Some payload ->
  (payload !! "posts" = None ->
   is_deleted rt self image_md5 w
   = (Raise (KeyError "posts"), received url body w))
  /\ (forall outer,
         payload !! "posts" = Some (PDict outer) ->
         outer !! "post" = None ->
         is_deleted rt self image_md5 w
         = (Raise (KeyError "post"), received url body w))
  /\ (forall outer d,
         payload !! "posts" = Some (PDict outer) ->
         outer !! "post" = Some (PDict d) ->
         d <> empty ->
         is_deleted rt self image_md5 w
         = (Raise TypeError, received url body w)).
Proof.
  intros url Hget Hst Hparse.
  rewrite (is_deleted_run rt self image_md5 w st body Hget Hst). cbv zeta.
  rewrite Hparse. split; [|split].
  - now intros ->.
  - intros outer -> Hno. cbn [Py.getitem]. unfold Py.dict_getitem.
    now rewrite Hno.
  - intros outer d -> Hd Hne. cbn [Py.getitem]. unfold Py.dict_getitem.
    rewrite Hd. cbn [Py.iter].
    destruct (map_to_list d) as [|[k v] kvs] eqn:E.
    + apply map_to_list_empty_iff in E. contradiction.
    + reflexivity.
Qed.

Lemma is_deleted_errors_witness :
  fst (is_deleted (Cases.answering [(200, Script.error_xml)]) Script.client
         "0a1b" empty_world) = Raise (KeyError "posts")
  /\ fst (is_deleted (Cases.answering [(200, Cases.none_deleted_xml)])
            Script.client "0a1b" empty_world) = Raise (KeyError "post")
  /\ fst (is_deleted (Cases.answering [(200, Cases.one_deleted_xml)])
            Script.client "0a1b" empty_world) = Raise TypeError.
Proof.
  split; [|split].
  - destruct (is_deleted_errors
                (Cases.answering [(200, Script.error_xml)]) Script.client
                "0a1b" empty_world 200 Script.error_xml Script.error
                eq_refl eq_refl eq_refl) as (H & _).
    now rewrite (H eq_refl).
  - destruct (is_deleted_errors
                (Cases.answering [(200, Cases.none_deleted_xml)])
                Script.client "0a1b" empty_world 200 Cases.none_deleted_xml
                Cases.none_deleted eq_refl eq_refl eq_refl) as (_ & H & _).
    now rewrite (H Cases.none_deleted_outer eq_refl eq_refl).
  - destruct (is_deleted_errors
                (Cases.answering [(200, Cases.one_deleted_xml)])
                Script.client "0a1b" empty_world 200 Cases.one_deleted_xml
                Cases.one_deleted eq_refl eq_refl eq_refl) as (_ & _ & H).
    rewrite (H Cases.one_deleted_outer
               (Script.dict [("@deleted", PStr "true"); ("@md5", PStr "0a1b")])
               eq_refl eq_refl); [reflexivity|].
    intros E. apply (f_equal (fun m => m !! "@md5")) in E. discriminate E.
Defined.

(** ** The edges of [random_post] *)

(** X12. [random_post] reads the count without any test for a missing
    key. When the answer to its probe parses to a mapping without ['posts']
    it raises [KeyError('posts')]; when ['posts'] maps to a mapping without
    ['@count'] it raises [KeyError('@count')]; and when the count is negative
    it is taken for a number of posts, [randint] is asked for a number
    between 0 and that count and raises [ValueError]. In each case the probe
    is the only request. *)
Theorem random_post_probe_errors (rt : Runtime) (self : Gelbooru)
    (tags exclude_tags : option (list string)) (w : World) (st : Z)
    (body : bytes) (payload : gmap string pyval) :
  let probe := random_post_url self tags exclude_tags in
  let w1 := received probe body w in
  http_get rt (length (requests w)) probe = (st, body) ->
  is_success st = true ->
  xmltodict_parse rt body = Some payload ->
  requests w1 = (requests w ++ [probe])%list
  /\ (payload !! "posts" = None ->
      random_post rt self tags exclude_tags w
      = (Raise (KeyError "posts"), w1))
  /\ (forall outer,
         payload !! "posts" = Some (PDict outer) ->
         outer !! "@count" = None ->
         random_post rt self tags exclude_tags w
         = (Raise (KeyError "@count"), w1))
  /\ (forall count,
         probe_count rt payload = Ok count ->
         count < 0 ->
         random_post rt self tags exclude_tags w = (Raise ValueError, w1)).
Proof.
  intros probe w1 Hget Hst Hparse. split; [reflexivity|].
  rewrite (random_post_run rt self tags exclude_tags w st body Hget Hst).
  cbv zeta. rewrite Hparse. fold probe w1. split; [|split].
  - intros Hno. unfold probe_count, Py.dict_getitem. now rewrite Hno.
  - intros outer Houter Hno. unfold probe_count, Py.dict_getitem.
    rewrite Houter. cbn [rbind Py.getitem]. unfold Py.dict_getitem.
    now rewrite Hno.
  - intros count -> Hneg.
    destruct (count =? 0) eqn:E; [apply Z.eqb_eq in E; lia|].
    unfold randint.
    destruct (Z.min count 20000 <? 0) eqn:E'; [reflexivity|].
    apply Z.ltb_ge in E'. lia.
Qed.

Lemma random_post_probe_errors_witness :
  outcome (random_post (Cases.answering [(200, Script.error_xml)])
             Script.client None None empty_world)
  = (Raise (KeyError "posts"), 1%nat, [Script.error_xml])
  /\ outcome (random_post (Cases.answering [(200, Cases.none_deleted_xml)])
                Script.client None None empty_world)
     = (Raise (KeyError "@count"), 1%nat, [Cases.none_deleted_xml])
  /\ outcome (random_post (Cases.answering [(200, Cases.negative_count_xml)])
                Script.client None None empty_world)
     = (Raise ValueError, 1%nat, [Cases.negative_count_xml]).
Proof.
  unfold outcome. split; [|split].
  - destruct (random_post_probe_errors
                (Cases.answering [(200, Script.error_xml)]) Script.client
                None None empty_world 200 Script.error_xml Script.error
                eq_refl eq_refl eq_refl) as (_ & H & _).
    now rewrite (H eq_refl).
  - destruct (random_post_probe_errors
                (Cases.answering [(200, Cases.none_deleted_xml)])
                Script.client None None empty_world 200
                Cases.none_deleted_xml Cases.none_deleted
                eq_refl eq_refl eq_refl) as (_ & _ & H & _).
    now rewrite (H Cases.none_deleted_outer eq_refl eq_refl).
  - destruct (random_post_probe_errors
                (Cases.answering [(200, Cases.negative_count_xml)])
                Script.client None None empty_world 200
                Cases.negative_count_xml Cases.negative_count
                eq_refl eq_refl eq_refl) as (_ & _ & _ & H).
    now rewrite (H (-1) eq_refl eq_refl).
Defined.

(** X13. [random_post] returns what its search returns. When the probe
    (status 200 or 201) counts posts but the answer to the search at the
    drawn offset (status 200 or 201) has no ['posts'] key, or a ['posts']
    mapping without a ['post'] key, or a ['posts'] text in which ['post'] does
    not occur, or a ['posts'] list of which ['post'] is no element, the result
    of [random_post] is the empty list: not an image and not [None]. When the
    answer has an empty [posts] element, which parses to [None],
    [random_post] raises the [TypeError] of the search. *)
Theorem random_post_empty_page (rt : Runtime) (self : Gelbooru)
    (tags exclude_tags : option (list string)) (w : World) (st1 : Z)
    (body1 : bytes) (payload1 : gmap string pyval) (count offset : Z)
    (w2 : World) (st2 : Z) (body2 : bytes) (payload2 : gmap string pyval) :
  let probe := random_post_url self tags exclude_tags in
  let fetch :=
    search_posts_url self (Some (_format_tags tags exclude_tags))
      exclude_tags 1 offset in
  http_get rt (length (requests w)) probe = (st1, body1) ->
  st1 = 200 \/ st1 = 201 ->
  xmltodict_parse rt body1 = Some payload1 ->
  probe_count rt payload1 = Ok count ->
  count <> 0 ->
  randint rt 0 (Z.min count 20000) (received probe body1 w) = (Ok offset, w2) ->
  http_get rt (length (requests w2)) fetch = (st2, body2) ->
  st2 = 200 \/ st2 = 201 ->
  xmltodict_parse rt body2 = Some payload2 ->
  (payload2 !! "posts" = None
   \/ (exists outer,
          payload2 !! "posts" = Some (PDict outer) /\ outer !! "post" = None)
   \/ (exists s,
          payload2 !! "posts" = Some (PStr s)
          /\ PyStr.substring_of "post" s = false)
   \/ (exists l,
          payload2 !! "posts" = Some (PList l)
          /\ Forall (fun v => v <> PStr "post") l) ->
   random_post rt self tags exclude_tags w
   = (Ok (Some (Posts [])), received fetch body2 w2))
  /\ (payload2 !! "posts" = Some PNone ->
      random_post rt self tags exclude_tags w
      = (Raise TypeError, received fetch body2 w2)).
Proof.
  intros probe fetch Hget1 Hst1 Hparse1 Hcount Hnz Hrand Hget2 Hst2 Hparse2.
  apply is_success_statuses in Hst1, Hst2.
  rewrite (random_post_run rt self tags exclude_tags w st1 body1 Hget1 Hst1).
  cbv zeta. rewrite Hparse1, Hcount. apply Z.eqb_neq in Hnz. rewrite Hnz.
  fold probe. rewrite Hrand. split.
  - intros Hno.
    now rewrite (search_posts_no_results rt _ _ _ _ _ _ _ _ payload2
                   Hget2 Hst2 Hparse2 Hno).
  - intros Hnone.
    now rewrite (search_posts_posts_none rt _ _ _ _ _ _ _ _ payload2
                   Hget2 Hst2 Hparse2 Hnone).
Qed.

Lemma random_post_empty_page_witness :
  outcome (random_post
             (Script.answering
                [(200, Script.one_post_xml); (200, Script.no_posts_xml)])
             Script.client None None empty_world)
  = (Ok (Some (Posts [])), 2%nat,
     [Script.one_post_xml; Script.no_posts_xml])
  /\ outcome (random_post
                (Cases.answering
                   [(200, Script.one_post_xml); (200, Cases.empty_posts_xml)])
                Script.client None None empty_world)
     = (Raise TypeError, 2%nat,
        [Script.one_post_xml; Cases.empty_posts_xml]).
Proof.
  split.
  - destruct (random_post_empty_page
                (Script.answering
                   [(200, Script.one_post_xml); (200, Script.no_posts_xml)])
                Script.client None None empty_world 200 Script.one_post_xml
                Script.one_post 1 0
                (with_draws 1
                   (received (random_post_url Script.client None None)
                      Script.one_post_xml empty_world))
                200 Script.no_posts_xml Script.no_posts
                eq_refl (or_introl eq_refl) eq_refl eq_refl) as [H _];
      [discriminate | reflexivity | reflexivity | now left | reflexivity |].
    rewrite H; [reflexivity|].
    right. left. exists Script.no_posts_outer. split; reflexivity.
  - destruct (random_post_empty_page
                (Cases.answering
                   [(200, Script.one_post_xml); (200, Cases.empty_posts_xml)])
                Script.client None None empty_world 200 Script.one_post_xml
                Script.one_post 1 0
                (with_draws 1
                   (received (random_post_url Script.client None None)
                      Script.one_post_xml empty_world))
                200 Cases.empty_posts_xml Cases.empty_posts
                eq_refl (or_introl eq_refl) eq_refl eq_refl) as [_ H];
      [discriminate | reflexivity | reflexivity | now left | reflexivity |].
    rewrite H; reflexivity.
Defined.

(** ** The record constructors *)

(** X14. The fields of an image that was built from a mapping: [id],
    [height] and [width] are [int] of the entries of those names, so the three
    entries are there and are integer text; [filename] is the base name the
    library gives for [file_url]; an empty or missing [source] is kept as
    [None]; the tags, joined with spaces again, are the text of the ['tags']
    entry; [has_comments] is the entry as it came; and no comment is cached
    yet. *)
Theorem image_fields_from_payload (rt : Runtime) (self : Gelbooru)
    (d : gmap string pyval) (i : GelbooruImage.t) :
  GelbooruImage.init rt (PDict d) self = Ok i ->
  let field key := default PNone (d !! key) in
  py_int rt (field "id") = Ok (GelbooruImage.id i)
  /\ py_int rt (field "height") = Ok (GelbooruImage.height i)
  /\ py_int rt (field "width") = Ok (GelbooruImage.width i)
  /\ GelbooruImage.file_url i = field "file_url"
  /\ of_library (url_basename rt (field "file_url"))
     = Ok (GelbooruImage.filename i)
  /\ GelbooruImage.source i
     = (if Py.truthy (field "source") then field "source" else PNone)
  /\ PyStr.join " " (GelbooruImage.tags i) = py_str rt (field "tags")
  /\ GelbooruImage.has_comments i = field "has_comments"
  /\ GelbooruImage._comments i = []
  /\ GelbooruImage._gelbooru i = self.
Proof.
  unfold GelbooruImage.init. cbn [Py.get rbind]. cbv zeta.
  destruct (py_int rt (default PNone (d !! "id"))) as [n|e];
    [|discriminate].
  cbn [rbind].
  destruct (of_library (url_basename rt (default PNone (d !! "file_url"))))
    as [fn|e]; [|discriminate].
  cbn [rbind].
  destruct (py_int rt (default PNone (d !! "height"))) as [h|e];
    [|discriminate].
  cbn [rbind].
  destruct (py_int rt (default PNone (d !! "width"))) as [wd|e];
    [|discriminate].
  cbn [rbind]. intros [= <-].
  cbn [GelbooruImage.id GelbooruImage.height GelbooruImage.width
       GelbooruImage.file_url GelbooruImage.filename GelbooruImage.source
       GelbooruImage.tags GelbooruImage.has_comments GelbooruImage._comments
       GelbooruImage._gelbooru].
  repeat split. apply join_split.
Qed.

Lemma image_fields_from_payload_witness :
  match GelbooruImage.init (Script.answering []) Script.post_7 Script.client
  with
  | Ok i =>
      GelbooruImage.id i = 7 /\ GelbooruImage.height i = 600
      /\ GelbooruImage.width i = 800
      /\ GelbooruImage.source i = PNone
      /\ PyStr.join " " (GelbooruImage.tags i) = "blue_sky solo"
  | Raise _ => False
  end.
Proof.
  destruct (GelbooruImage.init (Script.answering []) Script.post_7
              Script.client) as [i|e] eqn:Hi;
    [|vm_compute in Hi; discriminate].
  destruct (image_fields_from_payload (Script.answering []) Script.client
              _ i Hi) as (H1 & H2 & H3 & _ & _ & H6 & H7 & _).
  cbv zeta in *.
  repeat split.
  - change (Ok 7 = Ok (GelbooruImage.id i)) in H1. congruence.
  - change (Ok 600 = Ok (GelbooruImage.height i)) in H2. congruence.
  - change (Ok 800 = Ok (GelbooruImage.width i)) in H3. congruence.
  - rewrite H6. reflexivity.
  - rewrite H7. reflexivity.
Defined.

(** X15. The three record constructors start with [int(payload.get('id'))].
    A payload that is not a mapping ([None], text, a list) makes each of them
    raise [AttributeError]; a mapping whose ['id'] does not convert makes each
    of them raise the error of [int]: [TypeError] when the entry is missing,
    [ValueError] when it is text that is not an integer. *)
Theorem constructors_need_id (rt : Runtime) (self : Gelbooru)
    (post : option image_ref) (payload : pyval) :
  ((forall d, payload <> PDict d) ->
   GelbooruImage.init rt payload self = Raise AttributeError
   /\ GelbooruTag.init rt payload self = Raise AttributeError
   /\ GelbooruComment.init rt payload self post = Raise AttributeError)
  /\ (forall d e,
         payload = PDict d ->
         py_int rt (default PNone (d !! "id")) = Raise e ->
         GelbooruImage.init rt payload self = Raise e
         /\ GelbooruTag.init rt payload self = Raise e
         /\ GelbooruComment.init rt payload self post = Raise e)
  /\ (forall d : gmap string pyval,
         d !! "id" = None ->
         py_int rt (default PNone (d !! "id")) = Raise TypeError)
  /\ (forall (d : gmap string pyval) s,
         d !! "id" = Some (PStr s) -> int_of_str rt s = None ->
         py_int rt (default PNone (d !! "id")) = Raise ValueError).
Proof.
  split; [|split; [|split]].
  - intros Hnot. destruct payload as [|s|d|l]; try (repeat split; reflexivity).
    now destruct (Hnot d).
  - intros d e -> He.
    unfold GelbooruImage.init, GelbooruTag.init, GelbooruComment.init.
    cbn [Py.get rbind]. rewrite He. repeat split; reflexivity.
  - intros d ->. reflexivity.
  - intros d s -> Hs. cbn. now rewrite Hs.
Qed.

Lemma constructors_need_id_witness :
  let rt := Script.answering [] in
  GelbooruImage.init rt (PList [Script.post_7]) Script.client
  = Raise AttributeError
  /\ GelbooruTag.init rt (PDict (Script.dict [("name", PStr "solo")]))
       Script.client = Raise TypeError
  /\ GelbooruComment.init rt (PDict (Script.dict [("id", PStr "seven")]))
       Script.client None = Raise ValueError.
Proof.
  cbv zeta. split; [|split].
  - destruct (constructors_need_id (Script.answering []) Script.client None
                (PList [Script.post_7])) as (H & _).
    apply H. discriminate.
  - destruct (constructors_need_id (Script.answering []) Script.client None
                (PDict (Script.dict [("name", PStr "solo")])))
      as (_ & H & Hmissing & _).
    apply (H _ _ eq_refl). apply Hmissing. reflexivity.
  - destruct (constructors_need_id (Script.answering []) Script.client None
                (PDict (Script.dict [("id", PStr "seven")])))
      as (_ & H & _ & Htext).
    apply (H _ _ eq_refl). apply (Htext _ "seven"); reflexivity.
Defined.

(** X16. The fields of a tag that was built from a mapping: [id] is [int]
    of the ['id'] entry, [name] and [ambiguous] are the entries as they came,
    and [count] is [int] of the ['@count'] entry when there is one and 0 when
    there is none. *)
Theorem tag_fields_from_payload (rt : Runtime) (self : Gelbooru)
    (d : gmap string pyval) (t : GelbooruTag.t) :
  GelbooruTag.init rt (PDict d) self = Ok t ->
  py_int rt (default PNone (d !! "id")) = Ok (GelbooruTag.id t)
  /\ GelbooruTag.name t = default PNone (d !! "name")
  /\ GelbooruTag.ambiguous t = default PNone (d !! "ambiguous")
  /\ match d !! "@count" with
     | Some v => py_int rt v = Ok (GelbooruTag.count t)
     | None => GelbooruTag.count t = 0
     end.
Proof.
  unfold GelbooruTag.init, GelbooruTag.count_of. cbn [Py.get rbind].
  destruct (py_int rt (default PNone (d !! "id"))) as [n|e];
    [|discriminate].
  cbn [rbind]. destruct (d !! "@count") as [v|].
  - destruct (py_int rt v) as [c|e]; [|discriminate].
    cbn [rbind]. intros [= <-]. repeat split.
  - cbn [rbind]. intros [= <-]. repeat split.
Qed.

Lemma tag_fields_from_payload_witness :
  let rt := Script.answering [] in
  match GelbooruTag.init rt Script.tag_5 Script.client,
        GelbooruTag.init rt
          (PDict (Script.dict [("id", PStr "9"); ("name", PStr "hat")]))
          Script.client
  with
  | Ok t, Ok u =>
      GelbooruTag.count t = 12 /\ GelbooruTag.count u = 0
      /\ GelbooruTag.name u = PStr "hat"
  | _, _ => False
  end.
Proof.
  cbv zeta.
  destruct (GelbooruTag.init (Script.answering []) Script.tag_5
              Script.client) as [t|e] eqn:Ht;
    [|vm_compute in Ht; discriminate].
  destruct (GelbooruTag.init (Script.answering [])
              (PDict (Script.dict [("id", PStr "9"); ("name", PStr "hat")]))
              Script.client) as [u|e] eqn:Hu;
    [|vm_compute in Hu; discriminate].
  destruct (tag_fields_from_payload _ _ _ t Ht) as (_ & _ & _ & Hc).
  destruct (tag_fields_from_payload _ _ _ u Hu) as (_ & Hn & _ & Hc').
  split; [|split].
  - change (Ok 12 = Ok (GelbooruTag.count t)) in Hc. congruence.
  - exact Hc'.
  - rewrite Hn. reflexivity.
Defined.

(** ** The filter of [tag_list] *)

Lemma str_truthy_some s : s <> "" -> str_truthy (Some s) = true.
Proof.
  intros Hs. cbn. apply negb_true_iff, String.eqb_neq. exact Hs.
Qed.

(** X17. The request of [tag_list] always carries [limit], [orderby] and
    [order], and at most one of [name], [names] and [name_pattern]. A name
    that is not empty goes, formatted, under [name]; a list of names that is
    not empty goes under [names], formatted and joined with spaces, and
    splits back at the spaces into the formatted names. When a name is given
    the pattern is dropped; the pattern, formatted, goes under
    [name_pattern] only when no name is given. *)
Theorem tag_list_filter_arguments (self : Gelbooru) (name : option name_arg)
    (name_pattern : option string) (limit : Z) (sort_by sort_order : string) :
  let url := tag_list_url self name name_pattern limit sort_by sort_order in
  arg "limit" url = Some (AInt limit)
  /\ arg "orderby" url = Some (AStr sort_by)
  /\ arg "order" url = Some (AStr sort_order)
  /\ (forall s, name = Some (NameStr s) -> s <> "" ->
         arg "name" url = Some (AStr (format_tag s))
         /\ arg "names" url = None /\ arg "name_pattern" url = None)
  /\ (forall l, name = Some (NameList l) -> l <> [] ->
         arg "names" url
         = Some (AStr (PyStr.join " " (map format_tag l)))
         /\ PyStr.split_space (PyStr.join " " (map format_tag l))
            = map format_tag l
         /\ arg "name" url = None /\ arg "name_pattern" url = None)
  /\ (forall pattern, name_truthy name = false ->
         name_pattern = Some pattern -> pattern <> "" ->
         arg "name_pattern" url = Some (AStr (format_tag pattern))
         /\ arg "name" url = None /\ arg "names" url = None)
  /\ (name_truthy name = false -> str_truthy name_pattern = false ->
      arg "name" url = None /\ arg "names" url = None
      /\ arg "name_pattern" url = None).
Proof.
  cbv zeta. unfold tag_list_url. cbv zeta.
  split; [|split; [|split; [|split; [|split; [|split]]]]].
  - rewrite !arg_set_ne by discriminate.
    destruct (name_truthy name).
    + destruct name as [[s|l]|]; rewrite ?arg_set_ne by discriminate;
        apply arg_set_eq.
    + destruct (str_truthy name_pattern); rewrite ?arg_set_ne by discriminate;
        apply arg_set_eq.
  - rewrite arg_set_ne by discriminate. apply arg_set_eq.
  - apply arg_set_eq.
  - intros s -> Hs. cbn [name_truthy].
    apply String.eqb_neq in Hs. rewrite Hs. cbn [negb].
    rewrite !arg_set_ne by discriminate. rewrite arg_set_eq.
    repeat split; rewrite ?arg_set_ne by discriminate;
      try reflexivity; apply endpoint_no_arg; discriminate.
  - intros l -> Hl. cbn [name_truthy].
    destruct l as [|x l]; [congruence|]. cbn [nonempty].
    rewrite !arg_set_ne by discriminate. rewrite arg_set_eq.
    split; [reflexivity|]. split.
    + apply split_join; [|discriminate].
      apply Forall_forall. intros t Ht.
      apply list_elem_of_In, in_map_iff in Ht. destruct Ht as (y & <- & _).
      apply format_tag_no_space.
    + split; rewrite ?arg_set_ne by discriminate;
        apply endpoint_no_arg; discriminate.
  - intros pattern -> -> Hp. rewrite (str_truthy_some _ Hp).
    rewrite !arg_set_ne by discriminate. rewrite arg_set_eq.
    repeat split; rewrite ?arg_set_ne by discriminate;
      try reflexivity; apply endpoint_no_arg; discriminate.
  - intros -> ->. rewrite !arg_set_ne by discriminate.
    repeat split; apply endpoint_no_arg; discriminate.
Qed.

Lemma tag_list_filter_arguments_witness :
  let url name pattern :=
    tag_list_url Script.client name pattern 100 SORT_COUNT SORT_DESC in
  (arg "name" (url (Some (NameStr " Blue Sky")) (Some "sky")),
   arg "name_pattern" (url (Some (NameStr " Blue Sky")) (Some "sky")))
  = (Some (AStr "blue_sky"), None)
  /\ arg "names" (url (Some (NameList ["Blue Sky"; "Hat"])) None)
     = Some (AStr "blue_sky hat")
  /\ arg "name_pattern" (url (Some (NameStr "")) (Some "Choolgirl "))
     = Some (AStr "choolgirl")
  /\ arg "name_pattern" (url None None) = None.
Proof.
  cbv zeta. split; [|split; [|split]].
  - destruct (tag_list_filter_arguments Script.client
                (Some (NameStr " Blue Sky")) (Some "sky") 100 SORT_COUNT
                SORT_DESC) as (_ & _ & _ & H & _).
    destruct (H " Blue Sky" eq_refl) as (H1 & _ & H3); [discriminate|].
    now rewrite H1, H3.
  - destruct (tag_list_filter_arguments Script.client
                (Some (NameList ["Blue Sky"; "Hat"])) None 100 SORT_COUNT
                SORT_DESC) as (_ & _ & _ & _ & H & _).
    destruct (H ["Blue Sky"; "Hat"] eq_refl) as (H1 & _); [discriminate|].
    now rewrite H1.
  - destruct (tag_list_filter_arguments Script.client
                (Some (NameStr "")) (Some "Choolgirl ") 100 SORT_COUNT
                SORT_DESC) as (_ & _ & _ & _ & _ & H & _).
    destruct (H "Choolgirl " eq_refl eq_refl) as (H1 & _); [discriminate|].
    now rewrite H1.
  - destruct (tag_list_filter_arguments Script.client None None 100
                SORT_COUNT SORT_DESC) as (_ & _ & _ & _ & _ & _ & H).
    now destruct (H eq_refl eq_refl) as (_ & _ & H3).
Defined.

(** ** What the operations leave in the stores *)

Section MoreFrames.

Variable rt : Runtime.
Context {X : Type} (f : World -> X).

Lemma frame_try {A} (m handler : M A) :
  frame f m -> frame f handler -> frame f (try_except_expat m handler).
Proof.
  intros Hm Hh w. unfold try_except_expat. specialize (Hm w).
  destruct (m w) as [[a|[| |[]]] w1]; cbn [snd] in *; try exact Hm.
  now rewrite Hh.
Qed.

Hypothesis f_draws : forall n w, f (with_draws n w) = f w.

Lemma frame_randint a b : frame f (randint rt a b).
Proof.
  intros w. unfold randint. destruct (b <? a); [reflexivity|apply f_draws].
Qed.

End MoreFrames.

Ltac frame_more :=
  first
    [ apply make_image_comment_store
    | apply make_comment_image_store
    | apply frame_try
    | apply frame_randint; reflexivity
    | apply frame_for_each; intros ?
    | frame_step ].

Section Growth.

Variable rt : Runtime.
Context {X : Type} (f : World -> list X).

Lemma grows_of_frame {A} (m : M A) : frame f m -> grows f m.
Proof. intros Hm w. now rewrite Hm. Qed.

Lemma grows_bind {A B} (m : M A) (k : A -> M B) :
  grows f m -> (forall a, grows f (k a)) -> grows f (bind m k).
Proof.
  intros Hm Hk w. unfold bind. specialize (Hm w).
  destruct (m w) as [[a|e] w1]; cbn [snd] in *; [|exact Hm].
  etrans; [exact Hm | apply Hk].
Qed.

Lemma grows_for_each {A B} (g : A -> M B) l :
  (forall a, grows f (g a)) -> grows f (for_each g l).
Proof.
  intros Hg. induction l as [|a l IH]; [now apply grows_of_frame|].
  cbn [for_each]. apply grows_bind; [apply Hg|]. intros b.
  apply grows_bind; [exact IH|]. intros bs. now apply grows_of_frame.
Qed.

Lemma grows_try {A} (m handler : M A) :
  grows f m -> grows f handler -> grows f (try_except_expat m handler).
Proof.
  intros Hm Hh w. unfold try_except_expat. specialize (Hm w).
  destruct (m w) as [[a|[| |[]]] w1]; cbn [snd] in *; try exact Hm.
  etrans; [exact Hm | apply Hh].
Qed.

End Growth.

Section StoreGrowth.

Variable rt : Runtime.

Lemma grows_make_image self p : grows image_store (make_image rt self p).
Proof.
  intros w. unfold make_image, bind, lift, new_image.
  destruct (GelbooruImage.init rt p self); cbn; [|reflexivity].
  now apply prefix_app_r.
Qed.

Lemma grows_make_comment self post p :
  grows comment_store (make_comment rt self post p).
Proof.
  intros w. unfold make_comment, bind, lift, new_comment.
  destruct (GelbooruComment.init rt p self post); cbn; [|reflexivity].
  now apply prefix_app_r.
Qed.

Ltac grow :=
  repeat first
    [ apply grows_of_frame; solve [repeat frame_more]
    | apply grows_make_image
    | apply grows_make_comment
    | apply grows_for_each; intros ?
    | apply grows_try
    | apply grows_bind; [|intros ?]
    | match goal with
      | |- grows _ (if ?c then _ else _) => destruct c
      | |- grows _ (match ?x with _ => _ end) => destruct x
      end ].

Lemma search_posts_grows self tags exclude_tags limit page :
  grows image_store (search_posts rt self tags exclude_tags limit page).
Proof. unfold search_posts. cbv zeta. grow. Qed.

Lemma search_posts_comment_store self tags exclude_tags limit page :
  frame comment_store (search_posts rt self tags exclude_tags limit page).
Proof. unfold search_posts. cbv zeta. repeat frame_more. Qed.

Lemma get_post_grows self post_id :
  grows image_store (get_post rt self post_id).
Proof. unfold get_post. cbv zeta. grow. Qed.

Lemma random_post_grows self tags exclude_tags :
  grows image_store (random_post rt self tags exclude_tags).
Proof.
  unfold random_post. cbv zeta.
  repeat first [apply search_posts_grows | progress grow].
Qed.

Lemma random_post_comment_store self tags exclude_tags :
  frame comment_store (random_post rt self tags exclude_tags).
Proof.
  unfold random_post. cbv zeta.
  repeat first [apply search_posts_comment_store | frame_more].
Qed.

Lemma get_comments_grows self post :
  grows comment_store (get_comments rt self post).
Proof. unfold get_comments, int_of_post. cbv zeta. grow. Qed.

Lemma tag_list_stores self name name_pattern limit sort_by sort_order :
  frame image_store
    (tag_list rt self name name_pattern limit sort_by sort_order)
  /\ frame comment_store
       (tag_list rt self name name_pattern limit sort_by sort_order).
Proof.
  unfold tag_list, make_tag. cbv zeta. split; repeat frame_more.
Qed.

Lemma is_deleted_stores self image_md5 :
  frame image_store (is_deleted rt self image_md5)
  /\ frame comment_store (is_deleted rt self image_md5).
Proof. unfold is_deleted. cbv zeta. split; repeat frame_more. Qed.

End StoreGrowth.

(** X18. No operation of the client changes or removes an object that is
    in the store. [get_post], [search_posts] and [random_post] only add
    images, after the ones that are there, and leave the comments alone;
    [get_comments] only adds comments and leaves the images alone;
    [tag_list] and [is_deleted] leave both stores as they are. This holds
    however the operation ends. *)
Theorem operations_keep_objects (rt : Runtime) (self : Gelbooru) (w : World) :
  (forall post_id,
      let w' := snd (get_post rt self post_id w) in
      image_store w `prefix_of` image_store w'
      /\ comment_store w' = comment_store w)
  /\ (forall tags exclude_tags limit page,
         let w' := snd (search_posts rt self tags exclude_tags limit page w) in
         image_store w `prefix_of` image_store w'
         /\ comment_store w' = comment_store w)
  /\ (forall tags exclude_tags,
         let w' := snd (random_post rt self tags exclude_tags w) in
         image_store w `prefix_of` image_store w'
         /\ comment_store w' = comment_store w)
  /\ (forall post,
         let w' := snd (get_comments rt self post w) in
         image_store w' = image_store w
         /\ comment_store w `prefix_of` comment_store w')
  /\ (forall name name_pattern limit sort_by sort_order,
         let w' :=
           snd (tag_list rt self name name_pattern limit sort_by sort_order
                  w) in
         image_store w' = image_store w
         /\ comment_store w' = comment_store w)
  /\ (forall image_md5,
         let w' := snd (is_deleted rt self image_md5 w) in
         image_store w' = image_store w
         /\ comment_store w' = comment_store w).
Proof.
  repeat split_and; intros; subst w'; split.
  - apply get_post_grows.
  - apply get_post_comment_store.
  - apply search_posts_grows.
  - apply search_posts_comment_store.
  - apply random_post_grows.
  - apply random_post_comment_store.
  - apply get_comments_image_store.
  - apply get_comments_grows.
  - apply tag_list_stores.
  - apply tag_list_stores.
  - apply is_deleted_stores.
  - apply is_deleted_stores.
Qed.

(** X19. [get_post] makes one image of whatever is under
    [payload['posts']['post']], without a single-or-list test: a mapping gives
    one new image at the end of the store, whose reference is the result,
    or the exception of the constructor; a list raises [AttributeError],
    because the constructor asks the list for its ['id']. *)
Theorem get_post_builds_one_image (rt : Runtime) (self : Gelbooru)
    (post_id : argval) (w : World) (st : Z) (body : bytes)
    (payload outer : gmap string pyval) (post : pyval) :
  let url := get_post_url self post_id in
  let w' := received url body w in
  http_get rt (length (requests w)) url = (st, body) ->
  is_success st = true ->
  xmltodict_parse rt body = Some payload ->
  payload !! "posts" = Some (PDict outer) ->
  outer !! "post" = Some post ->
  get_post rt self post_id w
  = match GelbooruImage.init rt post self with
    | Ok i =>
        (Ok (length (image_store w)), with_images (image_store w ++ [i]) w')
    | Raise e => (Raise e, w')
    end
  /\ (forall l, post = PList l ->
                get_post rt self post_id w = (Raise AttributeError, w')).
Proof.
  intros url w' Hget Hst Hparse Houter Hinner.
  rewrite (get_post_run rt self post_id w st body Hget Hst). cbv zeta.
  rewrite Hparse, Houter. cbn [Py.getitem]. unfold Py.dict_getitem.
  rewrite Hinner. unfold make_image, bind, lift, new_image. split.
  - destruct (GelbooruImage.init rt post self); reflexivity.
  - intros l ->. reflexivity.
Qed.

Lemma get_post_builds_one_image_witness :
  fst (get_post (Script.answering [(200, Script.one_post_xml)])
         Script.client (AInt 7) empty_world) = Ok 0%nat
  /\ fst (get_post (Script.answering [(200, Script.two_posts_xml)])
            Script.client (AInt 7) empty_world) = Raise AttributeError.
Proof.
  split.
  - destruct (get_post_builds_one_image
                (Script.answering [(200, Script.one_post_xml)])
                Script.client (AInt 7) empty_world 200 Script.one_post_xml
                Script.one_post Script.one_post_outer Script.post_7
                eq_refl eq_refl eq_refl eq_refl eq_refl) as [H _].
    rewrite H. reflexivity.
  - destruct (get_post_builds_one_image
                (Script.answering [(200, Script.two_posts_xml)])
                Script.client (AInt 7) empty_world 200 Script.two_posts_xml
                Script.two_posts Script.two_posts_outer
                (PList [Script.post_7; Script.post_7])
                eq_refl eq_refl eq_refl eq_refl eq_refl) as [_ H].
    now rewrite (H _ eq_refl).
Defined.

(** X20. When the ['tag'] entry of the response of [tag_list] is a list
    and a tag is built from each element, the result is the list of those
    tags in the order of the response; if the constructor raises on an
    element, the exception of the first such element is the outcome. *)
Theorem tag_list_in_order (rt : Runtime) (self : Gelbooru)
    (name : option name_arg) (name_pattern : option string) (limit : Z)
    (sort_by sort_order : string) (w : World) (st : Z) (body : bytes)
    (payload outer : gmap string pyval) (l : list pyval) :
  let url := tag_list_url self name name_pattern limit sort_by sort_order in
  http_get rt (length (requests w)) url = (st, body) ->
  is_success st = true ->
  xmltodict_parse rt body = Some payload ->
  payload !! "tags" = Some (PDict outer) ->
  outer !! "tag" = Some (PList l) ->
  (forall ts,
      Forall2 (fun p t => GelbooruTag.init rt p self = Ok t) l ts ->
      tag_list rt self name name_pattern limit sort_by sort_order w
      = (Ok (Tags ts), received url body w))
  /\ (forall good ts p e rest,
         l = (good ++ p :: rest)%list ->
         Forall2 (fun p t => GelbooruTag.init rt p self = Ok t) good ts ->
         GelbooruTag.init rt p self = Raise e ->
         tag_list rt self name name_pattern limit sort_by sort_order w
         = (Raise e, received url body w)).
Proof.
  intros url Hget Hst Hparse Houter Hinner.
  rewrite (tag_list_run rt _ _ _ _ _ _ _ _ _ Hget Hst). cbv zeta.
  rewrite Hparse, Houter. cbn [Py.getitem]. unfold Py.dict_getitem.
  rewrite Hinner. fold url. unfold make_tag. split.
  - intros ts Hall.
    now rewrite (for_each_lift_all
                   (fun p => GelbooruTag.init rt p self) l ts _ Hall).
  - intros good ts p e rest -> Hgood Hp.
    set (w' := received url body w). clearbody w'. clear -Hgood Hp.
    induction Hgood as [|q t good ts Hq _ IH].
    + cbn [app for_each]. unfold bind, lift. now rewrite Hp.
    + cbn [app for_each]. unfold bind at 1, lift at 1. rewrite Hq.
      unfold bind at 1.
      destruct (for_each _ (good ++ p :: rest) w') as [[x|e'] w''];
        [discriminate IH | now injection IH as -> ->].
Qed.

Lemma tag_list_in_order_witness :
  match fst (tag_list (Cases.answering [(200, Cases.two_tags_xml)])
               Script.client None None 100 SORT_COUNT SORT_DESC empty_world)
  with
  | Ok (Tags ts) =>
      map Script.tag_summary ts
      = [(5, PStr "solo", 12); (5, PStr "solo", 12)]
  | _ => False
  end.
Proof.
  set (rt := Cases.answering [(200, Cases.two_tags_xml)]).
  pose (ts := match GelbooruTag.init rt Script.tag_5 Script.client with
              | Ok t => [t; t]
              | Raise _ => []
              end).
  assert (Hall : Forall2
                   (fun p t => GelbooruTag.init rt p Script.client = Ok t)
                   [Script.tag_5; Script.tag_5] ts)
    by (repeat constructor).
  destruct (tag_list_in_order rt Script.client None None 100 SORT_COUNT
              SORT_DESC empty_world 200 Cases.two_tags_xml Cases.two_tags
              Cases.two_tags_outer [Script.tag_5; Script.tag_5]
              eq_refl eq_refl eq_refl eq_refl eq_refl) as [H _].
  rewrite (H ts Hall). reflexivity.
Defined.

(** ** Tag formatting over all of Unicode *)

Section UnicodeStrings.

Import UStr.
Local Open Scope N_scope.

Variable p : N -> bool.

Lemma ulstrip_spec s :
  exists lead,
    s = (lead ++ lstrip p s)%list
    /\ Forall (fun c => p c = true) lead
    /\ no_leading p (lstrip p s) = true.
Proof.
  induction s as [|c s (lead & Hs & Hlead & Hno)].
  - exists []. repeat split. constructor.
  - cbn [lstrip]. destruct (p c) eqn:E.
    + exists (c :: lead). cbn [app]. rewrite <- Hs.
      repeat split; [now constructor | exact Hno].
    + exists []. repeat split; [constructor | cbn; now rewrite E].
Qed.

Lemma urstrip_spec s :
  exists trail,
    s = (rstrip p s ++ trail)%list
    /\ Forall (fun c => p c = true) trail
    /\ no_trailing p (rstrip p s) = true.
Proof.
  induction s as [|c s (trail & Hs & Htrail & Hno)].
  - exists []. repeat split. constructor.
  - cbn [rstrip]. destruct (rstrip p s) as [|c' r] eqn:Er.
    + cbn [app] in Hs. subst trail. destruct (p c) eqn:E.
      * exists (c :: s). repeat split. now constructor.
      * exists s. repeat split; [exact Htrail | cbn; now rewrite E].
    + exists trail. cbn [app] in *. rewrite <- Hs.
      repeat split; [exact Htrail | exact Hno].
Qed.

Lemma urstrip_no_leading s :
  no_leading p s = true -> no_leading p (rstrip p s) = true.
Proof.
  destruct s as [|c s]; [reflexivity|].
  intros Hc. cbn [rstrip]. destruct (rstrip p s).
  - cbn in Hc. destruct (p c) eqn:E; [discriminate|]. cbn. now rewrite E.
  - exact Hc.
Qed.

End UnicodeStrings.

Section UnicodeTags.

Import UStr.
Local Open Scope N_scope.

Variable U : Unidata.

Lemma strip_trimmed_of t : trimmed_of U t (strip U t).
Proof.
  unfold strip.
  destruct (ulstrip_spec (isspace U) t) as (lead & Ht & Hlead & Hno).
  destruct (urstrip_spec (isspace U) (lstrip (isspace U) t))
    as (trail & Hs & Htrail & Hno').
  exists lead, trail. split; [|split; [|split; [|split]]].
  - rewrite <- Hs. exact Ht.
  - exact Hlead.
  - exact Htrail.
  - now apply urstrip_no_leading.
  - exact Hno'.
Qed.

Lemma lstrip_undashed_of core : undashed_of core (lstrip is_dash core).
Proof.
  destruct (ulstrip_spec is_dash core) as (dashes & Hc & Hd & Hno).
  exists dashes. split; [exact Hc|]. split; [|exact Hno].
  eapply Forall_impl; [exact Hd|]. intros c Hcd. now apply N.eqb_eq in Hcd.
Qed.

Lemma replace_underscored s : replace space underscore s = underscored s.
Proof. reflexivity. Qed.

Lemma underscored_no_space s : no_space (underscored s) = true.
Proof.
  unfold no_space, underscored. apply forallb_forall. intros c Hc.
  apply in_map_iff in Hc as (c0 & <- & _).
  destruct (c0 =? 32) eqn:E; [reflexivity | now rewrite E].
Qed.

Lemma underscored_upper s :
  isupper U underscore = false -> upper_only_from U (underscored s) s.
Proof.
  intros Hu c Hc Hup. apply in_map_iff in Hc as (c0 & <- & Hin).
  destruct (c0 =? 32); [|exact Hin].
  change 95 with underscore in Hup. congruence.
Qed.

Lemma underscored_no_leading_dash s :
  no_leading (fun c => c =? 45) (underscored s) = no_leading is_dash s.
Proof.
  destruct s as [|c s]; [reflexivity|]. cbn. unfold is_dash, dash.
  destruct (c =? 32) eqn:E; [|reflexivity].
  apply N.eqb_eq in E. now subst c.
Qed.

End UnicodeTags.

(** C4, as the code has it. Whatever the tags (any code points) and
    whatever the Unicode tables, as long as [str.lower] keeps a leading ['-']
    and makes none, and ['_'] and ['-'] are not upper-case: [_format_tags]
    returns one tag for each inclusion tag, in order, followed by one for each
    exclusion tag, in order. The tag of an inclusion tag is the tag without
    the white space at its ends, put through [str.lower], with every space
    then replaced by an underscore and nothing else changed. The tag of an
    exclusion tag is a ['-'] followed by the same made from the trimmed tag
    without the dashes it starts with, so it begins with exactly one ['-']
    however many the input had. No output tag holds a space, and an upper-case
    character in an output tag is one that [str.lower] has left in its
    result. *)
Theorem format_tags_normalized_unicode (U : UStr.Unidata)
    (tags exclude_tags : option (list (list N))) :
  (forall s,
      UStr.no_leading UStr.is_dash (UStr.lower U s)
      = UStr.no_leading UStr.is_dash s) ->
  UStr.isupper U UStr.underscore = false ->
  UStr.isupper U UStr.dash = false ->
  exists inclusions exclusions,
    UStr._format_tags U tags exclude_tags = (inclusions ++ exclusions)%list
    /\ Forall2
         (fun tag out =>
            exists core,
              UStr.trimmed_of U tag core
              /\ out = UStr.underscored (UStr.lower U core)
              /\ UStr.no_space out = true
              /\ UStr.upper_only_from U out (UStr.lower U core))
         (default [] tags) inclusions
    /\ Forall2
         (fun tag out =>
            exists core rest,
              UStr.trimmed_of U tag core
              /\ UStr.undashed_of core rest
              /\ out = (45 :: UStr.underscored (UStr.lower U rest))%N
              /\ UStr.no_space out = true
              /\ UStr.one_leading_dash out = true
              /\ UStr.upper_only_from U out (UStr.lower U rest))
         (default [] exclude_tags) exclusions.
Proof.
  intros Hdash Hunder Hminus.
  exists (map (UStr.format_tag U) (default [] tags)),
    (map (UStr.format_exclude_tag U) (default [] exclude_tags)).
  split; [|split].
  - unfold UStr._format_tags.
    destruct tags as [[|t ts]|], exclude_tags as [[|x xs]|]; reflexivity.
  - apply Forall2_fmap_r, Forall_Forall2_diag, Forall_forall.
    intros tag _. exists (UStr.strip U tag).
    split; [apply strip_trimmed_of|]. split; [reflexivity|].
    split; [apply underscored_no_space|].
    now apply underscored_upper.
  - apply Forall2_fmap_r, Forall_Forall2_diag, Forall_forall.
    intros tag _.
    exists (UStr.strip U tag), (UStr.lstrip UStr.is_dash (UStr.strip U tag)).
    destruct (lstrip_undashed_of (UStr.strip U tag)) as (ds & Hc & Hd & Hno).
    split; [apply strip_trimmed_of|].
    split; [exists ds; now repeat split|].
    split; [reflexivity|].
    unfold UStr.format_exclude_tag. rewrite replace_underscored.
    split; [|split].
    + cbn. apply underscored_no_space.
    + cbn. now rewrite underscored_no_leading_dash, Hdash.
    + intros c [<- | Hc'] Hup.
      * change 45%N with UStr.dash in Hup. congruence.
      * now apply (underscored_upper U _ Hunder).
Qed.

Lemma excerpt_lower_dash s :
  UStr.no_leading UStr.is_dash (UStr.lower UStr.excerpt s)
  = UStr.no_leading UStr.is_dash s.
Proof.
  destruct s as [|c s]; [reflexivity|]. cbn.
  destruct (UStr.latin1_isupper c) eqn:E; [|reflexivity].
  unfold UStr.is_dash, UStr.dash.
  destruct (N.leb_spec 65 c) as [Hc | Hc].
  - replace (c + 32 =? 45)%N with false by (symmetry; apply N.eqb_neq; lia).
    replace (c =? 45)%N with false by (symmetry; apply N.eqb_neq; lia).
    reflexivity.
  - unfold UStr.latin1_isupper in E.
    replace (65 <=? c)%N with false in E by (symmetry; apply N.leb_gt; lia).
    replace (192 <=? c)%N with false in E by (symmetry; apply N.leb_gt; lia).
    replace (216 <=? c)%N with false in E by (symmetry; apply N.leb_gt; lia).
    discriminate.
Qed.

Lemma format_tags_normalized_unicode_witness :
  let U := UStr.excerpt in
  let tags := Some [UStr.codes " Blue Sky"; [8450; 32; 70; 105; 101; 108; 100]%N] in
  let exclude_tags := Some [UStr.codes "--Red Eyes "] in
  (forall s,
      UStr.no_leading UStr.is_dash (UStr.lower U s)
      = UStr.no_leading UStr.is_dash s)
  /\ UStr.isupper U UStr.underscore = false
  /\ UStr.isupper U UStr.dash = false
  /\ exists inclusions exclusions,
       UStr._format_tags U tags exclude_tags = (inclusions ++ exclusions)%list
       /\ Forall2
            (fun tag out =>
               exists core,
                 UStr.trimmed_of U tag core
                 /\ out = UStr.underscored (UStr.lower U core)
                 /\ UStr.no_space out = true
                 /\ UStr.upper_only_from U out (UStr.lower U core))
            (default [] tags) inclusions
       /\ Forall2
            (fun tag out =>
               exists core rest,
                 UStr.trimmed_of U tag core
                 /\ UStr.undashed_of core rest
                 /\ out = (45 :: UStr.underscored (UStr.lower U rest))%N
                 /\ UStr.no_space out = true
                 /\ UStr.one_leading_dash out = true
                 /\ UStr.upper_only_from U out (UStr.lower U rest))
            (default [] exclude_tags) exclusions.
Proof.
  cbv zeta.
  split; [exact excerpt_lower_dash|].
  split; [reflexivity|]. split; [reflexivity|].
  apply (format_tags_normalized_unicode UStr.excerpt
           (Some [UStr.codes " Blue Sky"; [8450; 32; 70; 105; 101; 108; 100]%N])
           (Some [UStr.codes "--Red Eyes "])
           excerpt_lower_dash eq_refl eq_refl).
Defined.

Example format_tags_unicode_blue_sky :
  UStr._format_tags UStr.excerpt
    (Some [UStr.codes "Blue Sky"]) (Some [UStr.codes "-Red Eyes"])
  = [UStr.codes "blue_sky"; UStr.codes "-red_eyes"].
Proof. reflexivity. Qed.

(** C4, as it is stated, fails when a tag is lower-case if it holds no
    upper-case character: [str.lower] leaves U+2102, the double-struck
    capital C, as it is, and it is upper-case ([str.isupper] is true of it).
    The tag made of U+2102 and [' Field'] is formatted to U+2102 and
    ['_field'], which still holds it. *)
Lemma format_tags_upper_case_kept :
  let tag := [8450; 32; 70; 105; 101; 108; 100]%N in
  let out := [8450; 95; 102; 105; 101; 108; 100]%N in
  UStr._format_tags UStr.excerpt (Some [tag]) None = [out]
  /\ UStr.lower UStr.excerpt tag = [8450; 32; 102; 105; 101; 108; 100]%N
  /\ In 8450%N out
  /\ UStr.isupper UStr.excerpt 8450 = true
  /\ UStr.is_lowercase UStr.excerpt out = false
  /\ ~ Forall (fun o => UStr.is_lowercase UStr.excerpt o = true)
         (UStr._format_tags UStr.excerpt (Some [tag]) None).
Proof.
  cbv zeta. repeat split; try reflexivity.
  - now left.
  - intros H. apply Forall_inv in H. discriminate H.
Qed.

(** *** The strings of [PyStr] are the strings of [UStr] below U+0100 *)

Section Latin1.

Lemma codes_cons c s :
  UStr.codes (String c s) = N_of_ascii c :: UStr.codes s.
Proof. reflexivity. Qed.

Lemma codes_lstrip (p : ascii -> bool) (q : N -> bool) s :
  (forall c, p c = q (N_of_ascii c)) ->
  UStr.codes (PyStr.lstrip p s) = UStr.lstrip q (UStr.codes s).
Proof.
  intros Hpq. induction s as [|c s IH]; [reflexivity|].
  cbn [PyStr.lstrip]. rewrite codes_cons. cbn [UStr.lstrip].
  rewrite <- Hpq. destruct (p c); [exact IH | reflexivity].
Qed.

Lemma codes_rstrip (p : ascii -> bool) (q : N -> bool) s :
  (forall c, p c = q (N_of_ascii c)) ->
  UStr.codes (PyStr.rstrip p s) = UStr.rstrip q (UStr.codes s).
Proof.
  intros Hpq. induction s as [|c s IH]; [reflexivity|].
  cbn [PyStr.rstrip]. rewrite codes_cons. cbn [UStr.rstrip].
  rewrite <- IH, <- Hpq.
  destruct (PyStr.rstrip p s); [destruct (p c)|]; reflexivity.
Qed.

Lemma latin1_isspace_code c :
  PyStr.isspace c = UStr.isspace UStr.excerpt (N_of_ascii c).
Proof. reflexivity. Qed.

Lemma latin1_is_dash_code c :
  PyStr.is_dash c = UStr.is_dash (N_of_ascii c).
Proof. destruct c as [[] [] [] [] [] [] [] []]; reflexivity. Qed.

Lemma latin1_lower_code c :
  N_of_ascii (PyStr.lower_char c)
  = (if UStr.latin1_isupper (N_of_ascii c)
     then N_of_ascii c + 32 else N_of_ascii c)%N.
Proof. destruct c as [[] [] [] [] [] [] [] []]; reflexivity. Qed.

Lemma latin1_replace_code c :
  N_of_ascii (if Ascii.eqb c " " then "_"%char else c)
  = (if (N_of_ascii c =? UStr.space)%N
     then UStr.underscore else N_of_ascii c).
Proof. destruct c as [[] [] [] [] [] [] [] []]; reflexivity. Qed.

Lemma codes_strip s :
  UStr.codes (PyStr.strip s) = UStr.strip UStr.excerpt (UStr.codes s).
Proof.
  unfold PyStr.strip, UStr.strip.
  rewrite (codes_rstrip _ (UStr.isspace UStr.excerpt))
    by apply latin1_isspace_code.
  now rewrite (codes_lstrip _ (UStr.isspace UStr.excerpt))
    by apply latin1_isspace_code.
Qed.

Lemma codes_lower s :
  UStr.codes (PyStr.lower s) = UStr.lower UStr.excerpt (UStr.codes s).
Proof.
  induction s as [|c s IH]; [reflexivity|].
  cbn [PyStr.lower]. rewrite !codes_cons, IH, latin1_lower_code.
  reflexivity.
Qed.

Lemma codes_replace s :
  UStr.codes (PyStr.replace " " "_" s)
  = UStr.replace UStr.space UStr.underscore (UStr.codes s).
Proof.
  induction s as [|c s IH]; [reflexivity|].
  cbn [PyStr.replace]. rewrite !codes_cons, IH, latin1_replace_code.
  reflexivity.
Qed.

Lemma codes_format_tag tag :
  UStr.codes (format_tag tag) = UStr.format_tag UStr.excerpt (UStr.codes tag).
Proof.
  unfold format_tag, UStr.format_tag.
  now rewrite codes_replace, codes_lower, codes_strip.
Qed.

Lemma codes_format_exclude_tag tag :
  UStr.codes (format_exclude_tag tag)
  = UStr.format_exclude_tag UStr.excerpt (UStr.codes tag).
Proof.
  unfold format_exclude_tag, UStr.format_exclude_tag.
  change ("-" ++ ?s) with (String "-" s). rewrite codes_cons.
  rewrite codes_replace, codes_lower.
  rewrite (codes_lstrip _ UStr.is_dash) by apply latin1_is_dash_code.
  now rewrite codes_strip.
Qed.

(** On tags below U+0100 the two embeddings of [_format_tags] agree, so what
    the operations send is what the wide one describes. *)
Lemma codes_format_tags (tags exclude_tags : option (list string)) :
  map UStr.codes (_format_tags tags exclude_tags)
  = UStr._format_tags UStr.excerpt
      (option_map (map UStr.codes) tags)
      (option_map (map UStr.codes) exclude_tags).
Proof.
  rewrite _format_tags_eq, map_app, !map_map.
  unfold UStr._format_tags.
  rewrite (map_ext _ _ codes_format_tag).
  rewrite (map_ext _ _ codes_format_exclude_tag).
  destruct tags as [[|t ts]|], exclude_tags as [[|x xs]|];
    cbn [option_map list_truthy default map app id];
    rewrite ?map_map, ?app_nil_r; reflexivity.
Qed.

End Latin1.
